(** * Capacity estimator of the metrics-pipeline simulator

    Shallow embedding of [src/lib/calculations.ts]: the input normalizer,
    the flow model, the five resource estimators, the status classifier,
    the instance-scaling explorer and [formatNumber].

    The program computes on JavaScript numbers.  The estimator is written
    once, over an interface of the operations it uses ([JS.Number]), and
    read at two carriers:
    - [Float64]: IEEE-754 binary64 as specified by [SpecFloat] (the exact
      values a JavaScript engine produces, with NaN, infinities, signed
      zeros, rounding and overflow); every definition computes;
    - [Ideal]: the real numbers, that is the same formulas with rounding
      and overflow set aside, for laws that hold of the formulas
      themselves. *)

From Stdlib Require Import ZArith QArith Reals Lra Lia List String Ascii Bool.
From Stdlib Require Import Floats.SpecFloat DecimalString.
Import ListNotations.

Set Implicit Arguments.

(** ** JavaScript numbers *)

Module JS.

(** The operations on numbers that [calculations.ts] uses. *)
Class Number (N : Type) : Type := {
  lit : Q -> N;                 (* a numeric literal of the source text *)
  add : N -> N -> N;
  sub : N -> N -> N;
  mul : N -> N -> N;
  div : N -> N -> N;
  ltb : N -> N -> bool;         (* a < b *)
  leb : N -> N -> bool;         (* a <= b *)
  truthy : N -> bool;           (* ToBoolean: false at 0, -0 and NaN *)
  Math_max : N -> N -> N;
  Math_min : N -> N -> N;
  Math_ceil : N -> N;
  Math_round : N -> N;
  Math_log10 : N -> N
}.

Definition gtb {N} `{Number N} (a b : N) : bool := ltb b a.
Definition geb {N} `{Number N} (a b : N) : bool := leb b a.

(** [x || d] on a possibly missing number: the default replaces
    [undefined] and every falsy number. *)
Definition or_default {N} `{Number N} (x : option N) (d : N) : N :=
  match x with
  | Some v => if truthy v then v else d
  | None => d
  end.

(** [o?.f] on a possibly null object. *)
Definition opt_field {O A} (o : option O) (f : O -> option A) : option A :=
  match o with
  | Some r => f r
  | None => None
  end.

End JS.

Declare Scope js_scope.
Delimit Scope js_scope with js.
Notation "a + b" := (JS.add a b) : js_scope.
Notation "a - b" := (JS.sub a b) : js_scope.
Notation "a * b" := (JS.mul a b) : js_scope.
Notation "a / b" := (JS.div a b) : js_scope.
Notation "a >? b" := (JS.gtb a b) (at level 70, no associativity) : js_scope.
Notation "a <? b" := (JS.ltb a b) (at level 70, no associativity) : js_scope.
Notation "a <=? b" := (JS.leb a b) (at level 70, no associativity) : js_scope.
Notation "a >=? b" := (JS.geb a b) (at level 70, no associativity) : js_scope.
Notation "x '||' d" := (JS.or_default x d) (at level 50, left associativity) : js_scope.
Notation "o '?.' f" := (JS.opt_field o f) (at level 40, left associativity) : js_scope.
Notation "# q" := (JS.lit q%Q) (at level 9, q at level 9, format "# q") : js_scope.

(** ** IEEE-754 binary64 *)

Module Float64.

Local Open Scope string_scope.
Local Open Scope Z_scope.

Definition prec : Z := 53.
Definition emax : Z := 1024.

Definition float64 : Type := spec_float.

Definition pzero : float64 := S754_zero false.
Definition nzero : float64 := S754_zero true.
Definition pinf : float64 := S754_infinity false.
Definition ninf : float64 := S754_infinity true.
Definition nan : float64 := S754_nan.

Definition fadd : float64 -> float64 -> float64 := SFadd prec emax.
Definition fsub : float64 -> float64 -> float64 := SFsub prec emax.
Definition fmul : float64 -> float64 -> float64 := SFmul prec emax.
Definition fdiv : float64 -> float64 -> float64 := SFdiv prec emax.
Definition fltb : float64 -> float64 -> bool := SFltb.
Definition fleb : float64 -> float64 -> bool := SFleb.

(** The double nearest to the rational [p/d] (ties to even), with sign [s]. *)
Definition round_ratio (s : bool) (p d : positive) : float64 :=
  let '(m, e, l) := SFdiv_core_binary prec emax (Zpos p) 0 (Zpos d) 0 in
  binary_round_aux prec emax s m e l.

(** A decimal literal denotes the double nearest to its value. *)
Definition of_Q (q : Q) : float64 :=
  match Qnum q with
  | Z0 => pzero
  | Zpos p => round_ratio false p (Qden q)
  | Zneg p => round_ratio true p (Qden q)
  end.

(** An integer of magnitude at most 2^53 is a double. *)
Definition of_Z (z : Z) : float64 := binary_normalize prec emax z 0 false.

Definition is_nan (x : float64) : bool :=
  match x with S754_nan => true | _ => false end.

Definition is_finite (x : float64) : bool :=
  match x with S754_zero _ | S754_finite _ _ _ => true | _ => false end.

Definition sign (x : float64) : bool :=
  match x with
  | S754_zero s | S754_infinity s | S754_finite s _ _ => s
  | S754_nan => false
  end.

(** ToBoolean: [+0], [-0] and [NaN] are falsy. *)
Definition ftruthy (x : float64) : bool :=
  match x with
  | S754_zero _ | S754_nan => false
  | _ => true
  end.

(** The same finite double (finite doubles are kept in canonical form). *)
Definition same_double (a b : float64) : bool :=
  match a, b with
  | S754_finite sa ma ea, S754_finite sb mb eb =>
      Bool.eqb sa sb && Pos.eqb ma mb && Z.eqb ea eb
  | _, _ => false
  end.

(** [Math.max] and [Math.min] (ECMA-262 21.3.2.24 and 21.3.2.25): NaN if an
    argument is NaN; [+0] is larger than [-0]. *)
Definition fmax (a b : float64) : float64 :=
  if is_nan a || is_nan b then nan
  else if fltb a b then b
  else if fltb b a then a
  else if sign a then b else a.

Definition fmin (a b : float64) : float64 :=
  if is_nan a || is_nan b then nan
  else if fltb a b then a
  else if fltb b a then b
  else if sign a then a else b.

(** An integer result with the sign of the argument when it is zero. *)
Definition of_Z_signed (s : bool) (z : Z) : float64 :=
  match z with
  | Z0 => S754_zero s
  | _ => of_Z z
  end.

(** [Math.ceil]: the smallest integral double not below [x]; a finite
    double with a non-negative exponent is integral already. *)
Definition fceil (x : float64) : float64 :=
  match x with
  | S754_finite s m e =>
      match e with
      | Zneg k =>
          let d := Z.pow 2 (Zpos k) in
          let q := Z.div (Zpos m) d in
          let r := Z.modulo (Zpos m) d in
          if s then of_Z_signed true (- q)
          else of_Z_signed false (if Z.eqb r 0 then q else q + 1)
      | _ => x
      end
  | _ => x
  end.

(** [Math.round]: the nearest integral double, ties towards +infinity. *)
Definition fround (x : float64) : float64 :=
  match x with
  | S754_finite s m e =>
      match e with
      | Zneg k =>
          let d := Z.pow 2 (Zpos k) in
          let q := Z.div (Zpos m) d in
          let r := Z.modulo (Zpos m) d in
          if s then of_Z_signed true (- (if Z.ltb d (2 * r) then q + 1 else q))
          else of_Z_signed false (if Z.leb d (2 * r) then q + 1 else q)
      | _ => x
      end
  | _ => x
  end.

(** [Math.log10] is implementation-approximated (ECMA-262 21.3.2.22); the
    standard fixes its value at 1, at the zeros, at +infinity, at NaN and
    below zero only.  The carrier is therefore indexed by the engine's
    [log10]. *)
Definition instance (log10 : float64 -> float64) : JS.Number float64 := {|
  JS.lit := of_Q;
  JS.add := fadd;
  JS.sub := fsub;
  JS.mul := fmul;
  JS.div := fdiv;
  JS.ltb := fltb;
  JS.leb := fleb;
  JS.truthy := ftruthy;
  JS.Math_max := fmax;
  JS.Math_min := fmin;
  JS.Math_ceil := fceil;
  JS.Math_round := fround;
  JS.Math_log10 := log10
|}.

(** What the standard requires of [Math.log10]. *)
Record log10_conforms (log10 : float64 -> float64) : Prop := {
  log10_nan : log10 nan = nan;
  log10_neg : forall x, fltb x nzero = true -> log10 x = nan;
  log10_one : log10 (of_Z 1) = pzero;
  log10_pzero : log10 pzero = ninf;
  log10_nzero : log10 nzero = ninf;
  log10_pinf : log10 pinf = pinf
}.

(** A sample engine.  For [x = f * 2^e] with [1/2 <= f < 1],
    [log10 x = (e * ln 2 + ln f) / ln 10] and
    [ln f = 2 * (z + z^3/3 + z^5/5 + ...)] at [z = (f - 1) / (f + 1)];
    the sum is taken to the 69th power in 113-bit arithmetic and the
    result rounded to a double. *)
Definition xprec : Z := 113.
Definition xemax : Z := 16384.

Definition x_of_Z (z : Z) : spec_float := binary_normalize xprec xemax z 0 false.

Definition x_of_Q (q : Q) : spec_float :=
  let '(m, e, l) :=
    SFdiv_core_binary xprec xemax (Qnum q) 0 (Zpos (Qden q)) 0 in
  binary_round_aux xprec xemax false m e l.

Fixpoint atanh_series (terms : nat) (k : Z) (z2 zk : spec_float)
  : spec_float :=
  match terms with
  | O => S754_zero false
  | S terms' =>
      SFadd xprec xemax (SFdiv xprec xemax zk (x_of_Z k))
        (atanh_series terms' (k + 2) z2 (SFmul xprec xemax zk z2))
  end.

Definition to_double (x : spec_float) : float64 :=
  match x with
  | S754_finite s m e => binary_round prec emax s m e
  | _ => x
  end.

Definition log10_sample (x : float64) : float64 :=
  match x with
  | S754_nan => nan
  | S754_zero _ => ninf
  | S754_infinity s => if s then nan else pinf
  | S754_finite true _ _ => nan
  | S754_finite false _ _ =>
      if same_double x (of_Z 1) then pzero
      else
        let '(f, e) := SFfrexp xprec xemax x in
        let z := SFdiv xprec xemax (SFsub xprec xemax f (x_of_Z 1))
                   (SFadd xprec xemax f (x_of_Z 1)) in
        let ln_f :=
          SFmul xprec xemax (x_of_Z 2)
            (atanh_series 35 1 (SFmul xprec xemax z z) z) in
        let ln_2 := x_of_Q 0.693147180559945309417232121458176568 in
        let ln_10 := x_of_Q 2.302585092994045684017991454684364208 in
        to_double
          (SFdiv xprec xemax
             (SFadd xprec xemax (SFmul xprec xemax (x_of_Z e) ln_2) ln_f)
             ln_10)
  end.

(** The carrier with the sample engine. *)
#[export] Instance sample : JS.Number float64 := instance log10_sample.

(** *** [Number.prototype.toString] (ECMA-262 6.1.6.1.20, radix 10)

    For a positive finite [x] the standard takes integers [n], [k], [s]
    with [10^(k-1) <= s < 10^k], such that [s * 10^(n-k)] reads back as
    [x], with [k] as small as possible and, among the candidates, [s]
    closest to [x]. *)

(** [x = P / D] exactly. *)
Definition exact_ratio (m : positive) (e : Z) : Z * Z :=
  match e with
  | Zneg k => (Zpos m, Z.pow 2 (Zpos k))
  | _ => (Zpos m * Z.pow 2 e, 1)
  end.

(** [P / D * 10^j] as a fraction. *)
Definition scale10 (P D j : Z) : Z * Z :=
  if Z.leb 0 j then (P * Z.pow 10 j, D) else (P, D * Z.pow 10 (- j)).

(** The least [n >= n0] with [P / D < 10^n]. *)
Fixpoint decimal_exponent (fuel : nat) (n0 P D : Z) : Z :=
  match fuel with
  | O => n0
  | S fuel' =>
      let '(P', D') := scale10 P D (- n0) in
      if Z.ltb P' D' then n0 else decimal_exponent fuel' (n0 + 1) P D
  end.

(** The double that the decimal [s * 10^j] denotes. *)
Definition read_decimal (s j : Z) : float64 :=
  match s with
  | Zpos p =>
      if Z.leb 0 j then round_ratio false (p * Z.to_pos (Z.pow 10 j)) 1
      else round_ratio false p (Z.to_pos (Z.pow 10 (- j)))
  | _ => pzero
  end.

(** With [k] digits: the candidates are the two [k]-digit decimals that
    enclose [x]; the result is [(s, n)] when one of them reads back as [x]. *)
Definition digits_with (x : float64) (P D n0 k : Z) : option (Z * Z) :=
  let '(A, B) := scale10 P D (k - n0) in
  let lo := Z.div A B in
  let r := Z.modulo A B in
  let hi := lo + 1 in
  let ok_lo := same_double (read_decimal lo (n0 - k)) x in
  let ok_hi := same_double (read_decimal hi (n0 - k)) x in
  let hi_n := if Z.eqb hi (Z.pow 10 k) then (Z.pow 10 (k - 1), n0 + 1)
              else (hi, n0) in
  let prefer_lo :=
    match Z.compare (2 * r) B with
    | Lt => true
    | Gt => false
    | Eq => Z.even lo
    end in
  match ok_lo, ok_hi with
  | true, true => Some (if prefer_lo then (lo, n0) else hi_n)
  | true, false => Some (lo, n0)
  | false, true => Some hi_n
  | false, false => None
  end.

Fixpoint shortest_digits (fuel : nat) (x : float64) (P D n0 k : Z)
  : Z * Z :=
  match fuel with
  | O => (Z.div (fst (scale10 P D (k - n0))) (snd (scale10 P D (k - n0))), n0)
  | S fuel' =>
      match digits_with x P D n0 k with
      | Some sn => sn
      | None => shortest_digits fuel' x P D n0 (k + 1)
      end
  end.

Definition digits_of (s : Z) : string :=
  NilZero.string_of_uint (N.to_uint (Z.to_N s)).

Fixpoint zeros (n : nat) : string :=
  match n with
  | O => EmptyString
  | S n' => String "0" (zeros n')
  end.

(** The text for digits [s] ([k] of them) and decimal exponent [n]. *)
Definition layout (s n : Z) : string :=
  let ds := digits_of s in
  let k := Z.of_nat (String.length ds) in
  if Z.leb k n && Z.leb n 21 then
    ds ++ zeros (Z.to_nat (n - k))
  else if Z.ltb 0 n && Z.leb n 21 then
    substring 0 (Z.to_nat n) ds ++ "." ++
    substring (Z.to_nat n) (Z.to_nat (k - n)) ds
  else if Z.ltb (-6) n && Z.leb n 0 then
    "0." ++ zeros (Z.to_nat (- n)) ++ ds
  else
    let ex := (if Z.ltb 0 (n - 1) then "+" else "-") ++
              digits_of (Z.abs (n - 1)) in
    if Z.eqb k 1 then ds ++ "e" ++ ex
    else substring 0 1 ds ++ "." ++
         substring 1 (Z.to_nat (k - 1)) ds ++ "e" ++ ex.

Definition toString (x : float64) : string :=
  match x with
  | S754_nan => "NaN"
  | S754_zero _ => "0"
  | S754_infinity s => if s then "-Infinity" else "Infinity"
  | S754_finite s m e =>
      let '(P, D) := exact_ratio m e in
      let n0 := decimal_exponent 700 (-330) P D in
      let '(d, n) := shortest_digits 17 (S754_finite false m e) P D n0 1 in
      (if s then "-" else "") ++ layout d n
  end.

End Float64.


(** ** Data model ([src/types/metrics.ts]) *)

(** What a caller can pass at run time: the tests call the estimator with
    [null], [{}] and objects that lack fields; a missing field reads as
    [undefined] ([None]). *)
Module Raw.

Record WorkloadParams (N : Type) : Type := {
  requestsPerSecond : option N;
  metricsPerRequest : option N;
  uniqueMetricsRatio : option N;
  calculationComplexity : option N;
  flushIntervalSeconds : option N;
  retentionPeriodDays : option N
}.

Record UserResources (N : Type) : Type := {
  cpu : option N;
  memory : option N;
  diskIO : option N;
  networkIO : option N;
  storage : option N;
  statsdInstances : option N;
  carbonInstances : option N
}.

(** The object [{}]. *)
Definition empty_workload {N} : WorkloadParams N :=
  Build_WorkloadParams None None None None None None.
Definition empty_resources {N} : UserResources N :=
  Build_UserResources None None None None None None None.

End Raw.

Record WorkloadParams (N : Type) : Type := {
  requestsPerSecond : N;
  metricsPerRequest : N;
  uniqueMetricsRatio : N;
  calculationComplexity : N;
  flushIntervalSeconds : N;
  retentionPeriodDays : N
}.

Module UR.
Record UserResources (N : Type) : Type := {
  cpu : N;
  memory : N;
  diskIO : N;
  networkIO : N;
  storage : N;
  statsdInstances : N;
  carbonInstances : N
}.
End UR.
Abbreviation UserResources := UR.UserResources.

Module FM.
Record FlowMetrics (N : Type) : Type := {
  totalMetricsPerSecond : N;
  uniqueMetricsPerSecond : N;
  writesPerSecond : N;
  storagePerDay : N;
  metricsPerInstance : N;
  writesPerInstance : N;
  totalStorageRequired : N
}.
End FM.
Abbreviation FlowMetrics := FM.FlowMetrics.

Inductive ResourceStatus : Type := healthy | warning | critical.

(** The [explanation] field, a display text built with [toLocaleString]
    (whose output is locale-defined), is not modelled: nothing below reads
    it. *)
Record Resource (N : Type) : Type := {
  value : N;
  unit : string;
  status : ResourceStatus;
  utilization : N
}.

Module RR.
Record ResourceRequirements (N : Type) : Type := {
  cpu : Resource N;
  memory : Resource N;
  diskIO : Resource N;
  networkIO : Resource N;
  storage : Resource N
}.
End RR.
Abbreviation ResourceRequirements := RR.ResourceRequirements.

Record Estimate (N : Type) : Type := {
  requirements : ResourceRequirements N;
  flowMetrics : FlowMetrics N
}.

(** ** The estimator ([calculateResourceRequirements]) *)

Section Estimator.

Context {N : Type} {num : JS.Number N}.
Local Open Scope js_scope.

(** *** Input normalizer (lines 18-38) *)

Definition safeWorkload (workload : option (Raw.WorkloadParams N))
  : WorkloadParams N := {|
  requestsPerSecond :=
    JS.Math_max #0 (workload?.(@Raw.requestsPerSecond N) || #0);
  metricsPerRequest :=
    JS.Math_max #0 (workload?.(@Raw.metricsPerRequest N) || #0);
  uniqueMetricsRatio :=
    JS.Math_min #1
      (JS.Math_max #0 (workload?.(@Raw.uniqueMetricsRatio N) || #0.2));
  calculationComplexity :=
    JS.Math_max #1 (workload?.(@Raw.calculationComplexity N) || #1);
  flushIntervalSeconds :=
    JS.Math_max #1 (workload?.(@Raw.flushIntervalSeconds N) || #10);
  retentionPeriodDays :=
    JS.Math_max #1 (workload?.(@Raw.retentionPeriodDays N) || #1)
|}.

Definition safeResources (userResources : option (Raw.UserResources N))
  : UserResources N := {|
  UR.cpu := JS.Math_max #0.1 (userResources?.(@Raw.cpu N) || #1);
  UR.memory := JS.Math_max #0.1 (userResources?.(@Raw.memory N) || #1);
  UR.diskIO := JS.Math_max #1 (userResources?.(@Raw.diskIO N) || #10);
  UR.networkIO := JS.Math_max #1 (userResources?.(@Raw.networkIO N) || #10);
  UR.storage := JS.Math_max #1 (userResources?.(@Raw.storage N) || #10);
  UR.statsdInstances :=
    JS.Math_max #1 (userResources?.(@Raw.statsdInstances N) || #1);
  UR.carbonInstances :=
    JS.Math_max #1 (userResources?.(@Raw.carbonInstances N) || #1)
|}.

(** The status helper (lines 272-280). *)
Definition getResourceStatus (required available : N) : ResourceStatus :=
  let utilization := required / available in
  if utilization >? #0.9 then critical
  else if utilization >? #0.7 then warning
  else healthy.

(** The body of the function after normalization: one definition per
    [const], in the order of the source. *)
Section Body.

Variable safeW : WorkloadParams N.
Variable safeR : UserResources N.

(** *** Flow model (lines 41-54) *)

Definition totalMetricsPerSecond : N :=
  requestsPerSecond safeW * metricsPerRequest safeW.
Definition uniqueMetricsPerSecond : N :=
  JS.Math_ceil (totalMetricsPerSecond * uniqueMetricsRatio safeW).
Definition writesPerSecond : N := uniqueMetricsPerSecond.

Definition metricsPerInstance : N :=
  JS.Math_ceil (totalMetricsPerSecond / UR.statsdInstances safeR).
Definition writesPerInstance : N :=
  JS.Math_ceil (writesPerSecond / UR.carbonInstances safeR).

Definition avgMetricSizeBytes : N := #50.

(** *** CPU (lines 67-103) *)

Definition totalStatsDLoad : N := totalMetricsPerSecond / #10000.
Definition singleInstanceStatsDCpu : N :=
  totalStatsDLoad * (#1 + JS.Math_log10 (JS.Math_max #1 totalStatsDLoad))
  * #0.6.

Definition totalWriteLoad : N := writesPerSecond / #5000.
Definition singleInstanceCarbonCpu : N :=
  totalWriteLoad * (#1 + JS.Math_log10 (JS.Math_max #1 totalWriteLoad))
  * #1.2.

Definition statsdCoordinationOverhead : N := #0.015.
Definition carbonCoordinationOverhead : N := #0.01.

Definition statsdCpuCores : N :=
  singleInstanceStatsDCpu / UR.statsdInstances safeR +
  singleInstanceStatsDCpu * statsdCoordinationOverhead *
    (UR.statsdInstances safeR - #1).

Definition carbonCpuCores : N :=
  singleInstanceCarbonCpu / UR.carbonInstances safeR +
  singleInstanceCarbonCpu * carbonCoordinationOverhead *
    (UR.carbonInstances safeR - #1).

Definition graphiteCpuCores : N :=
  (calculationComplexity safeW / #5) *
  (#1 + calculationComplexity safeW / #10) *
  #0.4.

Definition totalCpuRequired : N :=
  JS.Math_max #0.1 (statsdCpuCores + carbonCpuCores + graphiteCpuCores).

(** *** Memory (lines 109-180) *)

Definition bytesPerMetricInMemory : N := #150.

Definition singleInstanceStatsDMemory : N :=
  (uniqueMetricsPerSecond * flushIntervalSeconds safeW *
   bytesPerMetricInMemory * #1.2) /
  (#1024 * #1024 * #1024).

Definition singleInstanceCarbonMemory : N :=
  (uniqueMetricsPerSecond * #10 * bytesPerMetricInMemory) /
  (#1024 * #1024 * #1024).

Definition statsdInstanceOverhead : N := #0.05.
Definition carbonInstanceOverhead : N := #0.075.
Definition memoryEfficiency : N := #0.85.

Definition statsdMemoryGB : N :=
  (singleInstanceStatsDMemory * memoryEfficiency) / UR.statsdInstances safeR +
  statsdInstanceOverhead * UR.statsdInstances safeR.

Definition writeLoadFactor : N :=
  JS.Math_min #1.2 (#1 + (writesPerInstance / #10000) * #0.2).

Definition carbonMemoryGB : N :=
  ((singleInstanceCarbonMemory * memoryEfficiency) /
   UR.carbonInstances safeR) * writeLoadFactor +
  carbonInstanceOverhead * UR.carbonInstances safeR.

Definition effectiveStatsDMemory : N :=
  JS.Math_min statsdMemoryGB
    (singleInstanceStatsDMemory * #0.4 + statsdInstanceOverhead).
Definition effectiveCarbonMemory : N :=
  JS.Math_min carbonMemoryGB
    (singleInstanceCarbonMemory * #0.4 + carbonInstanceOverhead).

Definition baseGraphiteMemory : N := #0.5.
Definition graphiteMemoryGB : N :=
  baseGraphiteMemory +
  (calculationComplexity safeW / #5) *
  (#1 + uniqueMetricsPerSecond / #100000) *
  #2.

Definition totalMemoryRequired : N :=
  JS.Math_max #0.5
    (effectiveStatsDMemory + effectiveCarbonMemory + graphiteMemoryGB).

(** *** Disk I/O (lines 183-209) *)

Definition baseIopsPerWrite : N := #2.5.
Definition randomIoFactor : N :=
  #1 + (uniqueMetricsPerSecond / #6000) * #0.4.

Definition ioCoordinationOverhead : N := #0.005.
Definition diskScalingFactor : N :=
  (#1 / UR.carbonInstances safeR) *
  (#1 + ioCoordinationOverhead * (UR.carbonInstances safeR - #1)).

Definition effectiveIopsPerWrite : N :=
  baseIopsPerWrite * randomIoFactor * diskScalingFactor.

Definition effectiveBlockSize : N := #4096.
Definition metadataOverhead : N := #1.15.
Definition bytesPerOperation : N :=
  JS.Math_ceil (#100 / effectiveBlockSize) * effectiveBlockSize *
  metadataOverhead.
Definition diskIopsRequired : N := writesPerSecond * effectiveIopsPerWrite.
Definition diskIORequired : N :=
  JS.Math_ceil
    (((diskIopsRequired * bytesPerOperation) / (#1024 * #1024)) * #10)
  / #10.

(** *** Network I/O (lines 221-260) *)

Definition clientToStatsDOverhead : N := #0.01.
Definition clientStatsDTraffic : N :=
  (totalMetricsPerSecond * avgMetricSizeBytes * #8) / (#1024 * #1024).
(** Shown in the explanation text only. *)
Definition perInstanceStatsDInbound : N :=
  (clientStatsDTraffic / UR.statsdInstances safeR) *
  (#1 + clientToStatsDOverhead * (UR.statsdInstances safeR - #1)).

Definition statsdToCarbonRatio : N := #0.3.
Definition interNodeOverhead : N := #0.005.

Definition statsdToCarbonTraffic : N :=
  clientStatsDTraffic * statsdToCarbonRatio.
(** Shown in the explanation text only. *)
Definition perInstanceCarbonInbound : N :=
  (statsdToCarbonTraffic / UR.carbonInstances safeR) *
  (#1 +
   interNodeOverhead *
   JS.Math_max #1
     (UR.statsdInstances safeR + UR.carbonInstances safeR - #2)).

Definition queryTrafficMbps : N :=
  clientStatsDTraffic * #0.05 * calculationComplexity safeW.

Definition maxInboundTraffic : N :=
  JS.Math_max clientStatsDTraffic statsdToCarbonTraffic.

Definition totalNetworkRequired : N :=
  JS.Math_ceil ((maxInboundTraffic + queryTrafficMbps) * #10) / #10.

(** *** Storage (lines 264-268) *)

Definition bytesPerStoredPoint : N := #12.
Definition pointsPerMetricPerDay : N := #86400 / #10.
Definition dailyStorageGB : N :=
  (uniqueMetricsPerSecond * pointsPerMetricPerDay * bytesPerStoredPoint) /
  (#1024 * #1024 * #1024).

(** *** Status and the five [Resource]s (lines 283-355) *)

Definition cpuStatus : ResourceStatus :=
  getResourceStatus totalCpuRequired (UR.cpu safeR).
Definition memoryStatus : ResourceStatus :=
  getResourceStatus totalMemoryRequired (UR.memory safeR).
Definition diskIOStatus : ResourceStatus :=
  getResourceStatus diskIORequired (UR.diskIO safeR).
Definition networkIOStatus : ResourceStatus :=
  getResourceStatus totalNetworkRequired (UR.networkIO safeR).
Definition storageStatus : ResourceStatus :=
  getResourceStatus (dailyStorageGB * retentionPeriodDays safeW)
    (UR.storage safeR).

Definition cpuResource : Resource N := {|
  value := JS.Math_ceil (totalCpuRequired * #10) / #10;
  unit := "cores";
  status := cpuStatus;
  utilization := totalCpuRequired / UR.cpu safeR
|}.

Definition memoryResource : Resource N := {|
  value := JS.Math_ceil (totalMemoryRequired * #10) / #10;
  unit := "GB";
  status := memoryStatus;
  utilization := totalMemoryRequired / UR.memory safeR
|}.

Definition diskIOResource : Resource N := {|
  value := diskIORequired;
  unit := "MB/s";
  status := diskIOStatus;
  utilization := diskIORequired / UR.diskIO safeR
|}.

Definition networkIOResource : Resource N := {|
  value := totalNetworkRequired;
  unit := "Mbps";
  status := networkIOStatus;
  utilization := totalNetworkRequired / UR.networkIO safeR
|}.

Definition storageResource : Resource N := {|
  value := JS.Math_ceil (dailyStorageGB * #10) / #10;
  unit := "GB/day";
  status := storageStatus;
  utilization :=
    (dailyStorageGB * retentionPeriodDays safeW) / UR.storage safeR
|}.

Definition resourceRequirements : ResourceRequirements N := {|
  RR.cpu := cpuResource;
  RR.memory := memoryResource;
  RR.diskIO := diskIOResource;
  RR.networkIO := networkIOResource;
  RR.storage := storageResource
|}.

Definition flowMetrics_ : FlowMetrics N := {|
  FM.totalMetricsPerSecond := totalMetricsPerSecond;
  FM.uniqueMetricsPerSecond := uniqueMetricsPerSecond;
  FM.writesPerSecond := writesPerSecond;
  FM.storagePerDay := dailyStorageGB;
  FM.metricsPerInstance := metricsPerInstance;
  FM.writesPerInstance := writesPerInstance;
  FM.totalStorageRequired := dailyStorageGB * retentionPeriodDays safeW
|}.

End Body.

Definition calculateResourceRequirements
    (workload : option (Raw.WorkloadParams N))
    (userResources : option (Raw.UserResources N)) : Estimate N :=
  let safeW := safeWorkload workload in
  let safeR := safeResources userResources in
  {| requirements := resourceRequirements safeW safeR;
     flowMetrics := flowMetrics_ safeW safeR |}.

End Estimator.

(** ** The instance-scaling explorer ([validateInstanceScaling]) *)

Module CS.
Record CollectorScaling (N : Type) : Type := {
  instances : list N;
  metricsPerInstance : list N;
  cpuEfficiency : list N;
  memoryEfficiency : list N;
  networkOverhead : list N
}.
End CS.

Module PS.
Record ProcessorScaling (N : Type) : Type := {
  instances : list N;
  writesPerInstance : list N;
  cpuEfficiency : list N;
  memoryEfficiency : list N;
  diskIoEfficiency : list N
}.
End PS.

(** The recommendation text ([combinedScalingRecommendation]) is built by
    [recommend] below. *)
Record Analysis (N : Type) : Type := {
  collectorIdealCount : N;
  processorIdealCount : N;
  collectorEfficiencyGain : N;
  processorEfficiencyGain : N
}.

Record ScalingResults (N : Type) : Type := {
  collectorScaling : CS.CollectorScaling N;
  processorScaling : PS.ProcessorScaling N;
  analysis : Analysis N
}.

Section Explorer.

Context {N : Type} {num : JS.Number N}.
Local Open Scope js_scope.

(** [{ ...currentResources, statsdInstances: s, carbonInstances: c }];
    spreading [null] contributes no field. *)
Definition spread_instances (currentResources : option (Raw.UserResources N))
    (s c : N) : option (Raw.UserResources N) :=
  Some {|
    Raw.cpu := currentResources?.(@Raw.cpu N);
    Raw.memory := currentResources?.(@Raw.memory N);
    Raw.diskIO := currentResources?.(@Raw.diskIO N);
    Raw.networkIO := currentResources?.(@Raw.networkIO N);
    Raw.storage := currentResources?.(@Raw.storage N);
    Raw.statsdInstances := Some s;
    Raw.carbonInstances := Some c
  |}.

(** The values of the loop variable of [for (instances = 1; instances <= 8;
    instances++)]. *)
Definition sweep : list N := [#1; #2; #3; #4; #5; #6; #7; #8].

Section Sweeps.

Variable workload : option (Raw.WorkloadParams N).
Variable currentResources : option (Raw.UserResources N).

Definition baselineResult : Estimate N :=
  calculateResourceRequirements workload
    (spread_instances currentResources #1 #1).

(** Lines 486-529: one iteration of the collector loop. *)
Definition collectorResult (instances : N) : Estimate N :=
  calculateResourceRequirements workload
    (spread_instances currentResources instances #1).

Definition collector_cpuEfficiency (instances : N) : N :=
  let result := collectorResult instances in
  let cpuPer10kMetrics :=
    value (RR.cpu (requirements result)) /
    (FM.totalMetricsPerSecond (flowMetrics result) / #10000) in
  let baselineCpuPer10kMetrics :=
    value (RR.cpu (requirements baselineResult)) /
    (FM.totalMetricsPerSecond (flowMetrics baselineResult) / #10000) in
  cpuPer10kMetrics / baselineCpuPer10kMetrics.

Definition collector_memoryEfficiency (instances : N) : N :=
  let result := collectorResult instances in
  let memoryPerUniqueMetric :=
    value (RR.memory (requirements result)) /
    FM.uniqueMetricsPerSecond (flowMetrics result) in
  let baselineMemoryPerUniqueMetric :=
    value (RR.memory (requirements baselineResult)) /
    FM.uniqueMetricsPerSecond (flowMetrics baselineResult) in
  memoryPerUniqueMetric / baselineMemoryPerUniqueMetric.

Definition collector_networkRatio (instances : N) : N :=
  value (RR.networkIO (requirements (collectorResult instances))) /
  value (RR.networkIO (requirements baselineResult)).

Definition collectorSweep : CS.CollectorScaling N := {|
  CS.instances := sweep;
  CS.metricsPerInstance :=
    map (fun i => FM.metricsPerInstance (flowMetrics (collectorResult i)))
      sweep;
  CS.cpuEfficiency := map collector_cpuEfficiency sweep;
  CS.memoryEfficiency := map collector_memoryEfficiency sweep;
  CS.networkOverhead := map collector_networkRatio sweep
|}.

(** Lines 532-571: one iteration of the processor loop. *)
Definition processorResult (instances : N) : Estimate N :=
  calculateResourceRequirements workload
    (spread_instances currentResources #1 instances).

Definition processor_cpuEfficiency (instances : N) : N :=
  let result := processorResult instances in
  let cpuPerWrite :=
    value (RR.cpu (requirements result)) /
    FM.writesPerSecond (flowMetrics result) in
  let baselineCpuPerWrite :=
    value (RR.cpu (requirements baselineResult)) /
    FM.writesPerSecond (flowMetrics baselineResult) in
  cpuPerWrite / baselineCpuPerWrite.

Definition processor_memoryEfficiency (instances : N) : N :=
  let result := processorResult instances in
  let memoryPerUniqueMetric :=
    value (RR.memory (requirements result)) /
    FM.uniqueMetricsPerSecond (flowMetrics result) in
  let baselineMemoryPerUniqueMetric :=
    value (RR.memory (requirements baselineResult)) /
    FM.uniqueMetricsPerSecond (flowMetrics baselineResult) in
  memoryPerUniqueMetric / baselineMemoryPerUniqueMetric.

Definition processor_diskIoRatio (instances : N) : N :=
  value (RR.diskIO (requirements (processorResult instances))) /
  value (RR.diskIO (requirements baselineResult)).

Definition processorSweep : PS.ProcessorScaling N := {|
  PS.instances := sweep;
  PS.writesPerInstance :=
    map (fun i => FM.writesPerInstance (flowMetrics (processorResult i)))
      sweep;
  PS.cpuEfficiency := map processor_cpuEfficiency sweep;
  PS.memoryEfficiency := map processor_memoryEfficiency sweep;
  PS.diskIoEfficiency := map processor_diskIoRatio sweep
|}.

End Sweeps.

(** Lines 575-584 and 591-600: the scan for the best efficiency.  The
    state is the pair (best efficiency so far, its instance count); index
    [i] pairs [instances[i]] with the efficiency recorded for it. *)
Definition scan_step (st : N * N) (entry : N * N) : N * N :=
  let '(bestEfficiency, idealCount) := st in
  let '(count, currentEfficiency) := entry in
  if currentEfficiency <? bestEfficiency then (currentEfficiency, count)
  else (bestEfficiency, idealCount).

Definition scan_best (instances efficiency : list N) : N * N :=
  fold_left scan_step (combine instances efficiency) (#1, #1).

Definition validateInstanceScaling
    (workload : option (Raw.WorkloadParams N))
    (currentResources : option (Raw.UserResources N)) : ScalingResults N :=
  let collector := collectorSweep workload currentResources in
  let processor := processorSweep workload currentResources in
  let '(bestCollectorEfficiency, idealCollectorCount) :=
    scan_best (CS.instances collector) (CS.cpuEfficiency collector) in
  let collectorEfficiencyGain_ := (#1 - bestCollectorEfficiency) * #100 in
  let '(bestProcessorEfficiency, idealProcessorCount) :=
    scan_best (PS.instances processor) (PS.diskIoEfficiency processor) in
  let processorEfficiencyGain_ := (#1 - bestProcessorEfficiency) * #100 in
  {| collectorScaling := collector;
     processorScaling := processor;
     analysis := {|
       collectorIdealCount := idealCollectorCount;
       processorIdealCount := idealProcessorCount;
       collectorEfficiencyGain :=
         JS.Math_round (collectorEfficiencyGain_ * #10) / #10;
       processorEfficiencyGain :=
         JS.Math_round (processorEfficiencyGain_ * #10) / #10
     |} |}.

End Explorer.

(** ** [formatNumber] (lines 383-385) *)

Module Format.

Local Open Scope string_scope.

Definition is_digit (c : ascii) : bool :=
  let n := nat_of_ascii c in
  (48 <=? n)%nat && (n <=? 57)%nat.

(** [\w]: a letter, a digit or the underscore. *)
Definition is_word (c : ascii) : bool :=
  let n := nat_of_ascii c in
  is_digit c || ((65 <=? n)%nat && (n <=? 90)%nat) ||
  ((97 <=? n)%nat && (n <=? 122)%nat) || (n =? 95)%nat.

Definition starts_with_digit (s : string) : bool :=
  match s with
  | String c _ => is_digit c
  | EmptyString => false
  end.

(** [(\d{3})+(?!\d)] matches at the start of [s]: some positive number of
    groups of three digits, after which no digit follows. *)
Fixpoint groups_of_three (s : string) : bool :=
  match s with
  | String a (String b (String c rest)) =>
      is_digit a && is_digit b && is_digit c &&
      (negb (starts_with_digit rest) || groups_of_three rest)
  | _ => false
  end.

(** [\B] between the previous character and the rest: both sides are word
    characters or neither is (the ends of the text count as non-word). *)
Definition non_boundary (prev : option ascii) (s : string) : bool :=
  let before := match prev with Some c => is_word c | None => false end in
  let after := match s with String c _ => is_word c | EmptyString => false end in
  Bool.eqb before after.

(** [.replace(/\B(?=(\d{3})+(?!\d))/g, ",")]: the pattern is empty, so
    every position is tried and a comma is put where it matches. *)
Fixpoint replace_from (prev : option ascii) (s : string) : string :=
  let here :=
    if non_boundary prev s && groups_of_three s then "," else "" in
  match s with
  | EmptyString => here
  | String c rest => here ++ String c (replace_from (Some c) rest)
  end.

Definition formatNumber (num : Float64.float64) : string :=
  replace_from None (Float64.toString num).

End Format.

(** ** Exact real arithmetic *)

Module Ideal.

Local Open Scope R_scope.

(** The least integer not below [x], and the nearest integer with ties
    upwards. *)
Definition ceil (x : R) : R := IZR (1 - up (- x)).
Definition round (x : R) : R := IZR (up (x + 1 / 2) - 1).

Definition Rltb (a b : R) : bool := if Rlt_dec a b then true else false.
Definition Rleb (a b : R) : bool := if Rle_dec a b then true else false.
Definition truthy (x : R) : bool := if Req_dec_T x 0 then false else true.
Definition log10 (x : R) : R := ln x / ln 10.

#[export] Instance instance : JS.Number R := {|
  JS.lit := Q2R;
  JS.add := Rplus;
  JS.sub := Rminus;
  JS.mul := Rmult;
  JS.div := Rdiv;
  JS.ltb := Rltb;
  JS.leb := Rleb;
  JS.truthy := truthy;
  JS.Math_max := Rmax;
  JS.Math_min := Rmin;
  JS.Math_ceil := ceil;
  JS.Math_round := round;
  JS.Math_log10 := log10
|}.

End Ideal.

(** ** The analyzer ([getScalingRecommendation], [identifyBottleneck]) *)

(** Numbers that appear in a text: [`${x}`] is [ToString(x)]. *)
Class Printable (N : Type) : Type := {
  ToString : N -> string
}.

#[export] Instance Float64_Printable : Printable Float64.float64 := {|
  ToString := Float64.toString
|}.

Section Analyzer.

Context {N : Type} {num : JS.Number N}.
Local Open Scope string_scope.
Local Open Scope js_scope.

(** [Math.max(a, b, c, d)]: NaN when an argument is NaN, the largest
    otherwise. *)
Definition Math_max4 (a b c d : N) : N :=
  JS.Math_max (JS.Math_max (JS.Math_max a b) c) d.

(** Lines 390-409. *)
Definition getScalingRecommendation (requirements : ResourceRequirements N)
  : string :=
  let maxUtilization :=
    Math_max4 (utilization (RR.cpu requirements))
      (utilization (RR.memory requirements))
      (utilization (RR.diskIO requirements))
      (utilization (RR.networkIO requirements)) in
  if maxUtilization <=? #0.5 then
    "Current resources are adequate with room for growth."
  else if maxUtilization <=? #0.7 then
    "Current resources are adequate but approaching capacity."
  else if maxUtilization <=? #0.9 then
    "Consider scaling the highlighted resources soon."
  else
    "Immediate scaling recommended for highlighted resources.".

(** [Array.prototype.sort] with the comparator
    [(a, b) => b.utilization - a.utilization].  The sort is stable
    (ECMA-262 23.1.3.30); [a] stays before [b] unless the comparator is
    positive, a NaN result counting as 0.  When the comparator orders the
    elements consistently every stable sort returns this list. *)
Definition comparator (a b : string * N) : N := snd b - snd a.

Fixpoint insert_sorted (x : string * N) (l : list (string * N))
  : list (string * N) :=
  match l with
  | [] => [x]
  | y :: l' =>
      if comparator x y >? #0 then y :: insert_sorted x l' else x :: l
  end.

Fixpoint sort_resources (l : list (string * N)) : list (string * N) :=
  match l with
  | [] => []
  | x :: l' => insert_sorted x (sort_resources l')
  end.

(** Lines 415-422: the four resources, sorted by utilization, highest
    first. *)
Definition rankedResources (requirements : ResourceRequirements N)
  : list (string * N) :=
  sort_resources
    [("CPU", utilization (RR.cpu requirements));
     ("Memory", utilization (RR.memory requirements));
     ("Disk I/O", utilization (RR.diskIO requirements));
     ("Network I/O", utilization (RR.networkIO requirements))].

(** [resources[0]]; the list has four elements. *)
Definition topResource (requirements : ResourceRequirements N) : string * N :=
  hd ("CPU", utilization (RR.cpu requirements)) (rankedResources requirements).

(** Lines 424-428. *)
Definition identifyBottleneck {show : Printable N}
    (requirements : ResourceRequirements N) : string :=
  let top := topResource requirements in
  if snd top >? #0.7 then
    "Primary bottleneck: " ++ fst top ++ " (" ++
    ToString (JS.Math_round (snd top * #100)) ++ "% utilized)"
  else "No significant bottlenecks detected".

End Analyzer.

(** ** The recommendation of the explorer (lines 613-648) *)

(** A call that can end in a [TypeError]: reading a property of [null]. *)
Inductive Completion (A : Type) : Type :=
| Returned (a : A)
| TypeError.
Arguments Returned {A} a.
Arguments TypeError {A}.

Section Recommendation.

Context {N : Type} {num : JS.Number N} {show : Printable N}.
Local Open Scope string_scope.
Local Open Scope js_scope.

(** [a > x] where [x] may be [undefined]: comparing with [undefined] is
    false. *)
Definition gt_field (a : N) (x : option N) : bool :=
  match x with
  | Some b => a >? b
  | None => false
  end.

(** Lines 622-648, given the counts and the gains before rounding. *)
Definition recommend (baseResult : Estimate N)
    (currentResources : option (Raw.UserResources N))
    (idealCollectorCount idealProcessorCount : N)
    (collectorEfficiencyGain_ processorEfficiencyGain_ : N)
  : Completion string :=
  let highestUtilization :=
    Math_max4 (utilization (RR.cpu (requirements baseResult)))
      (utilization (RR.memory (requirements baseResult)))
      (utilization (RR.diskIO (requirements baseResult)))
      (utilization (RR.networkIO (requirements baseResult))) in
  if highestUtilization <? #0.5 then
    Returned "Current resource allocation is sufficient; no scaling needed."
  else if highestUtilization <? #0.7 then
    match currentResources with
    | None => TypeError
    | Some current =>
        if gt_field idealCollectorCount (Raw.statsdInstances current) then
          Returned
            ("Consider increasing collector instances to " ++
             ToString idealCollectorCount ++
             " for better load distribution (" ++
             ToString (JS.Math_round collectorEfficiencyGain_) ++
             "% efficiency gain).")
        else if gt_field idealProcessorCount (Raw.carbonInstances current) then
          Returned
            ("Consider increasing processor instances to " ++
             ToString idealProcessorCount ++
             " for better I/O performance (" ++
             ToString (JS.Math_round processorEfficiencyGain_) ++
             "% efficiency gain).")
        else
          Returned "Current instance counts are optimal for this workload."
    end
  else if highestUtilization <? #0.9 then
    if utilization (RR.networkIO (requirements baseResult)) >=? #0.7 then
      Returned
        ("Scale up collector instances to " ++ ToString idealCollectorCount ++
         " to distribute network load (" ++
         ToString (JS.Math_round collectorEfficiencyGain_) ++
         "% improvement).")
    else if utilization (RR.diskIO (requirements baseResult)) >=? #0.7 then
      Returned
        ("Increase processor instances to " ++ ToString idealProcessorCount ++
         " to reduce I/O pressure (" ++
         ToString (JS.Math_round processorEfficiencyGain_) ++
         "% improvement).")
    else
      Returned
        ("Scale up both collector (" ++ ToString idealCollectorCount ++
         ") and processor (" ++ ToString idealProcessorCount ++
         ") instances for balanced performance.")
  else
    Returned
      ("Urgent: Increase both hardware capacity and instance counts (" ++
       ToString (JS.Math_max idealCollectorCount #2) ++ " collectors, " ++
       ToString (JS.Math_max idealProcessorCount #2) ++ " processors).").

(** [results.analysis.combinedScalingRecommendation] of
    [validateInstanceScaling], or the [TypeError] the call ends in. *)
Definition combinedScalingRecommendation
    (workload : option (Raw.WorkloadParams N))
    (currentResources : option (Raw.UserResources N)) : Completion string :=
  let collector := collectorSweep workload currentResources in
  let processor := processorSweep workload currentResources in
  let '(bestCollectorEfficiency, idealCollectorCount) :=
    scan_best (CS.instances collector) (CS.cpuEfficiency collector) in
  let '(bestProcessorEfficiency, idealProcessorCount) :=
    scan_best (PS.instances processor) (PS.diskIoEfficiency processor) in
  recommend (calculateResourceRequirements workload currentResources)
    currentResources idealCollectorCount idealProcessorCount
    ((#1 - bestCollectorEfficiency) * #100)
    ((#1 - bestProcessorEfficiency) * #100).

End Recommendation.

(** ** Derived state of the hook ([src/hooks/useMetricsCalculation.ts]) *)

Section Hook.

Context {N : Type}.

(** [Object.values(requirements)]: the five resources in the order of the
    object's keys. *)
Definition Object_values (requirements : ResourceRequirements N)
  : list (Resource N) :=
  [RR.cpu requirements; RR.memory requirements; RR.diskIO requirements;
   RR.networkIO requirements; RR.storage requirements].

Definition is_status (s : ResourceStatus) (r : Resource N) : bool :=
  match s, status r with
  | healthy, healthy | warning, warning | critical, critical => true
  | _, _ => false
  end.

(** Lines 50-59: the worst status of the five; healthy before the first
    calculation ([requirements] is [null]). *)
Definition systemStatus (requirements : option (ResourceRequirements N))
  : ResourceStatus :=
  match requirements with
  | None => healthy
  | Some requirements =>
      if existsb (is_status critical) (Object_values requirements)
      then critical
      else if existsb (is_status warning) (Object_values requirements)
      then warning
      else healthy
  end.

Record StatusMetrics : Type := {
  sm_critical : nat;
  sm_warning : nat;
  sm_healthy : nat
}.

(** Lines 62-75. *)
Definition statusMetrics (requirements : option (ResourceRequirements N))
  : StatusMetrics :=
  match requirements with
  | None => {| sm_critical := 0; sm_warning := 0; sm_healthy := 0 |}
  | Some requirements =>
      {| sm_critical :=
           List.length (filter (is_status critical) (Object_values requirements));
         sm_warning :=
           List.length (filter (is_status warning) (Object_values requirements));
         sm_healthy :=
           List.length (filter (is_status healthy) (Object_values requirements)) |}
  end.

End Hook.

(** ** Definitions used in the statements *)

(** Section 4.8 in the specification's words: critical above 0.9, else
    warning above 0.7, else healthy. *)
Definition classify {N} {num : JS.Number N} (utilization : N)
  : ResourceStatus :=
  if JS.gtb utilization (JS.lit 0.9) then critical
  else if JS.gtb utilization (JS.lit 0.7) then warning
  else healthy.

(** The five [Resource]s of a result. *)
Definition resources_of {N} (r : ResourceRequirements N) : list (Resource N) :=
  [RR.cpu r; RR.memory r; RR.diskIO r; RR.networkIO r; RR.storage r].

Section StatementDefinitions.

Context {N : Type} {num : JS.Number N}.
Local Open Scope js_scope.

(** One field changed, all other fields held fixed. *)
Definition with_retentionPeriodDays (w : Raw.WorkloadParams N) (x : option N)
  : Raw.WorkloadParams N := {|
  Raw.requestsPerSecond := Raw.requestsPerSecond w;
  Raw.metricsPerRequest := Raw.metricsPerRequest w;
  Raw.uniqueMetricsRatio := Raw.uniqueMetricsRatio w;
  Raw.calculationComplexity := Raw.calculationComplexity w;
  Raw.flushIntervalSeconds := Raw.flushIntervalSeconds w;
  Raw.retentionPeriodDays := x
|}.

Definition with_statsdInstances (r : Raw.UserResources N) (x : option N)
  : Raw.UserResources N := {|
  Raw.cpu := Raw.cpu r;
  Raw.memory := Raw.memory r;
  Raw.diskIO := Raw.diskIO r;
  Raw.networkIO := Raw.networkIO r;
  Raw.storage := Raw.storage r;
  Raw.statsdInstances := x;
  Raw.carbonInstances := Raw.carbonInstances r
|}.

Definition with_carbonInstances (r : Raw.UserResources N) (x : option N)
  : Raw.UserResources N := {|
  Raw.cpu := Raw.cpu r;
  Raw.memory := Raw.memory r;
  Raw.diskIO := Raw.diskIO r;
  Raw.networkIO := Raw.networkIO r;
  Raw.storage := Raw.storage r;
  Raw.statsdInstances := Raw.statsdInstances r;
  Raw.carbonInstances := x
|}.

(** The inputs of the test suite.  [baseline_workload] and
    [baseline_resources]: [__tests__/lib/calculations.test.ts], first test.
    [TEST_WORKLOAD] and [BASE_RESOURCES]: the horizontal-scaling tests (the
    reference configuration of the disk-I/O ratio). *)
Definition workload_of (a b c d e f : Q) : Raw.WorkloadParams N := {|
  Raw.requestsPerSecond := Some (JS.lit a);
  Raw.metricsPerRequest := Some (JS.lit b);
  Raw.uniqueMetricsRatio := Some (JS.lit c);
  Raw.calculationComplexity := Some (JS.lit d);
  Raw.flushIntervalSeconds := Some (JS.lit e);
  Raw.retentionPeriodDays := Some (JS.lit f)
|}.

Definition resources_from (a b c d e f g : Q) : Raw.UserResources N := {|
  Raw.cpu := Some (JS.lit a);
  Raw.memory := Some (JS.lit b);
  Raw.diskIO := Some (JS.lit c);
  Raw.networkIO := Some (JS.lit d);
  Raw.storage := Some (JS.lit e);
  Raw.statsdInstances := Some (JS.lit f);
  Raw.carbonInstances := Some (JS.lit g)
|}.

Definition baseline_workload : Raw.WorkloadParams N :=
  workload_of 1000 10 0.2 1 10 30.
Definition baseline_resources : Raw.UserResources N :=
  resources_from 4 16 100 1000 500 2 2.
Definition TEST_WORKLOAD : Raw.WorkloadParams N :=
  workload_of 2000 100 0.25 3 10 30.
Definition BASE_RESOURCES : Raw.UserResources N :=
  resources_from 8 16 200 1000 1000 1 1.

(** Section 4.3 in the specification's words. *)
Definition tier_cost (load unit_load k : N) : N :=
  (load / unit_load) *
  (#1 + JS.Math_log10 (JS.Math_max #1 (load / unit_load))) * k.

Definition distributed (tierCost instances overheadRate : N) : N :=
  tierCost / instances + tierCost * overheadRate * (instances - #1).

Definition visualization_cost (complexity : N) : N :=
  (complexity / #5) * (#1 + complexity / #10) * #0.4.

Definition cpu_total (w : WorkloadParams N) (r : UserResources N) : N :=
  JS.Math_max #0.1
    (distributed (tier_cost (totalMetricsPerSecond w) #10000 #0.6)
       (UR.statsdInstances r) #0.015 +
     distributed (tier_cost (writesPerSecond w) #5000 #1.2)
       (UR.carbonInstances r) #0.01 +
     visualization_cost (calculationComplexity w)).

(** Section 4.1 in the specification's words: [max(lo, x || d)] field by
    field, a missing or null record read as the empty one. *)
Definition clamp (lo d : N) (x : option N) : N := JS.Math_max lo (x || d).

Definition normalize_workload (workload : option (Raw.WorkloadParams N))
  : WorkloadParams N :=
  let w := match workload with Some w => w | None => Raw.empty_workload end in
  {| requestsPerSecond := clamp #0 #0 (Raw.requestsPerSecond w);
     metricsPerRequest := clamp #0 #0 (Raw.metricsPerRequest w);
     uniqueMetricsRatio :=
       JS.Math_min #1 (clamp #0 #0.2 (Raw.uniqueMetricsRatio w));
     calculationComplexity := clamp #1 #1 (Raw.calculationComplexity w);
     flushIntervalSeconds := clamp #1 #10 (Raw.flushIntervalSeconds w);
     retentionPeriodDays := clamp #1 #1 (Raw.retentionPeriodDays w) |}.

Definition normalize_resources (resources : option (Raw.UserResources N))
  : UserResources N :=
  let r := match resources with Some r => r | None => Raw.empty_resources end in
  {| UR.cpu := clamp #0.1 #1 (Raw.cpu r);
     UR.memory := clamp #0.1 #1 (Raw.memory r);
     UR.diskIO := clamp #1 #10 (Raw.diskIO r);
     UR.networkIO := clamp #1 #10 (Raw.networkIO r);
     UR.storage := clamp #1 #10 (Raw.storage r);
     UR.statsdInstances := clamp #1 #1 (Raw.statsdInstances r);
     UR.carbonInstances := clamp #1 #1 (Raw.carbonInstances r) |}.

(** Rounded up to one decimal. *)
Definition round_up_1dp (x : N) : N := JS.Math_ceil (x * #10) / #10.

(** The disk throughput before it is rounded to a tenth of a MB/s. *)
Definition disk_throughput (w : WorkloadParams N) (r : UserResources N) : N :=
  (diskIopsRequired w r * bytesPerOperation) / (#1024 * #1024).

(** Section 4.6 in the specification's words: the larger of the client
    and the inter-tier traffic, plus the query traffic, rounded. *)
Definition client_traffic (w : WorkloadParams N) : N :=
  (totalMetricsPerSecond w * #50 * #8) / (#1024 * #1024).

Definition network_value (w : WorkloadParams N) : N :=
  round_up_1dp
    (JS.Math_max (client_traffic w) (client_traffic w * #0.3) +
     client_traffic w * #0.05 * calculationComplexity w).

End StatementDefinitions.

(** The invariants of the data model (section 3), read in exact
    arithmetic. *)
Definition WorkloadParams_valid (w : WorkloadParams R) : Prop :=
  (0 <= requestsPerSecond w /\
   0 <= metricsPerRequest w /\
   0 <= uniqueMetricsRatio w <= 1 /\
   1 <= calculationComplexity w /\
   1 <= flushIntervalSeconds w /\
   1 <= retentionPeriodDays w)%R.

Definition UserResources_valid (r : UserResources R) : Prop :=
  (1 / 10 <= UR.cpu r /\
   1 / 10 <= UR.memory r /\
   1 <= UR.diskIO r /\
   1 <= UR.networkIO r /\
   1 <= UR.storage r /\
   1 <= UR.statsdInstances r /\
   1 <= UR.carbonInstances r)%R.

(** On binary64: the output of a clamp is a number not below its bound, and
    it is finite unless the input field is +Infinity, which passes through. *)
Definition clamped_from (lo : Float64.float64) (x : option Float64.float64)
    (out : Float64.float64) : Prop :=
  Float64.fleb lo out = true /\
  (Float64.is_finite out = true \/ (x = Some Float64.pinf /\ out = Float64.pinf)).

(** The order of the doubles that are numbers, as the lexicographic order
    of a key: the class (negative infinity, negative, zero, positive,
    positive infinity), then exponent and mantissa. *)
Module FloatOrder.

Import Float64.
Local Open Scope Z_scope.

Definition key (x : float64) : Z * Z * Z :=
  match x with
  | S754_zero _ => (0, 0, 0)
  | S754_infinity false => (2, 0, 0)
  | S754_infinity true => (-2, 0, 0)
  | S754_nan => (0, 0, 0)
  | S754_finite false m e => (1, e, Zpos m)
  | S754_finite true m e => (-1, - e, Zneg m)
  end.

Definition lex_compare (a b : Z * Z * Z) : comparison :=
  let '(a1, a2, a3) := a in
  let '(b1, b2, b3) := b in
  match a1 ?= b1 with
  | Eq => match a2 ?= b2 with Eq => a3 ?= b3 | c => c end
  | c => c
  end.

Definition lex_lt (a b : Z * Z * Z) : Prop :=
  let '(a1, a2, a3) := a in
  let '(b1, b2, b3) := b in
  a1 < b1 \/ (a1 = b1 /\ (a2 < b2 \/ (a2 = b2 /\ a3 < b3))).

End FloatOrder.

(** Doubling on binary64.  [twice x] is the double with the mantissa of
    [x] one binade up, and the infinity of the same sign when that leaves
    the range; a double is [normal] when it is not subnormal (a zero, an
    infinity and NaN count as normal). *)
Definition twice (x : Float64.float64) : Float64.float64 :=
  match x with
  | S754_finite s m e =>
      if (e + 1 <=? Float64.emax - Float64.prec)%Z
      then S754_finite s m (e + 1)
      else S754_infinity s
  | _ => x
  end.

Definition normal (x : Float64.float64) : bool :=
  match x with
  | S754_finite _ m e =>
      (Zpos (digits2_pos m) =? Float64.prec)%Z &&
      (emin Float64.prec Float64.emax <=? e)%Z
  | _ => true
  end.

(** What the scan of [validateInstanceScaling] returns, started from the
    best efficiency [b0] and the count [i0]: no recorded efficiency is below
    the best; and either nothing was below [b0] and the start is returned,
    or the best is below [b0] and is the first entry that no earlier entry
    equals or undercuts. *)
Definition scan_outcome (entries : list (Float64.float64 * Float64.float64))
    (b0 i0 : Float64.float64)
    (result : Float64.float64 * Float64.float64) : Prop :=
  let best := fst result in
  let ideal := snd result in
  (forall c e, In (c, e) entries -> Float64.fltb e best = false) /\
  ((best = b0 /\ ideal = i0) \/
   (Float64.fltb best b0 = true /\
    exists l1 l2, entries = l1 ++ (ideal, best) :: l2 /\
      forall c e, In (c, e) l1 -> Float64.fleb e best = false)).

(** ** Reference descriptions for the formatter *)

Module FormatSpec.

Local Open Scope string_scope.

Fixpoint strip_commas (s : string) : string :=
  match s with
  | EmptyString => EmptyString
  | String c rest =>
      if Ascii.eqb c "," then strip_commas rest
      else String c (strip_commas rest)
  end.

Fixpoint all_digits (s : string) : bool :=
  match s with
  | EmptyString => true
  | String c rest => Format.is_digit c && all_digits rest
  end.

(** Separators every three characters counted from the end of the text:
    a comma before each character that has a multiple of three characters
    from it to the end, the first character excepted. *)
Fixpoint thousands (first : bool) (s : string) : string :=
  match s with
  | EmptyString => EmptyString
  | String c rest =>
      (if negb first && (String.length s mod 3 =? 0)%nat then "," else "")
      ++ String c (thousands false rest)
  end.

End FormatSpec.

(** ** Reference descriptions for the analyzer *)

Section AnalyzerSpec.

Context {N : Type} {num : JS.Number N}.
Local Open Scope js_scope.

(** The four resources the analyzer reads; storage is not among them. *)
Definition analyzed (requirements : ResourceRequirements N)
  : list (Resource N) :=
  [RR.cpu requirements; RR.memory requirements; RR.diskIO requirements;
   RR.networkIO requirements].

(** Each of the four utilizations is at most [t]. *)
Definition within (t : N) (requirements : ResourceRequirements N) : bool :=
  forallb (fun r => utilization r <=? t) (analyzed requirements).

End AnalyzerSpec.

(** Severity of a status. *)
Definition rank (s : ResourceStatus) : nat :=
  match s with
  | healthy => 0
  | warning => 1
  | critical => 2
  end.

(** ** Reference descriptions for the memory estimate *)

Section MemorySpec.

Context {N : Type} {num : JS.Number N}.
Local Open Scope js_scope.

(** The plateau of the memory estimate: both tiers at their caps, plus the
    visualization tier.  It reads the workload only. *)
Definition memory_plateau (safeW : WorkloadParams N) : N :=
  (singleInstanceStatsDMemory safeW * #0.4 + statsdInstanceOverhead) +
  (singleInstanceCarbonMemory safeW * #0.4 + carbonInstanceOverhead) +
  graphiteMemoryGB safeW.

End MemorySpec.

(** * Properties *)

Unset Implicit Arguments.

Import Float64.
#[global] Existing Instance Ideal.instance.

(** ** Comparison and clamping on binary64 *)

Module Float64Facts.

Import Float64.

Lemma SFcompare_antisym (a b : float64) (c : comparison) :
  SFcompare a b = Some c -> SFcompare b a = Some (CompOpp c).
Proof.
  destruct a as [sa|sa| |sa ma ea], b as [sb|sb| |sb mb eb]; simpl;
    try discriminate;
    try (destruct sa); try (destruct sb); simpl;
    try (intros [= <-]; reflexivity).
  - rewrite (Z.compare_antisym ea eb).
    destruct (ea ?= eb)%Z; simpl; intros [= <-]; try reflexivity.
    rewrite (Pos.compare_cont_antisym ma mb Eq). reflexivity.
  - rewrite (Z.compare_antisym ea eb).
    destruct (ea ?= eb)%Z; simpl; intros [= <-]; try reflexivity.
    rewrite (Pos.compare_cont_antisym ma mb Eq). reflexivity.
Qed.

Lemma SFcompare_some (a b : float64) :
  is_nan a = false -> is_nan b = false -> exists c, SFcompare a b = Some c.
Proof.
  destruct a, b; simpl; try discriminate; intros _ _; eexists; reflexivity.
Qed.

Lemma fltb_not_nan (a b : float64) :
  fltb a b = true -> is_nan a = false /\ is_nan b = false.
Proof.
  unfold fltb, SFltb. destruct a, b; simpl; try discriminate; auto.
Qed.

Lemma fleb_not_nan (a b : float64) :
  fleb a b = true -> is_nan a = false /\ is_nan b = false.
Proof.
  unfold fleb, SFleb. destruct a, b; simpl; try discriminate; auto.
Qed.

(** On numbers, [a <= b] is the negation of [b < a]. *)
Lemma fleb_not_fltb (a b : float64) :
  is_nan a = false -> is_nan b = false ->
  (fleb a b = true <-> fltb b a = false).
Proof.
  intros Ha Hb. destruct (SFcompare_some a b Ha Hb) as [c Hc].
  unfold fleb, fltb, SFleb, SFltb.
  rewrite (SFcompare_antisym _ _ _ Hc), Hc.
  destruct c; simpl; split; congruence.
Qed.

Lemma fltb_fleb (a b : float64) : fltb a b = true -> fleb a b = true.
Proof.
  unfold fltb, fleb, SFltb, SFleb.
  destruct (SFcompare a b) as [[| |]|]; congruence.
Qed.

Lemma SFcompare_refl (a : float64) :
  is_nan a = false -> SFcompare a a = Some Eq.
Proof.
  destruct a as [s|s| |s m e]; simpl; try discriminate; intros _;
    try (destruct s; reflexivity).
  destruct s; rewrite Z.compare_refl, Pos.compare_cont_refl; reflexivity.
Qed.

Lemma fleb_refl (a : float64) : is_nan a = false -> fleb a a = true.
Proof.
  intros H. unfold fleb, SFleb. rewrite (SFcompare_refl a H). reflexivity.
Qed.

(** Neither is below the other: they compare equal. *)
Lemma fleb_of_not_fltb (a b : float64) :
  is_nan a = false -> is_nan b = false ->
  fltb a b = false -> fleb b a = true.
Proof.
  intros Ha Hb H. apply (fleb_not_fltb b a Hb Ha). exact H.
Qed.

Lemma fmax_cases (a b : float64) :
  is_nan a = false -> is_nan b = false ->
  (fmax a b = a \/ fmax a b = b) /\
  fleb a (fmax a b) = true /\ fleb b (fmax a b) = true.
Proof.
  intros Ha Hb. unfold fmax. rewrite Ha, Hb. cbn [orb].
  destruct (fltb a b) eqn:Hab.
  - repeat split; [right; reflexivity|apply fltb_fleb; exact Hab|apply fleb_refl; exact Hb].
  - destruct (fltb b a) eqn:Hba.
    + repeat split; [left; reflexivity|apply fleb_refl; exact Ha|apply fltb_fleb; exact Hba].
    + pose proof (fleb_of_not_fltb a b Ha Hb Hab) as H1.
      pose proof (fleb_of_not_fltb b a Hb Ha Hba) as H2.
      destruct (sign a); repeat split; auto using fleb_refl.
Qed.

Lemma fmin_cases (a b : float64) :
  is_nan a = false -> is_nan b = false ->
  (fmin a b = a \/ fmin a b = b) /\
  fleb (fmin a b) a = true /\ fleb (fmin a b) b = true.
Proof.
  intros Ha Hb. unfold fmin. rewrite Ha, Hb. cbn [orb].
  destruct (fltb a b) eqn:Hab.
  - repeat split; [left; reflexivity|apply fleb_refl; exact Ha|apply fltb_fleb; exact Hab].
  - destruct (fltb b a) eqn:Hba.
    + repeat split; [right; reflexivity|apply fltb_fleb; exact Hba|apply fleb_refl; exact Hb].
    + pose proof (fleb_of_not_fltb a b Ha Hb Hab) as H1.
      pose proof (fleb_of_not_fltb b a Hb Ha Hba) as H2.
      destruct (sign a); repeat split; auto using fleb_refl.
Qed.

Lemma ftruthy_number (v : float64) : ftruthy v = true -> is_nan v = false.
Proof. destruct v; simpl; congruence. Qed.

(** A double between two finite doubles is finite. *)
Lemma bounded_is_finite (lo hi x : float64) :
  is_finite lo = true -> is_finite hi = true ->
  fleb lo x = true -> fleb x hi = true -> is_finite x = true.
Proof.
  unfold fleb, SFleb.
  destruct lo as [?|?| |? ? ?], hi as [?|?| |? ? ?], x as [?|[|]| |? ? ?];
    simpl; try discriminate; try reflexivity; destruct s, s0; discriminate.
Qed.

Lemma above_finite_cases (lo x : float64) :
  is_finite lo = true -> fleb lo x = true ->
  is_finite x = true \/ x = pinf.
Proof.
  unfold fleb, SFleb.
  destruct lo as [?|?| |? ? ?], x as [?|[|]| |? ? ?];
    simpl; try discriminate; auto; destruct s; discriminate.
Qed.

(** Dividing a finite double by itself gives exactly 1. *)
Lemma fdiv_self (s : bool) (m : positive) (e : Z) :
  fdiv (S754_finite s m e) (S754_finite s m e) = of_Z 1.
Proof.
  unfold fdiv, SFdiv, SFdiv_core_binary.
  replace (Zdigits2 (Z.pos m) + e - (Zdigits2 (Z.pos m) + e))%Z with 0%Z by lia.
  replace (e - e)%Z with 0%Z by lia.
  change (Z.min (fexp prec emax 0) 0) with (-53)%Z.
  change (0 - -53)%Z with 53%Z.
  cbv beta iota zeta.
  rewrite Z.shiftl_mul_pow2 by lia.
  destruct (Z.div_eucl (Z.pos m * 2 ^ 53) (Z.pos m)) as [q r] eqn:E.
  assert (Hq : q = (2 ^ 53)%Z).
  { change q with (fst (q, r)). rewrite <- E.
    change (fst (Z.div_eucl (Z.pos m * 2 ^ 53) (Z.pos m)))
      with ((Z.pos m * 2 ^ 53) / Z.pos m)%Z.
    rewrite Z.mul_comm. apply Z.div_mul. lia. }
  assert (Hr : r = 0%Z).
  { change r with (snd (q, r)). rewrite <- E.
    change (snd (Z.div_eucl (Z.pos m * 2 ^ 53) (Z.pos m)))
      with ((Z.pos m * 2 ^ 53) mod Z.pos m)%Z.
    rewrite Z.mul_comm. apply Z.mod_mul. lia. }
  subst q r.
  assert (Hl : new_location (Z.pos m) 0 = loc_Exact).
  { unfold new_location, new_location_even, new_location_odd.
    destruct (Z.even (Z.pos m)); reflexivity. }
  rewrite Hl. destruct s; reflexivity.
Qed.

(** [x / x] on every double: 1 on the finite non-zero ones, NaN elsewhere. *)
Lemma fdiv_self_cases (x : float64) :
  fdiv x x = match x with S754_finite _ _ _ => of_Z 1 | _ => nan end.
Proof.
  destruct x as [s|s| |s m e]; try reflexivity. apply fdiv_self.
Qed.

Import FloatOrder.

Section Order.

Local Open Scope Z_scope.

Lemma SFcompare_key (a b : float64) :
  is_nan a = false -> is_nan b = false ->
  SFcompare a b = Some (lex_compare (key a) (key b)).
Proof.
  destruct a as [sa|sa| |sa ma ea], b as [sb|sb| |sb mb eb];
    try discriminate; intros _ _;
    try destruct sa; try destruct sb; try reflexivity.
  cbn. rewrite Z.compare_opp. rewrite (Z.compare_antisym ea eb).
  destruct (ea ?= eb); reflexivity.
Qed.

Lemma lex_compare_Lt (a b : Z * Z * Z) : lex_compare a b = Lt <-> lex_lt a b.
Proof.
  destruct a as [[a1 a2] a3], b as [[b1 b2] b3]. unfold lex_compare, lex_lt.
  destruct (Z.compare_spec a1 b1); destruct (Z.compare_spec a2 b2);
    destruct (Z.compare_spec a3 b3); split; intros; try discriminate; try lia; try reflexivity.
Qed.

Lemma lex_compare_Eq (a b : Z * Z * Z) : lex_compare a b = Eq <-> a = b.
Proof.
  destruct a as [[a1 a2] a3], b as [[b1 b2] b3]. unfold lex_compare.
  destruct (Z.compare_spec a1 b1); destruct (Z.compare_spec a2 b2);
    destruct (Z.compare_spec a3 b3); split; intros H'; try discriminate;
    try reflexivity; try (injection H' as ? ? ?; lia); subst; reflexivity.
Qed.

Lemma fltb_key (a b : float64) :
  fltb a b = true <->
  is_nan a = false /\ is_nan b = false /\ lex_lt (key a) (key b).
Proof.
  split.
  - intros H. destruct (fltb_not_nan a b H) as [Ha Hb].
    repeat split; try assumption. apply lex_compare_Lt.
    unfold fltb, SFltb in H. rewrite (SFcompare_key a b Ha Hb) in H.
    destruct (lex_compare (key a) (key b)); congruence.
  - intros (Ha & Hb & H). unfold fltb, SFltb.
    rewrite (SFcompare_key a b Ha Hb).
    apply lex_compare_Lt in H. rewrite H. reflexivity.
Qed.

Lemma fleb_key (a b : float64) :
  fleb a b = true <->
  is_nan a = false /\ is_nan b = false /\
  (lex_lt (key a) (key b) \/ key a = key b).
Proof.
  split.
  - intros H. destruct (fleb_not_nan a b H) as [Ha Hb].
    repeat split; try assumption.
    unfold fleb, SFleb in H. rewrite (SFcompare_key a b Ha Hb) in H.
    destruct (lex_compare (key a) (key b)) eqn:E; try discriminate.
    + right. apply lex_compare_Eq. exact E.
    + left. apply lex_compare_Lt. exact E.
  - intros (Ha & Hb & H). unfold fleb, SFleb.
    rewrite (SFcompare_key a b Ha Hb). destruct H as [H|H].
    + apply lex_compare_Lt in H. rewrite H. reflexivity.
    + apply lex_compare_Eq in H. rewrite H. reflexivity.
Qed.

Ltac keys :=
  repeat match goal with
         | H : fltb _ _ = true |- _ => apply fltb_key in H; destruct H as (? & ? & H)
         | H : fleb _ _ = true |- _ => apply fleb_key in H; destruct H as (? & ? & H)
         end.

Lemma fltb_trans (a b c : float64) :
  fltb a b = true -> fltb b c = true -> fltb a c = true.
Proof.
  intros H1 H2. keys. apply fltb_key. repeat split; try assumption.
  destruct (key a) as [[? ?] ?], (key b) as [[? ?] ?], (key c) as [[? ?] ?].
  unfold lex_lt in *. lia.
Qed.

Lemma fleb_fltb_trans (a b c : float64) :
  fleb a b = true -> fltb b c = true -> fltb a c = true.
Proof.
  intros H1 H2. keys. apply fltb_key. repeat split; try assumption.
  destruct H1 as [H1|H1]; [|rewrite H1; exact H2].
  destruct (key a) as [[? ?] ?], (key b) as [[? ?] ?], (key c) as [[? ?] ?].
  unfold lex_lt in *. lia.
Qed.

Lemma fltb_irrefl (a : float64) : fltb a a = false.
Proof.
  destruct (fltb a a) eqn:H; [|reflexivity]. keys.
  destruct (key a) as [[? ?] ?]. unfold lex_lt in *. lia.
Qed.

Lemma fltb_asym (a b : float64) : fltb a b = true -> fltb b a = false.
Proof.
  intros H. destruct (fltb b a) eqn:H'; [|reflexivity].
  pose proof (fltb_trans a b a H H') as E. rewrite fltb_irrefl in E. discriminate.
Qed.

Lemma fltb_not_fleb (a b : float64) : fltb a b = true -> fleb b a = false.
Proof.
  intros H. destruct (fleb b a) eqn:H'; [|reflexivity].
  pose proof (fleb_fltb_trans b a b H' H) as E. rewrite fltb_irrefl in E. discriminate.
Qed.

Lemma fleb_trans (a b c : float64) :
  fleb a b = true -> fleb b c = true -> fleb a c = true.
Proof.
  intros H1 H2. keys. apply fleb_key. repeat split; try assumption.
  destruct H1 as [H1|H1]; [|rewrite H1; exact H2].
  destruct H2 as [H2|H2]; [|rewrite <- H2; left; exact H1].
  left.
  destruct (key a) as [[? ?] ?], (key b) as [[? ?] ?], (key c) as [[? ?] ?].
  unfold lex_lt in *. lia.
Qed.

(** The key of a double that is neither zero nor NaN determines it. *)
Lemma key_injective (a b : float64) :
  ftruthy a = true -> ftruthy b = true -> key a = key b -> a = b.
Proof.
  destruct a as [sa|[|]| |[|] ma ea], b as [sb|[|]| |[|] mb eb];
    cbn; try discriminate; intros _ _ H; try reflexivity;
    injection H; intros; subst; try reflexivity; try lia.
  - assert (ea = eb) by lia. subst. reflexivity.
Qed.

(** [Math.max] is below a bound exactly when both arguments are. *)
Lemma fmax_below (a b t : float64) :
  fleb (fmax a b) t = true <-> fleb a t = true /\ fleb b t = true.
Proof.
  split.
  - intros H. destruct (fleb_not_nan _ _ H) as [Hm Ht].
    assert (Ha : is_nan a = false).
    { unfold fmax in Hm. destruct (is_nan a); [discriminate|reflexivity]. }
    assert (Hb : is_nan b = false).
    { unfold fmax in Hm. rewrite Ha in Hm. destruct (is_nan b); [discriminate|reflexivity]. }
    destruct (fmax_cases a b Ha Hb) as (_ & H1 & H2).
    split; eapply fleb_trans; eassumption.
  - intros [Ha Hb].
    destruct (fleb_not_nan _ _ Ha) as [Na _], (fleb_not_nan _ _ Hb) as [Nb _].
    destruct (fmax_cases a b Na Nb) as ([E|E] & _); rewrite E; assumption.
Qed.

End Order.

End Float64Facts.

(** ** Status classifier *)


Section ClassifierOnDoubles.

Import Float64 Float64Facts.
Variable log10 : float64 -> float64.
Let num : JS.Number float64 := Float64.instance log10.
Existing Instance num.

Lemma classify_critical (u : float64) :
  classify u = critical <-> fltb (of_Q 0.9) u = true.
Proof.
  unfold classify, JS.gtb; simpl.
  destruct (fltb (of_Q 0.9) u); [tauto|].
  destruct (fltb (of_Q 0.7) u); split; discriminate.
Qed.


Lemma classify_healthy (u : float64) :
  classify u = healthy <->
  fltb (of_Q 0.9) u = false /\ fltb (of_Q 0.7) u = false.
Proof.
  unfold classify, JS.gtb; simpl.
  destruct (fltb (of_Q 0.9) u), (fltb (of_Q 0.7) u);
    split; try discriminate; try tauto; intros [? ?]; discriminate.
Qed.


End ClassifierOnDoubles.

(** ** Doubling on binary64 *)

Module Doubling.

Import Float64.
Local Open Scope Z_scope.

Lemma shr_exponent (mrs : shr_record) (e n : Z) :
  shr mrs (e + 1) n = (fst (shr mrs e n), snd (shr mrs e n) + 1).
Proof. destruct n; cbn; try reflexivity. f_equal. lia. Qed.

Lemma shr_no_shift (mrs : shr_record) (e n : Z) :
  n <= 0 -> shr mrs e n = (mrs, e).
Proof. destruct n; try reflexivity. lia. Qed.

Lemma shr_exponent_low (mrs : shr_record) (e n : Z) :
  snd (shr mrs e n) = e + Z.max n 0.
Proof. destruct n; cbn; lia. Qed.

Lemma shr_fexp_exponent (m e : Z) (l : location) :
  emin prec emax <= e \/ emin prec emax <= Zdigits2 m + e - prec ->
  shr_fexp prec emax m (e + 1) l
  = (fst (shr_fexp prec emax m e l), snd (shr_fexp prec emax m e l) + 1) /\
  emin prec emax <= snd (shr_fexp prec emax m e l).
Proof.
  intros H. unfold shr_fexp.
  set (mrs := shr_record_of_loc m l).
  set (n := fexp prec emax (Zdigits2 m + e) - e).
  set (n' := fexp prec emax (Zdigits2 m + (e + 1)) - (e + 1)).
  assert (Hn : n' = n \/ (n <= 0 /\ n' <= 0)) by (unfold n, n', fexp; lia).
  split.
  - destruct Hn as [->|[H1 H2]]; [apply shr_exponent|].
    rewrite !shr_no_shift by assumption. reflexivity.
  - rewrite shr_exponent_low. unfold n, fexp. lia.
Qed.

Lemma binary_round_aux_twice (s : bool) (m e : Z) (l : location) :
  emin prec emax <= Zdigits2 m + e - prec ->
  binary_round_aux prec emax s m (e + 1) l
  = twice (binary_round_aux prec emax s m e l).
Proof.
  intros H. unfold binary_round_aux.
  destruct (shr_fexp_exponent m e l (or_intror H)) as [-> H1].
  destruct (shr_fexp prec emax m e l) as [mrs' e'] eqn:E1. cbn [fst snd] in *.
  set (m1 := round_nearest_even (shr_m mrs') (loc_of_shr_record mrs')).
  destruct (shr_fexp_exponent m1 e' loc_Exact (or_introl H1)) as [-> _].
  destruct (shr_fexp prec emax m1 e' loc_Exact) as [mrs'' e''] eqn:E2.
  cbn [fst snd].
  destruct (shr_m mrs'') as [|p|p]; try reflexivity.
  unfold twice.
  destruct (Z.leb_spec e'' (emax - prec)); [reflexivity|].
  destruct (Z.leb_spec (e'' + 1) (emax - prec)); [lia|reflexivity].
Qed.

Lemma digits2_size (p : positive) : digits2_pos p = Pos.size p.
Proof. induction p; cbn; congruence. Qed.

Lemma digits_log2 (p : positive) : Zpos (digits2_pos p) = Z.log2 (Zpos p) + 1.
Proof.
  destruct p; cbn [Z.log2]; rewrite ?digits2_size; cbn; try lia.
Qed.

Lemma digits_mul (p q : positive) :
  Zpos (digits2_pos p) + Zpos (digits2_pos q) - 1 <= Zpos (digits2_pos (p * q)).
Proof.
  rewrite !digits_log2.
  pose proof (Z.log2_mul_below (Zpos p) (Zpos q) eq_refl eq_refl) as H.
  change (Zpos p * Zpos q) with (Zpos (p * q)) in H. lia.
Qed.

Lemma normal_finite (s : bool) (m : positive) (e : Z) :
  normal (S754_finite s m e) = true ->
  Zpos (digits2_pos m) = prec /\ emin prec emax <= e.
Proof.
  cbn [normal]. rewrite andb_true_iff, Z.eqb_eq, Z.leb_le. tauto.
Qed.

(** The product with a double that is twice another, in the normal range. *)
Lemma fmul_twice (x y : float64) :
  normal x = true -> normal y = true ->
  fleb (of_Z 1) y = true ->
  is_finite (twice y) = true ->
  fmul x (twice y) = twice (fmul x y).
Proof.
  intros Hx Hy H1 Hf.
  destruct y as [sy|sy| |sy my ey];
    try (vm_compute in H1; discriminate); try discriminate.
  - apply normal_finite in Hy. destruct Hy as [Hdy _].
    assert (Hey : -52 <= ey).
    { apply Float64Facts.fleb_key in H1. destruct H1 as (_ & _ & H1).
      change (of_Z 1) with (S754_finite false 4503599627370496 (-52)) in H1.
      unfold FloatOrder.key, FloatOrder.lex_lt in H1.
      destruct sy; (destruct H1 as [H1|H1]; [lia|injection H1; lia]). }
    cbn [twice] in *.
    destruct (Z.leb_spec (ey + 1) (emax - prec)); [|discriminate].
    destruct x as [sx|sx| |sx mx ex]; try reflexivity.
    apply normal_finite in Hx. destruct Hx as [Hdx Hex].
    unfold fmul. cbn [SFmul].
    replace (ex + (ey + 1)) with (ex + ey + 1) by lia.
    apply binary_round_aux_twice.
    pose proof (digits_mul mx my). cbn [Zdigits2].
    unfold prec, emin, emax in *. lia.
Qed.

Lemma fmul_comm (x y : float64) : fmul x y = fmul y x.
Proof.
  destruct x as [sx|sx| |sx mx ex], y as [sy|sy| |sy my ey];
    unfold fmul; cbn [SFmul]; rewrite ?(xorb_comm sx sy); try reflexivity.
  rewrite (Pos.mul_comm mx my), (Z.add_comm ex ey). reflexivity.
Qed.

Lemma fmul_one (x : float64) :
  normal x = true -> is_finite x = true -> valid_binary prec emax x = true ->
  fmul (of_Z 1) x = x.
Proof.
  intros Hn _ Hv. destruct x as [s|s| |s m e]; try reflexivity.
  - apply normal_finite in Hn. destruct Hn as [Hd He].
    cbn [valid_binary] in Hv. unfold bounded in Hv.
    apply andb_prop in Hv as [_ Hv]. apply Z.leb_le in Hv.
    change (of_Z 1) with (S754_finite false 4503599627370496 (-52)).
    unfold fmul. cbn [SFmul xorb].
    unfold binary_round_aux.
    assert (D : Zdigits2 (Zpos (4503599627370496 * m)) = 52 + prec).
    { cbn [Zdigits2]. rewrite digits_log2.
      replace (Zpos (4503599627370496 * m)) with (Zpos m * 2 ^ 52) by lia.
      rewrite Z.log2_mul_pow2 by lia. rewrite digits_log2 in Hd. lia. }
    assert (E1 : shr_fexp prec emax (Zpos (4503599627370496 * m)) (-52 + e) loc_Exact
                 = ({| shr_m := Zpos m; shr_r := false; shr_s := false |}, e)).
    { unfold shr_fexp. rewrite D.
      replace (fexp prec emax (52 + prec + (-52 + e)) - (-52 + e)) with 52
        by (unfold fexp, prec, emin, emax in *; lia).
      cbn [shr shr_record_of_loc].
      replace (-52 + e + 52) with e by lia.
      apply (f_equal (fun r => (r, e))). vm_compute. reflexivity. }
    rewrite E1. cbn [shr_m loc_of_shr_record round_nearest_even].
    assert (E2 : shr_fexp prec emax (Zpos m) e loc_Exact
                 = ({| shr_m := Zpos m; shr_r := false; shr_s := false |}, e)).
    { unfold shr_fexp. cbn [Zdigits2]. rewrite Hd.
      replace (fexp prec emax (prec + e) - e) with 0
        by (unfold fexp, prec, emin, emax in *; lia).
      reflexivity. }
    rewrite E2. cbn [shr_m].
    destruct (Z.leb_spec e (emax - prec)); [reflexivity|lia].
Qed.

(** [twice] is the product by two. *)
Lemma twice_is_double (x : float64) :
  normal x = true -> valid_binary prec emax x = true ->
  fmul (of_Z 2) x = twice x.
Proof.
  intros Hn Hv.
  destruct x as [s|s| |s m e]; try reflexivity.
  - change (of_Z 2) with (twice (of_Z 1)).
    rewrite fmul_comm, fmul_twice; try reflexivity; try assumption.
    rewrite fmul_comm, fmul_one; try reflexivity; assumption.
Qed.

(** [Math.max(a, b)] is [b] when [a <= b] and neither is a zero. *)
Lemma fmax_right (a b : float64) :
  fleb a b = true -> ftruthy a = true -> ftruthy b = true -> fmax a b = b.
Proof.
  intros Hab Ha Hb.
  destruct (Float64Facts.fleb_not_nan _ _ Hab) as [Na Nb].
  unfold fmax. rewrite Na, Nb. cbn [orb].
  destruct (fltb a b) eqn:H1; [reflexivity|].
  destruct (fltb b a) eqn:H2.
  - rewrite (Float64Facts.fltb_not_fleb _ _ H2) in Hab. discriminate.
  - assert (E : a = b).
    { apply Float64Facts.key_injective; try assumption.
      apply Float64Facts.fleb_key in Hab. destruct Hab as (_ & _ & [H|H]); [|exact H].
      exfalso. assert (fltb a b = true)
        by (apply Float64Facts.fltb_key; repeat split; assumption).
      congruence. }
    rewrite E. destruct (sign b); reflexivity.
Qed.

Lemma twice_above_one (d : float64) :
  fleb (of_Z 1) d = true -> fleb (of_Z 1) (twice d) = true.
Proof.
  intros H. destruct d as [s|s| |s m e]; try exact H.
  apply Float64Facts.fleb_key in H. destruct H as (_ & _ & H).
  change (of_Z 1) with (S754_finite false 4503599627370496 (-52)) in *.
  assert (Hs : s = false /\ -52 <= e).
  { unfold FloatOrder.key, FloatOrder.lex_lt in H.
    destruct s; (destruct H as [H|H]; [lia|injection H; lia]). }
  destruct Hs as [-> He]. unfold twice.
  destruct (e + 1 <=? emax - prec); [|reflexivity].
  apply Float64Facts.fleb_key. split; [reflexivity|]. split; [reflexivity|].
  left. unfold FloatOrder.key, FloatOrder.lex_lt. lia.
Qed.

(** The quotient of a double by the double one binade below it. *)
Lemma fdiv_twice (t : float64) :
  is_finite (twice t) = true -> ftruthy t = true ->
  fdiv (twice t) t = of_Z 2.
Proof.
  intros Hf Ht. destruct t as [s|s| |s m e]; try discriminate.
  unfold twice in *. destruct (e + 1 <=? emax - prec); [|discriminate].
  unfold fdiv. cbn [SFdiv]. unfold SFdiv_core_binary.
  replace (Zdigits2 (Zpos m) + (e + 1) - (Zdigits2 (Zpos m) + e)) with 1 by lia.
  replace (e + 1 - e) with 1 by lia.
  change (Z.min (fexp prec emax 1) 1) with (-52).
  change (1 - -52) with 53.
  rewrite Z.shiftl_mul_pow2 by lia.
  destruct (Z.div_eucl (Zpos m * 2 ^ 53) (Zpos m)) as [q r] eqn:E.
  assert (Hq : q = 2 ^ 53).
  { change q with (fst (q, r)). rewrite <- E.
    change (fst (Z.div_eucl (Zpos m * 2 ^ 53) (Zpos m)))
      with (Zpos m * 2 ^ 53 / Zpos m).
    rewrite Z.mul_comm. apply Z.div_mul. discriminate. }
  assert (Hr : r = 0).
  { change r with (snd (q, r)). rewrite <- E.
    change (snd (Z.div_eucl (Zpos m * 2 ^ 53) (Zpos m)))
      with ((Zpos m * 2 ^ 53) mod Zpos m).
    rewrite Z.mul_comm. apply Z.mod_mul. discriminate. }
  subst q r.
  replace (new_location (Zpos m) 0) with loc_Exact.
  2:{ unfold new_location, new_location_even, new_location_odd.
      destruct (Z.even (Zpos m)); reflexivity. }
  destruct s; vm_compute; reflexivity.
Qed.

End Doubling.

(** ** Unfolding the estimator *)

(** Exposes the arithmetic of [calculateResourceRequirements]: every
    definition of the model and every operation of the interface is
    unfolded, the arithmetic of the carrier is left folded. *)
Ltac unfold_estimator :=
  cbv beta iota zeta delta
    [calculateResourceRequirements resourceRequirements flowMetrics_
     requirements flowMetrics value unit status utilization
     RR.cpu RR.memory RR.diskIO RR.networkIO RR.storage
     FM.totalMetricsPerSecond FM.uniqueMetricsPerSecond FM.writesPerSecond
     FM.storagePerDay FM.metricsPerInstance FM.writesPerInstance
     FM.totalStorageRequired
     cpuResource memoryResource diskIOResource networkIOResource
     storageResource cpuStatus memoryStatus diskIOStatus networkIOStatus
     storageStatus getResourceStatus
     totalMetricsPerSecond uniqueMetricsPerSecond writesPerSecond
     metricsPerInstance writesPerInstance avgMetricSizeBytes
     totalStatsDLoad singleInstanceStatsDCpu totalWriteLoad
     singleInstanceCarbonCpu statsdCoordinationOverhead
     carbonCoordinationOverhead statsdCpuCores carbonCpuCores
     graphiteCpuCores totalCpuRequired bytesPerMetricInMemory
     singleInstanceStatsDMemory singleInstanceCarbonMemory
     statsdInstanceOverhead carbonInstanceOverhead memoryEfficiency
     statsdMemoryGB writeLoadFactor carbonMemoryGB effectiveStatsDMemory
     effectiveCarbonMemory baseGraphiteMemory graphiteMemoryGB
     totalMemoryRequired baseIopsPerWrite randomIoFactor
     ioCoordinationOverhead diskScalingFactor effectiveIopsPerWrite
     effectiveBlockSize metadataOverhead bytesPerOperation diskIopsRequired
     diskIORequired clientToStatsDOverhead clientStatsDTraffic
     statsdToCarbonRatio interNodeOverhead statsdToCarbonTraffic
     queryTrafficMbps maxInboundTraffic totalNetworkRequired
     bytesPerStoredPoint pointsPerMetricPerDay dailyStorageGB
     safeWorkload safeResources
     requestsPerSecond metricsPerRequest uniqueMetricsRatio
     calculationComplexity flushIntervalSeconds retentionPeriodDays
     UR.cpu UR.memory UR.diskIO UR.networkIO UR.storage UR.statsdInstances
     UR.carbonInstances
     Raw.requestsPerSecond Raw.metricsPerRequest Raw.uniqueMetricsRatio
     Raw.calculationComplexity Raw.flushIntervalSeconds
     Raw.retentionPeriodDays Raw.cpu Raw.memory Raw.diskIO Raw.networkIO
     Raw.storage Raw.statsdInstances Raw.carbonInstances
     workload_of resources_from baseline_workload baseline_resources
     TEST_WORKLOAD BASE_RESOURCES with_retentionPeriodDays
     with_statsdInstances with_carbonInstances
     Raw.empty_workload Raw.empty_resources
     JS.or_default JS.opt_field JS.gtb JS.geb
     JS.lit JS.add JS.sub JS.mul JS.div JS.ltb JS.leb JS.truthy JS.Math_max
     JS.Math_min JS.Math_ceil JS.Math_round JS.Math_log10
     Float64.instance Float64.sample].


Ltac unfold_estimator_everywhere :=
  cbv beta iota zeta delta
    [calculateResourceRequirements resourceRequirements flowMetrics_
     requirements flowMetrics value unit status utilization
     RR.cpu RR.memory RR.diskIO RR.networkIO RR.storage
     FM.totalMetricsPerSecond FM.uniqueMetricsPerSecond FM.writesPerSecond
     FM.storagePerDay FM.metricsPerInstance FM.writesPerInstance
     FM.totalStorageRequired
     cpuResource memoryResource diskIOResource networkIOResource
     storageResource cpuStatus memoryStatus diskIOStatus networkIOStatus
     storageStatus getResourceStatus
     totalMetricsPerSecond uniqueMetricsPerSecond writesPerSecond
     metricsPerInstance writesPerInstance avgMetricSizeBytes
     totalStatsDLoad singleInstanceStatsDCpu totalWriteLoad
     singleInstanceCarbonCpu statsdCoordinationOverhead
     carbonCoordinationOverhead statsdCpuCores carbonCpuCores
     graphiteCpuCores totalCpuRequired bytesPerMetricInMemory
     singleInstanceStatsDMemory singleInstanceCarbonMemory
     statsdInstanceOverhead carbonInstanceOverhead memoryEfficiency
     statsdMemoryGB writeLoadFactor carbonMemoryGB effectiveStatsDMemory
     effectiveCarbonMemory baseGraphiteMemory graphiteMemoryGB
     totalMemoryRequired baseIopsPerWrite randomIoFactor
     ioCoordinationOverhead diskScalingFactor effectiveIopsPerWrite
     effectiveBlockSize metadataOverhead bytesPerOperation diskIopsRequired
     diskIORequired clientToStatsDOverhead clientStatsDTraffic
     statsdToCarbonRatio interNodeOverhead statsdToCarbonTraffic
     queryTrafficMbps maxInboundTraffic totalNetworkRequired
     bytesPerStoredPoint pointsPerMetricPerDay dailyStorageGB
     safeWorkload safeResources
     requestsPerSecond metricsPerRequest uniqueMetricsRatio
     calculationComplexity flushIntervalSeconds retentionPeriodDays
     UR.cpu UR.memory UR.diskIO UR.networkIO UR.storage UR.statsdInstances
     UR.carbonInstances
     Raw.requestsPerSecond Raw.metricsPerRequest Raw.uniqueMetricsRatio
     Raw.calculationComplexity Raw.flushIntervalSeconds
     Raw.retentionPeriodDays Raw.cpu Raw.memory Raw.diskIO Raw.networkIO
     Raw.storage Raw.statsdInstances Raw.carbonInstances
     workload_of resources_from baseline_workload baseline_resources
     TEST_WORKLOAD BASE_RESOURCES with_retentionPeriodDays
     with_statsdInstances with_carbonInstances
     Raw.empty_workload Raw.empty_resources
     JS.or_default JS.opt_field JS.gtb JS.geb
     JS.lit JS.add JS.sub JS.mul JS.div JS.ltb JS.leb JS.truthy JS.Math_max
     JS.Math_min JS.Math_ceil JS.Math_round JS.Math_log10
     Float64.instance Float64.sample] in *.

(** ** Exact arithmetic: rounding up and clamping *)

Module IdealFacts.

Import Ideal.
Local Open Scope R_scope.

(** Reads the interface's operations at the reals. *)
Ltac ideal_ops :=
  cbn [JS.lit JS.add JS.sub JS.mul JS.div JS.ltb JS.leb JS.truthy
       JS.Math_max JS.Math_min JS.Math_ceil JS.Math_round JS.Math_log10
       JS.gtb JS.geb Ideal.instance] in *.

(** Reads the literals of the source as real constants. *)
Ltac literals :=
  unfold Q2R in *; cbn [Qnum Qden] in *; rewrite ?Rinv_1, ?Rmult_1_r in *.

Lemma ceil_bounds (x : R) : x <= ceil x < x + 1.
Proof.
  unfold ceil. destruct (archimed (- x)) as [H1 H2].
  rewrite minus_IZR. lra.
Qed.

Lemma ceil_unique (x : R) (z : Z) : IZR z - 1 < x <= IZR z -> ceil x = IZR z.
Proof.
  intros [H1 H2]. destruct (ceil_bounds x) as [H3 H4].
  unfold ceil in *. f_equal.
  set (c := (1 - up (- x))%Z) in *.
  assert (IZR c < IZR z + 1) by lra.
  assert (IZR z < IZR c + 1) by lra.
  rewrite <- plus_IZR in *.
  apply lt_IZR in H, H0. lia.
Qed.

Lemma ceil_IZR (z : Z) : ceil (IZR z) = IZR z.
Proof. apply ceil_unique. lra. Qed.

Lemma ceil_le (x y : R) : x <= y -> ceil x <= ceil y.
Proof.
  intros Hxy. destruct (ceil_bounds x) as [_ Hx], (ceil_bounds y) as [Hy _].
  unfold ceil in *.
  set (a := (1 - up (- x))%Z) in *. set (b := (1 - up (- y))%Z) in *.
  assert (H : IZR a < IZR b + 1) by lra.
  rewrite <- plus_IZR in H. apply lt_IZR in H.
  apply IZR_le. lia.
Qed.

Lemma ceil_nonneg (x : R) : 0 <= x -> 0 <= ceil x.
Proof. intros H. destruct (ceil_bounds x). lra. Qed.

Lemma ceil_pos (x : R) : 0 < x -> 1 <= ceil x.
Proof.
  intros H. destruct (ceil_bounds x) as [Hx _]. unfold ceil in *.
  set (a := (1 - up (- x))%Z) in *.
  assert (Ha : IZR 0 < IZR a) by lra.
  apply lt_IZR in Ha. apply IZR_le. lia.
Qed.

(** [ceil (10 x) / 10] is the least multiple of a tenth not below [x]. *)
Lemma tenths_bounds (x : R) : x <= ceil (x * 10) / 10 < x + 1 / 10.
Proof. destruct (ceil_bounds (x * 10)). lra. Qed.

Lemma tenths_le (x y : R) : x <= y -> ceil (x * 10) / 10 <= ceil (y * 10) / 10.
Proof. intros H. assert (ceil (x * 10) <= ceil (y * 10)) by (apply ceil_le; lra). lra. Qed.

(** The comparisons of the interface. *)
Lemma Rltb_true (a b : R) : a < b -> Rltb a b = true.
Proof. intros H. unfold Rltb. destruct (Rlt_dec a b); [reflexivity|lra]. Qed.

Lemma Rltb_false (a b : R) : b <= a -> Rltb a b = false.
Proof. intros H. unfold Rltb. destruct (Rlt_dec a b); [lra|reflexivity]. Qed.

(** The clamps of the normalizer. *)
Lemma or_default_cases (x : option R) (d : R) :
  (exists v, x = Some v /\ v <> 0 /\ JS.or_default x d = v) \/
  ((x = None \/ x = Some 0) /\ JS.or_default x d = d).
Proof.
  destruct x as [v|]; cbn; [|right; auto].
  unfold truthy. destruct (Req_dec_T v 0) as [->|Hv]; [right; auto|].
  left. exists v. auto.
Qed.

Lemma or_default_some (v d : R) : v <> 0 -> JS.or_default (Some v) d = v.
Proof.
  intros Hv. cbn. unfold truthy. destruct (Req_dec_T v 0); [contradiction|reflexivity].
Qed.

(** [max(lo, x || d)] with a default not below the bound. *)
Lemma clamp_bounds (lo d : R) (x : option R) :
  lo <= d -> lo <= Rmax lo (JS.or_default x d).
Proof. intros _. apply Rmax_l. Qed.

Lemma clamp_id (lo d v : R) :
  lo <= v -> v <> 0 -> Rmax lo (JS.or_default (Some v) d) = v.
Proof.
  intros Hlo Hv. rewrite or_default_some by exact Hv. apply Rmax_right. exact Hlo.
Qed.

(** Clamping is monotone when the default is the bound ([x || 1] under
    [max(1, .)]) and the bound is not negative. *)
Lemma clamp_mono (lo a b : R) :
  0 <= lo -> a <= b ->
  Rmax lo (JS.or_default (Some a) lo) <= Rmax lo (JS.or_default (Some b) lo).
Proof.
  intros Hlo Hab.
  destruct (or_default_cases (Some a) lo) as [(va & Ea & _ & ->)|[_ ->]];
  destruct (or_default_cases (Some b) lo) as [(vb & Eb & _ & ->)|[[Eb|Eb] ->]];
    try discriminate.
  all: repeat match goal with
       | H : Some _ = Some _ |- _ => injection H as H; subst
       end.
  all: unfold Rmax; repeat destruct (Rle_dec _ _); lra.
Qed.

Lemma safeWorkload_valid (workload : option (Raw.WorkloadParams R)) :
  WorkloadParams_valid (safeWorkload workload).
Proof.
  unfold WorkloadParams_valid, safeWorkload; cbn [requestsPerSecond
    metricsPerRequest uniqueMetricsRatio calculationComplexity
    flushIntervalSeconds retentionPeriodDays].
  ideal_ops. literals.
  repeat split; try apply Rmax_l.
  - apply Rmin_glb; [lra|apply Rmax_l].
  - apply Rmin_l.
Qed.

Lemma safeResources_valid (userResources : option (Raw.UserResources R)) :
  UserResources_valid (safeResources userResources).
Proof.
  unfold UserResources_valid, safeResources; cbn [UR.cpu UR.memory UR.diskIO
    UR.networkIO UR.storage UR.statsdInstances UR.carbonInstances].
  ideal_ops. literals.
  repeat split;
    match goal with |- _ <= Rmax ?a ?b => pose proof (Rmax_l a b); lra end.
Qed.

End IdealFacts.

(** ** Signs of the results in exact arithmetic *)

Module IdealEstimator.

Import Ideal IdealFacts.
Local Open Scope R_scope.

Section Valid.

Variable safeW : WorkloadParams R.
Variable safeR : UserResources R.
Hypothesis Hw : WorkloadParams_valid safeW.
Hypothesis Hr : UserResources_valid safeR.

Lemma total_nonneg : 0 <= totalMetricsPerSecond safeW.
Proof.
  destruct Hw as (H1 & H2 & _). unfold totalMetricsPerSecond. ideal_ops.
  apply Rmult_le_pos; assumption.
Qed.

Lemma unique_nonneg : 0 <= uniqueMetricsPerSecond safeW.
Proof.
  unfold uniqueMetricsPerSecond. ideal_ops. apply ceil_nonneg.
  destruct Hw as (_ & _ & [H3 _] & _).
  apply Rmult_le_pos; [apply total_nonneg|exact H3].
Qed.

Lemma bytesPerOperation_value : bytesPerOperation (N := R) = 4096 * (115 / 100).
Proof.
  unfold bytesPerOperation, effectiveBlockSize, metadataOverhead.
  ideal_ops. literals.
  rewrite (ceil_unique (100 / 4096) 1) by lra. lra.
Qed.

Lemma diskScalingFactor_pos : 0 < diskScalingFactor safeR.
Proof.
  destruct Hr as (_ & _ & _ & _ & _ & _ & Hc).
  unfold diskScalingFactor, ioCoordinationOverhead. ideal_ops. literals.
  apply Rmult_lt_0_compat.
  - apply Rdiv_lt_0_compat; lra.
  - nra.
Qed.

Lemma randomIoFactor_ge_1 : 1 <= randomIoFactor safeW.
Proof.
  pose proof unique_nonneg as Hu.
  unfold randomIoFactor. ideal_ops. literals. lra.
Qed.

Lemma disk_throughput_nonneg : 0 <= disk_throughput safeW safeR.
Proof.
  unfold disk_throughput. rewrite bytesPerOperation_value.
  unfold diskIopsRequired, effectiveIopsPerWrite, baseIopsPerWrite, writesPerSecond.
  pose proof unique_nonneg as Hu. pose proof diskScalingFactor_pos as Hs.
  pose proof randomIoFactor_ge_1 as Hf.
  ideal_ops. literals.
  set (u := uniqueMetricsPerSecond safeW) in *.
  set (f := randomIoFactor safeW) in *.
  set (s := diskScalingFactor safeR) in *.
  assert (0 <= u * (25 / 10 * f * s)).
  { apply Rmult_le_pos; [exact Hu|]. apply Rmult_le_pos; [nra|lra]. }
  lra.
Qed.

Lemma diskIORequired_rounds : diskIORequired safeW safeR
  = round_up_1dp (disk_throughput safeW safeR).
Proof. reflexivity. Qed.

Lemma round_up_nonneg (x : R) : 0 <= x -> 0 <= round_up_1dp x.
Proof.
  intros Hx. unfold round_up_1dp. ideal_ops. literals.
  pose proof (tenths_bounds x). lra.
Qed.

Lemma round_up_ge (x : R) : x <= round_up_1dp x.
Proof.
  unfold round_up_1dp. ideal_ops. literals.
  pose proof (tenths_bounds x). lra.
Qed.

Lemma network_nonneg : 0 <= totalNetworkRequired safeW.
Proof.
  change (totalNetworkRequired safeW) with (network_value safeW).
  unfold network_value. apply round_up_nonneg.
  pose proof total_nonneg as Ht. destruct Hw as (_ & _ & _ & Hc & _).
  unfold client_traffic. ideal_ops. literals.
  set (c := totalMetricsPerSecond safeW * 50 * 8 / (1024 * 1024)).
  assert (0 <= c) by (unfold c; lra).
  pose proof (Rmax_l c (c * (3 / 10))).
  assert (0 <= c * (5 / 100) * calculationComplexity safeW) by nra.
  lra.
Qed.

Lemma daily_nonneg : 0 <= dailyStorageGB safeW.
Proof.
  pose proof unique_nonneg as Hu.
  unfold dailyStorageGB, pointsPerMetricPerDay, bytesPerStoredPoint.
  ideal_ops. literals. lra.
Qed.

Lemma totalCpu_floor : 1 / 10 <= totalCpuRequired safeW safeR.
Proof.
  unfold totalCpuRequired. ideal_ops. literals.
  match goal with |- _ <= Rmax ?a ?b => pose proof (Rmax_l a b) end. lra.
Qed.

Lemma totalMemory_floor : 1 / 2 <= totalMemoryRequired safeW safeR.
Proof.
  unfold totalMemoryRequired. ideal_ops. literals.
  match goal with |- _ <= Rmax ?a ?b => pose proof (Rmax_l a b) end. lra.
Qed.

Lemma ratio_nonneg (a b : R) : 0 <= a -> 0 < b -> 0 <= a / b.
Proof.
  intros Ha Hb. apply Rmult_le_pos; [exact Ha|].
  apply Rlt_le, Rinv_0_lt_compat. exact Hb.
Qed.

(** The five values and utilizations. *)
Lemma signs_of_requirements :
  let rq := resourceRequirements safeW safeR in
  (1 / 10 <= value (RR.cpu rq) /\ 1 / 2 <= value (RR.memory rq) /\
   0 <= value (RR.diskIO rq) /\ 0 <= value (RR.networkIO rq) /\
   0 <= value (RR.storage rq)) /\
  Forall (fun res => 0 <= utilization res) (resources_of rq).
Proof.
  destruct Hr as (Hcpu & Hmem & Hdisk & Hnet & Hsto & _ & _).
  destruct Hw as (_ & _ & _ & _ & _ & Hret).
  pose proof totalCpu_floor as Hc. pose proof totalMemory_floor as Hm.
  pose proof disk_throughput_nonneg as Hd. pose proof network_nonneg as Hn.
  pose proof daily_nonneg as Hs.
  assert (Hdv : 0 <= diskIORequired safeW safeR)
    by (rewrite diskIORequired_rounds; apply round_up_nonneg; exact Hd).
  split.
  - cbn [value resourceRequirements RR.cpu RR.memory RR.diskIO RR.networkIO
         RR.storage cpuResource memoryResource diskIOResource
         networkIOResource storageResource].
    pose proof (round_up_ge (totalCpuRequired safeW safeR)).
    pose proof (round_up_ge (totalMemoryRequired safeW safeR)).
    pose proof (round_up_nonneg (dailyStorageGB safeW) Hs).
    unfold round_up_1dp in *.
    repeat split; try assumption; lra.
  - unfold resources_of.
    repeat (apply Forall_cons;
      [cbn [utilization resourceRequirements RR.cpu RR.memory RR.diskIO
            RR.networkIO RR.storage cpuResource memoryResource diskIOResource
            networkIOResource storageResource]; ideal_ops;
       apply ratio_nonneg; try lra; try (apply Rmult_le_pos; lra)|]).
    apply Forall_nil.
Qed.

End Valid.

End IdealEstimator.

(** ** CPU estimator *)

Section CpuEstimator.

(** The source computes the formula of section 4.3, on every carrier. *)
Lemma cpu_follows_formula {N} {num : JS.Number N}
    (workload : option (Raw.WorkloadParams N))
    (userResources : option (Raw.UserResources N)) :
  let safeW := safeWorkload workload in
  let safeR := safeResources userResources in
  let res := RR.cpu (requirements
                       (calculateResourceRequirements workload userResources)) in
  totalCpuRequired safeW safeR = cpu_total safeW safeR /\
  value res = round_up_1dp (cpu_total safeW safeR) /\
  utilization res = JS.div (cpu_total safeW safeR) (UR.cpu safeR).
Proof.
  repeat split.
Qed.

Import Ideal IdealFacts.
Local Open Scope R_scope.

(** In exact arithmetic the floor and the rounding are what their names
    say. *)
Lemma cpu_floor_and_rounding (safeW : WorkloadParams R) (safeR : UserResources R) :
  1 / 10 <= cpu_total safeW safeR /\
  cpu_total safeW safeR <= round_up_1dp (cpu_total safeW safeR)
    < cpu_total safeW safeR + 1 / 10 /\
  exists tenths : Z, round_up_1dp (cpu_total safeW safeR) = IZR tenths / 10.
Proof.
  unfold round_up_1dp. set (t := cpu_total safeW safeR).
  assert (Ht : 1 / 10 <= t).
  { unfold t, cpu_total. ideal_ops. literals.
    match goal with |- _ <= Rmax ?a ?b => pose proof (Rmax_l a b) end. lra. }
  ideal_ops. literals. split; [exact Ht|]. split.
  - pose proof (tenths_bounds t). lra.
  - exists (1 - up (- (t * 10)))%Z. unfold ceil. reflexivity.
Qed.

(** C4.  On every carrier of numbers the CPU estimator computes: the
    collector cost (total/10000) x (1 + log10(max(1, total/10000))) x 0.6 and
    the writer cost (writes/5000) x (1 + log10(max(1, writes/5000))) x 1.2,
    each distributed as cost/instances + cost x rate x (instances - 1) with
    rate 0.015 and 0.01, plus (complexity/5) x (1 + complexity/10) x 0.4; the
    total is the maximum of 0.1 and that sum; the reported value is
    ceil(total x 10)/10 and the utilization is total / cpu.  In exact
    arithmetic the total is at least 0.1 and the value is the least
    multiple of 0.1 that is not below the total. *)
Theorem cpu_estimator_formula :
  (forall (N : Type) (num : JS.Number N)
          (workload : option (Raw.WorkloadParams N))
          (userResources : option (Raw.UserResources N)),
     let safeW := safeWorkload workload in
     let safeR := safeResources userResources in
     let res := RR.cpu (requirements
                  (calculateResourceRequirements workload userResources)) in
     totalCpuRequired safeW safeR = cpu_total safeW safeR /\
     value res = round_up_1dp (cpu_total safeW safeR) /\
     utilization res = JS.div (cpu_total safeW safeR) (UR.cpu safeR)) /\
  (forall (workload : option (Raw.WorkloadParams R))
          (userResources : option (Raw.UserResources R)),
     let total := cpu_total (safeWorkload workload)
                    (safeResources userResources) in
     let res := RR.cpu (requirements
                  (calculateResourceRequirements workload userResources)) in
     1 / 10 <= total /\
     total <= value res < total + 1 / 10 /\
     (exists tenths : Z, value res = IZR tenths / 10) /\
     utilization res = total / UR.cpu (safeResources userResources)).
Proof.
  split.
  - intros. apply cpu_follows_formula.
  - intros workload userResources total res.
    destruct (cpu_floor_and_rounding (safeWorkload workload)
                (safeResources userResources)) as (H1 & H2 & H3).
    repeat split; try assumption; apply H2.
Qed.

End CpuEstimator.

(** ** Flow model *)

Section FlowModel.

(** The five equations of section 4.2 hold of the normalized inputs, on
    every carrier. *)
Lemma flow_equations {N} {num : JS.Number N}
    (workload : option (Raw.WorkloadParams N))
    (userResources : option (Raw.UserResources N)) :
  let safeW := safeWorkload workload in
  let safeR := safeResources userResources in
  let fm := flowMetrics (calculateResourceRequirements workload userResources) in
  FM.totalMetricsPerSecond fm =
    JS.mul (requestsPerSecond safeW) (metricsPerRequest safeW) /\
  FM.uniqueMetricsPerSecond fm =
    JS.Math_ceil (JS.mul (FM.totalMetricsPerSecond fm) (uniqueMetricsRatio safeW)) /\
  FM.writesPerSecond fm = FM.uniqueMetricsPerSecond fm /\
  FM.metricsPerInstance fm =
    JS.Math_ceil (JS.div (FM.totalMetricsPerSecond fm) (UR.statsdInstances safeR)) /\
  FM.writesPerInstance fm =
    JS.Math_ceil (JS.div (FM.writesPerSecond fm) (UR.carbonInstances safeR)).
Proof.
  repeat split.
Qed.

Import Float64.

(** The example of the specification on binary64: whatever the other
    fields, the resources and the engine's [log10] are. *)
Lemma flow_example (log10 : float64 -> float64)
    (complexity flush retention : option float64)
    (userResources : option (Raw.UserResources float64)) :
  let workload := Some {|
    Raw.requestsPerSecond := Some (of_Q 1000);
    Raw.metricsPerRequest := Some (of_Q 10);
    Raw.uniqueMetricsRatio := Some (of_Q 0.2);
    Raw.calculationComplexity := complexity;
    Raw.flushIntervalSeconds := flush;
    Raw.retentionPeriodDays := retention |} in
  let fm := flowMetrics
              (calculateResourceRequirements (num := Float64.instance log10)
                 workload userResources) in
  FM.totalMetricsPerSecond fm = of_Z 10000 /\
  FM.uniqueMetricsPerSecond fm = of_Z 2000.
Proof.
  split; vm_compute; reflexivity.
Qed.

(** One collector against one and two: with a single metric per second
    both configurations report one metric per instance. *)
Lemma one_metric_per_instance :
  let per_instance (n : Q) :=
    FM.metricsPerInstance
      (flowMetrics
         (calculateResourceRequirements (num := Float64.sample)
            (Some (workload_of 1 1 1 1 10 1))
            (Some (with_statsdInstances BASE_RESOURCES (Some (of_Q n)))))) in
  per_instance 1 = of_Z 1 /\ per_instance 2 = of_Z 1.
Proof.
  split; vm_compute; reflexivity.
Qed.

(** The test of the suite: 10000 metrics per second over four collectors. *)
Lemma baseline_over_four_collectors :
  let per_instance (n : Q) :=
    FM.metricsPerInstance
      (flowMetrics
         (calculateResourceRequirements (num := Float64.sample)
            (Some baseline_workload)
            (Some (with_statsdInstances baseline_resources (Some (of_Q n)))))) in
  per_instance 1 = of_Z 10000 /\ per_instance 4 = of_Z 2500.
Proof.
  split; vm_compute; reflexivity.
Qed.

Import Ideal IdealFacts.
Local Open Scope R_scope.

Lemma metricsPerInstance_antitone (safeW : WorkloadParams R)
    (safeR safeR' : UserResources R) :
  WorkloadParams_valid safeW ->
  1 <= UR.statsdInstances safeR <= UR.statsdInstances safeR' ->
  metricsPerInstance safeW safeR' <= metricsPerInstance safeW safeR.
Proof.
  intros Hw [H1 H2]. unfold metricsPerInstance. ideal_ops.
  apply ceil_le. pose proof (IdealEstimator.total_nonneg safeW Hw) as Ht.
  unfold Rdiv. apply Rmult_le_compat_l; [exact Ht|].
  apply Rinv_le_contravar; lra.
Qed.

(** More collectors never raise the load per collector. *)
Lemma more_collectors_less_load (workload : option (Raw.WorkloadParams R))
    (r : Raw.UserResources R) (n m : R) :
  n <= m ->
  FM.metricsPerInstance
    (flowMetrics (calculateResourceRequirements workload
                    (Some (with_statsdInstances r (Some m))))) <=
  FM.metricsPerInstance
    (flowMetrics (calculateResourceRequirements workload
                    (Some (with_statsdInstances r (Some n))))).
Proof.
  intros Hnm.
  cbn [calculateResourceRequirements flowMetrics flowMetrics_ FM.metricsPerInstance].
  apply metricsPerInstance_antitone; [apply safeWorkload_valid|].
  cbn [safeResources UR.statsdInstances with_statsdInstances JS.opt_field
       Raw.statsdInstances].
  ideal_ops. literals. split; [apply Rmax_l|].
  apply clamp_mono; lra.
Qed.

(** When the count divides an integral total the load per collector is the
    exact quotient. *)
Lemma collectors_divide_load (workload : option (Raw.WorkloadParams R))
    (r : Raw.UserResources R) (count quotient : Z) :
  (1 <= count)%Z ->
  totalMetricsPerSecond (safeWorkload workload) = IZR (count * quotient) ->
  FM.metricsPerInstance
    (flowMetrics (calculateResourceRequirements workload
                    (Some (with_statsdInstances r (Some (IZR count)))))) =
  IZR quotient /\
  FM.metricsPerInstance
    (flowMetrics (calculateResourceRequirements workload
                    (Some (with_statsdInstances r (Some 1))))) =
  IZR count * IZR quotient.
Proof.
  intros Hc Ht.
  cbn [calculateResourceRequirements flowMetrics flowMetrics_ FM.metricsPerInstance].
  unfold metricsPerInstance. rewrite Ht.
  cbn [safeResources UR.statsdInstances with_statsdInstances JS.opt_field
       Raw.statsdInstances].
  ideal_ops. literals.
  assert (Hc' : 1 <= IZR count) by (apply IZR_le; exact Hc).
  rewrite (clamp_id 1 1 (IZR count)) by lra.
  rewrite (clamp_id 1 1 1) by lra.
  rewrite mult_IZR. split.
  - replace (IZR count * IZR quotient / IZR count) with (IZR quotient)
      by (field; lra).
    apply ceil_IZR.
  - replace (IZR count * IZR quotient / 1) with (IZR (count * quotient))
      by (rewrite mult_IZR; field).
    rewrite ceil_IZR. apply mult_IZR.
Qed.

(** C2.  On every carrier the flow metrics are
    total = requestsPerSecond x metricsPerRequest,
    unique = ceil(total x uniqueMetricsRatio), writes = unique,
    metricsPerInstance = ceil(total / statsdInstances) and
    writesPerInstance = ceil(writes / carbonInstances), of the normalized
    inputs.  On binary64 the example 1000, 10, 0.2 gives 10000 and 2000, and
    10000 metrics over 4 collectors give 2500 each.  In exact arithmetic,
    raising statsdInstances never raises metricsPerInstance, and divides it
    by the count exactly when the count divides an integral total. *)
Theorem flow_model :
  (forall (N : Type) (num : JS.Number N)
          (workload : option (Raw.WorkloadParams N))
          (userResources : option (Raw.UserResources N)),
     let safeW := safeWorkload workload in
     let safeR := safeResources userResources in
     let fm := flowMetrics
                 (calculateResourceRequirements workload userResources) in
     FM.totalMetricsPerSecond fm =
       JS.mul (requestsPerSecond safeW) (metricsPerRequest safeW) /\
     FM.uniqueMetricsPerSecond fm =
       JS.Math_ceil
         (JS.mul (FM.totalMetricsPerSecond fm) (uniqueMetricsRatio safeW)) /\
     FM.writesPerSecond fm = FM.uniqueMetricsPerSecond fm /\
     FM.metricsPerInstance fm =
       JS.Math_ceil
         (JS.div (FM.totalMetricsPerSecond fm) (UR.statsdInstances safeR)) /\
     FM.writesPerInstance fm =
       JS.Math_ceil
         (JS.div (FM.writesPerSecond fm) (UR.carbonInstances safeR))) /\
  (forall (log10 : float64 -> float64)
          (complexity flush retention : option float64)
          (userResources : option (Raw.UserResources float64)),
     let workload := Some {|
       Raw.requestsPerSecond := Some (of_Q 1000);
       Raw.metricsPerRequest := Some (of_Q 10);
       Raw.uniqueMetricsRatio := Some (of_Q 0.2);
       Raw.calculationComplexity := complexity;
       Raw.flushIntervalSeconds := flush;
       Raw.retentionPeriodDays := retention |} in
     let fm := flowMetrics
                 (calculateResourceRequirements
                    (num := Float64.instance log10) workload userResources) in
     FM.totalMetricsPerSecond fm = of_Z 10000 /\
     FM.uniqueMetricsPerSecond fm = of_Z 2000) /\
  (let per_instance (n : Q) :=
     FM.metricsPerInstance
       (flowMetrics
          (calculateResourceRequirements (num := Float64.sample)
             (Some baseline_workload)
             (Some (with_statsdInstances baseline_resources
                      (Some (of_Q n)))))) in
   per_instance 1%Q = of_Z 10000 /\ per_instance 4%Q = of_Z 2500) /\
  (forall (workload : option (Raw.WorkloadParams R))
          (r : Raw.UserResources R) (n m : R),
     n <= m ->
     FM.metricsPerInstance
       (flowMetrics (calculateResourceRequirements workload
                       (Some (with_statsdInstances r (Some m))))) <=
     FM.metricsPerInstance
       (flowMetrics (calculateResourceRequirements workload
                       (Some (with_statsdInstances r (Some n)))))) /\
  (forall (workload : option (Raw.WorkloadParams R))
          (r : Raw.UserResources R) (count quotient : Z),
     (1 <= count)%Z ->
     totalMetricsPerSecond (safeWorkload workload) = IZR (count * quotient) ->
     FM.metricsPerInstance
       (flowMetrics (calculateResourceRequirements workload
                       (Some (with_statsdInstances r (Some (IZR count)))))) =
     IZR quotient /\
     FM.metricsPerInstance
       (flowMetrics (calculateResourceRequirements workload
                       (Some (with_statsdInstances r (Some 1))))) =
     IZR count * IZR quotient).
Proof.
  split; [intros; apply flow_equations|].
  split; [intros; apply flow_example|].
  split; [apply baseline_over_four_collectors|].
  split; [intros; apply more_collectors_less_load; assumption|].
  intros. apply collectors_divide_load; assumption.
Qed.

(** The fourth part between one collector and four. *)
Lemma flow_model_witness :
  1 <= 4 /\
  FM.metricsPerInstance
    (flowMetrics (calculateResourceRequirements (Some baseline_workload)
                    (Some (with_statsdInstances baseline_resources (Some 4))))) <=
  FM.metricsPerInstance
    (flowMetrics (calculateResourceRequirements (Some baseline_workload)
                    (Some (with_statsdInstances baseline_resources (Some 1))))).
Proof.
  assert (H : 1 <= 4) by lra.
  split; [exact H|].
  apply (proj1 (proj2 (proj2 (proj2 flow_model))) (Some baseline_workload)
           baseline_resources 1 4 H).
Defined.

End FlowModel.

(** ** Input normalizer *)

Section Normalizer.

(** The source applies the rules of section 4.1, on every carrier. *)
Lemma normalizer_follows_rules {N} {num : JS.Number N}
    (workload : option (Raw.WorkloadParams N))
    (userResources : option (Raw.UserResources N)) :
  safeWorkload workload = normalize_workload workload /\
  safeResources userResources = normalize_resources userResources.
Proof.
  destruct workload, userResources; split; reflexivity.
Qed.

Import Float64 Float64Facts.

Variable log10 : float64 -> float64.
Let num : JS.Number float64 := Float64.instance log10.
Existing Instance num.

Lemma or_default_number (x : option float64) (d : float64) :
  is_nan d = false ->
  is_nan (JS.or_default x d) = false /\
  (JS.or_default x d = d \/ x = Some (JS.or_default x d)).
Proof.
  intros Hd. destruct x as [v|]; cbn; [|auto].
  destruct (ftruthy v) eqn:Hv; [|auto].
  split; [apply ftruthy_number; exact Hv|right; reflexivity].
Qed.

Lemma clamp_on_doubles (lo d : float64) (x : option float64) :
  is_finite lo = true -> is_finite d = true ->
  clamped_from lo x (clamp lo d x).
Proof.
  intros Hlo Hd. unfold clamp, clamped_from. cbn [JS.Math_max num instance].
  assert (Nlo : is_nan lo = false) by (destruct lo; simpl in *; congruence).
  assert (Nd : is_nan d = false) by (destruct d; simpl in *; congruence).
  destruct (or_default_number x d Nd) as [Ny Hy].
  set (y := JS.or_default x d) in *.
  destruct (fmax_cases lo y Nlo Ny) as (Hc & H1 & H2).
  split; [exact H1|].
  destruct Hc as [E | E]; rewrite E in *; [left; exact Hlo|].
  destruct Hy as [E' | Hx]; [left; rewrite E'; exact Hd|].
  destruct (above_finite_cases lo y Hlo H1) as [Hf | Hinf]; [left; exact Hf|].
  right. rewrite Hx. rewrite Hinf. split; reflexivity.
Qed.

Lemma ratio_on_doubles (x : option float64) :
  let out := JS.Math_min (JS.lit 1) (clamp (JS.lit 0) (JS.lit 0.2) x) in
  fleb (of_Q 0) out = true /\ fleb out (of_Q 1) = true /\
  is_finite out = true.
Proof.
  intros out.
  destruct (clamp_on_doubles (of_Q 0) (of_Q 0.2) x eq_refl eq_refl)
    as [H0 _].
  set (y := clamp (JS.lit 0) (JS.lit 0.2) x) in *.
  assert (Ny : is_nan y = false) by (apply (fleb_not_nan _ _ H0)).
  destruct (fmin_cases (of_Q 1) y eq_refl Ny) as (Hc & H1 & H2).
  assert (Hlo : fleb (of_Q 0) out = true).
  { unfold out. cbn [JS.Math_min JS.lit num instance].
    destruct Hc as [E | E]; rewrite E; [reflexivity|exact H0]. }
  assert (Hhi : fleb out (of_Q 1) = true) by exact H1.
  repeat split; try assumption.
  apply (bounded_is_finite (of_Q 0) (of_Q 1)); auto.
Qed.

(** On binary64, for every input and every engine: the normalized fields
    are those of section 4.1; each is a number not below its bound (0 for
    the two throughput drivers, 1 or 0.1 for the others), the ratio lies in
    [0, 1], and a field is finite unless its input is +Infinity, which the
    clamp lets through. *)
Lemma normalizer_on_doubles
    (workload : option (Raw.WorkloadParams float64))
    (userResources : option (Raw.UserResources float64)) :
  let safeW := safeWorkload workload in
  let safeR := safeResources userResources in
  (safeW = normalize_workload workload /\
   safeR = normalize_resources userResources) /\
  (clamped_from (of_Q 0) (JS.opt_field workload (@Raw.requestsPerSecond _))
     (requestsPerSecond safeW) /\
   clamped_from (of_Q 0) (JS.opt_field workload (@Raw.metricsPerRequest _))
     (metricsPerRequest safeW) /\
   (fleb (of_Q 0) (uniqueMetricsRatio safeW) = true /\
    fleb (uniqueMetricsRatio safeW) (of_Q 1) = true /\
    is_finite (uniqueMetricsRatio safeW) = true) /\
   clamped_from (of_Q 1) (JS.opt_field workload (@Raw.calculationComplexity _))
     (calculationComplexity safeW) /\
   clamped_from (of_Q 1) (JS.opt_field workload (@Raw.flushIntervalSeconds _))
     (flushIntervalSeconds safeW) /\
   clamped_from (of_Q 1) (JS.opt_field workload (@Raw.retentionPeriodDays _))
     (retentionPeriodDays safeW)) /\
  (clamped_from (of_Q 0.1) (JS.opt_field userResources (@Raw.cpu _))
     (UR.cpu safeR) /\
   clamped_from (of_Q 0.1) (JS.opt_field userResources (@Raw.memory _))
     (UR.memory safeR) /\
   clamped_from (of_Q 1) (JS.opt_field userResources (@Raw.diskIO _))
     (UR.diskIO safeR) /\
   clamped_from (of_Q 1) (JS.opt_field userResources (@Raw.networkIO _))
     (UR.networkIO safeR) /\
   clamped_from (of_Q 1) (JS.opt_field userResources (@Raw.storage _))
     (UR.storage safeR) /\
   clamped_from (of_Q 1) (JS.opt_field userResources (@Raw.statsdInstances _))
     (UR.statsdInstances safeR) /\
   clamped_from (of_Q 1) (JS.opt_field userResources (@Raw.carbonInstances _))
     (UR.carbonInstances safeR)).
Proof.
  intros safeW safeR.
  split; [apply normalizer_follows_rules|].
  split.
  - split; [apply (clamp_on_doubles (of_Q 0) (of_Q 0)); reflexivity|].
    split; [apply (clamp_on_doubles (of_Q 0) (of_Q 0)); reflexivity|].
    split; [apply (ratio_on_doubles
                     (JS.opt_field workload (@Raw.uniqueMetricsRatio _)))|].
    split; [apply (clamp_on_doubles (of_Q 1) (of_Q 1)); reflexivity|].
    split; [apply (clamp_on_doubles (of_Q 1) (of_Q 10)); reflexivity|].
    apply (clamp_on_doubles (of_Q 1) (of_Q 1)); reflexivity.
  - split; [apply (clamp_on_doubles (of_Q 0.1) (of_Q 1)); reflexivity|].
    split; [apply (clamp_on_doubles (of_Q 0.1) (of_Q 1)); reflexivity|].
    split; [apply (clamp_on_doubles (of_Q 1) (of_Q 10)); reflexivity|].
    split; [apply (clamp_on_doubles (of_Q 1) (of_Q 10)); reflexivity|].
    split; [apply (clamp_on_doubles (of_Q 1) (of_Q 10)); reflexivity|].
    split; [apply (clamp_on_doubles (of_Q 1) (of_Q 1)); reflexivity|].
    apply (clamp_on_doubles (of_Q 1) (of_Q 1)); reflexivity.
Qed.

Lemma fmul_pinf_cases (y : float64) :
  fmul pinf y = pinf \/ fmul pinf y = ninf \/ fmul pinf y = nan.
Proof. destruct y as [s|s| |s m e]; try destruct s; cbn; auto. Qed.

(** A finite workload whose product overflows: 1e308 requests per second
    with 10 metrics each.  The total is +Infinity and the CPU value is NaN,
    whatever the engine's [log10] returns. *)
Lemma overflow_gives_nan :
  is_nan (value (RR.cpu (requirements
     (calculateResourceRequirements (num := num)
        (Some (workload_of (num := num) 1e308 10 0.2 1 10 30))
        (Some (BASE_RESOURCES (num := num))))))) = true.
Proof.
  unfold_estimator. subst num. unfold_estimator.
  repeat match goal with
         | |- context [fadd (of_Q 1) (log10 ?a)] =>
             generalize (fadd (of_Q 1) (log10 a)); intro
         end.
  repeat match goal with
         | y : float64 |- _ => destruct y as [[|]|[|]| |[|] ? ?]
         end; vm_compute; reflexivity.
Qed.

End Normalizer.

(** An infinite capacity passes through the normalizer, and a finite
    workload can overflow behind it. *)
Lemma infinity_passes_the_normalizer :
  let safeR :=
    safeResources (num := Float64.sample)
      (Some (Raw.Build_UserResources (Some Float64.pinf) None None None
               None None None)) in
  let overflowing :=
    calculateResourceRequirements (num := Float64.sample)
      (Some (workload_of 1e308 10 0.2 1 10 30)) (Some BASE_RESOURCES) in
  UR.cpu safeR = Float64.pinf /\
  Float64.is_finite (UR.cpu safeR) = false /\
  Float64.is_finite
    (requestsPerSecond
       (safeWorkload (num := Float64.sample)
          (Some (workload_of 1e308 10 0.2 1 10 30)))) = true /\
  FM.totalMetricsPerSecond (flowMetrics overflowing) = Float64.pinf /\
  value (RR.cpu (requirements overflowing)) = Float64.nan.
Proof.
  repeat split; vm_compute; reflexivity.
Qed.

(** C6.  The normalizer applies the clamp rules of section 4.1 on every
    carrier.  On binary64, for every input and engine, every normalized
    field is a number (never NaN) not below its bound, the ratio lies in
    [0, 1], and a field is finite unless its input is +Infinity: an infinite
    input is not clamped.  (That no NaN or Infinity arises downstream is
    not part of the statement: a finite workload can overflow.) *)
Theorem normalizer_clamps :
  (forall (N : Type) (num : JS.Number N)
          (workload : option (Raw.WorkloadParams N))
          (userResources : option (Raw.UserResources N)),
     safeWorkload workload = normalize_workload workload /\
     safeResources userResources = normalize_resources userResources) /\
  (forall (log10 : Float64.float64 -> Float64.float64)
          (workload : option (Raw.WorkloadParams Float64.float64))
          (userResources : option (Raw.UserResources Float64.float64)),
     let safeW := safeWorkload (num := Float64.instance log10) workload in
     let safeR := safeResources (num := Float64.instance log10) userResources in
     (clamped_from (Float64.of_Q 0)
        (JS.opt_field workload (@Raw.requestsPerSecond _))
        (requestsPerSecond safeW) /\
      clamped_from (Float64.of_Q 0)
        (JS.opt_field workload (@Raw.metricsPerRequest _))
        (metricsPerRequest safeW) /\
      (Float64.fleb (Float64.of_Q 0) (uniqueMetricsRatio safeW) = true /\
       Float64.fleb (uniqueMetricsRatio safeW) (Float64.of_Q 1) = true /\
       Float64.is_finite (uniqueMetricsRatio safeW) = true) /\
      clamped_from (Float64.of_Q 1)
        (JS.opt_field workload (@Raw.calculationComplexity _))
        (calculationComplexity safeW) /\
      clamped_from (Float64.of_Q 1)
        (JS.opt_field workload (@Raw.flushIntervalSeconds _))
        (flushIntervalSeconds safeW) /\
      clamped_from (Float64.of_Q 1)
        (JS.opt_field workload (@Raw.retentionPeriodDays _))
        (retentionPeriodDays safeW)) /\
     (clamped_from (Float64.of_Q 0.1)
        (JS.opt_field userResources (@Raw.cpu _)) (UR.cpu safeR) /\
      clamped_from (Float64.of_Q 0.1)
        (JS.opt_field userResources (@Raw.memory _)) (UR.memory safeR) /\
      clamped_from (Float64.of_Q 1)
        (JS.opt_field userResources (@Raw.diskIO _)) (UR.diskIO safeR) /\
      clamped_from (Float64.of_Q 1)
        (JS.opt_field userResources (@Raw.networkIO _)) (UR.networkIO safeR) /\
      clamped_from (Float64.of_Q 1)
        (JS.opt_field userResources (@Raw.storage _)) (UR.storage safeR) /\
      clamped_from (Float64.of_Q 1)
        (JS.opt_field userResources (@Raw.statsdInstances _))
        (UR.statsdInstances safeR) /\
      clamped_from (Float64.of_Q 1)
        (JS.opt_field userResources (@Raw.carbonInstances _))
        (UR.carbonInstances safeR))).
Proof.
  split.
  - intros. apply normalizer_follows_rules.
  - intros log10 workload userResources.
    apply (normalizer_on_doubles log10 workload userResources).
Qed.

(** ** Network I/O and the instance counts *)

Section Network.

(** The network resource of the result does not read the instance counts. *)
Lemma network_ignores_instance_counts {N} {num : JS.Number N}
    (workload : option (Raw.WorkloadParams N))
    (r : Raw.UserResources N) (statsd carbon : option N) :
  RR.networkIO
    (requirements
       (calculateResourceRequirements workload
          (Some (with_statsdInstances (with_carbonInstances r carbon) statsd))))
  = RR.networkIO (requirements (calculateResourceRequirements workload (Some r))).
Proof.
  reflexivity.
Qed.

Lemma network_follows_formula {N} {num : JS.Number N}
    (workload : option (Raw.WorkloadParams N))
    (userResources : option (Raw.UserResources N)) :
  let res := RR.networkIO (requirements
               (calculateResourceRequirements workload userResources)) in
  value res = network_value (safeWorkload workload) /\
  utilization res =
    JS.div (network_value (safeWorkload workload))
      (UR.networkIO (safeResources userResources)).
Proof.
  split; reflexivity.
Qed.

(** In the collector sweep every network ratio is the baseline value
    divided by itself. *)
Lemma collector_network_ratios {N} {num : JS.Number N}
    (workload : option (Raw.WorkloadParams N))
    (currentResources : option (Raw.UserResources N)) :
  let v := value (RR.networkIO
                    (requirements (baselineResult workload currentResources))) in
  CS.networkOverhead
    (collectorScaling (validateInstanceScaling workload currentResources))
  = map (fun _ => JS.div v v) sweep.
Proof.
  intros v. unfold validateInstanceScaling.
  destruct (scan_best _ _) as [b1 i1]. destruct (scan_best _ _) as [b2 i2].
  reflexivity.
Qed.

Import Float64 Float64Facts.

(** On binary64 the ratio is 1 when the baseline value is finite and not
    zero, and NaN otherwise (0/0, Infinity/Infinity, NaN/NaN). *)
Lemma collector_network_ratios_on_doubles (log10 : float64 -> float64)
    (workload : option (Raw.WorkloadParams float64))
    (currentResources : option (Raw.UserResources float64)) :
  let v := value (RR.networkIO
                    (requirements
                       (baselineResult (num := Float64.instance log10)
                          workload currentResources))) in
  let ratio := match v with S754_finite _ _ _ => of_Z 1 | _ => nan end in
  CS.networkOverhead
    (collectorScaling
       (validateInstanceScaling (num := Float64.instance log10)
          workload currentResources))
  = [ratio; ratio; ratio; ratio; ratio; ratio; ratio; ratio].
Proof.
  intros v ratio. rewrite collector_network_ratios.
  fold v. change (JS.div v v) with (fdiv v v).
  rewrite fdiv_self_cases. reflexivity.
Qed.

End Network.

(** With no traffic the network value is 0 and every ratio of the
    collector sweep is 0/0. *)
Lemma network_ratio_without_traffic :
  value (RR.networkIO
           (requirements
              (baselineResult (num := Float64.sample) None None)))
  = Float64.pzero /\
  CS.networkOverhead
    (collectorScaling
       (validateInstanceScaling (num := Float64.sample) None None))
  = [Float64.nan; Float64.nan; Float64.nan; Float64.nan;
     Float64.nan; Float64.nan; Float64.nan; Float64.nan].
Proof.
  split; vm_compute; reflexivity.
Qed.

(** C10.  On every carrier the network resource (value, utilization and
    status) is the same for inputs that differ only in statsdInstances and
    carbonInstances, and its value is
    ceil((max(client, client x 0.3) + client x 0.05 x complexity) x 10) / 10
    with client = total x 50 x 8 / (1024 x 1024).  On binary64 every network
    ratio of the collector sweep is 1 when that value is finite and not
    zero, and NaN otherwise; in the reference configuration the value is
    87.8 and the ratios are 1. *)
Theorem network_independent_of_instances :
  (forall (N : Type) (num : JS.Number N)
          (workload : option (Raw.WorkloadParams N))
          (r : Raw.UserResources N) (statsd carbon : option N),
     RR.networkIO
       (requirements
          (calculateResourceRequirements workload
             (Some (with_statsdInstances (with_carbonInstances r carbon)
                      statsd))))
     = RR.networkIO
         (requirements (calculateResourceRequirements workload (Some r)))) /\
  (forall (N : Type) (num : JS.Number N)
          (workload : option (Raw.WorkloadParams N))
          (userResources : option (Raw.UserResources N)),
     let res := RR.networkIO (requirements
                  (calculateResourceRequirements workload userResources)) in
     value res = network_value (safeWorkload workload) /\
     utilization res =
       JS.div (network_value (safeWorkload workload))
         (UR.networkIO (safeResources userResources))) /\
  (forall (log10 : Float64.float64 -> Float64.float64)
          (workload : option (Raw.WorkloadParams Float64.float64))
          (currentResources : option (Raw.UserResources Float64.float64)),
     let v := value (RR.networkIO
                (requirements
                   (baselineResult (num := Float64.instance log10)
                      workload currentResources))) in
     let ratio :=
       match v with
       | S754_finite _ _ _ => Float64.of_Z 1
       | _ => Float64.nan
       end in
     CS.networkOverhead
       (collectorScaling
          (validateInstanceScaling (num := Float64.instance log10)
             workload currentResources))
     = [ratio; ratio; ratio; ratio; ratio; ratio; ratio; ratio]) /\
  (value (RR.networkIO
            (requirements
               (calculateResourceRequirements (num := Float64.sample)
                  (Some TEST_WORKLOAD) (Some BASE_RESOURCES))))
   = Float64.of_Q 87.8 /\
   CS.networkOverhead
     (collectorScaling
        (validateInstanceScaling (num := Float64.sample)
           (Some TEST_WORKLOAD) (Some BASE_RESOURCES)))
   = map (fun _ => Float64.of_Z 1) (sweep (num := Float64.sample))).
Proof.
  split; [intros; apply network_ignores_instance_counts|].
  split; [intros; apply network_follows_formula|].
  split; [intros; apply collector_network_ratios_on_doubles|].
  assert (Hv : value (RR.networkIO
            (requirements
               (calculateResourceRequirements (num := Float64.sample)
                  (Some TEST_WORKLOAD) (Some BASE_RESOURCES))))
          = Float64.of_Q 87.8) by (vm_compute; reflexivity).
  split; [exact Hv|].
  rewrite (collector_network_ratios_on_doubles Float64.log10_sample).
  change (baselineResult (num := Float64.instance Float64.log10_sample)
            (Some TEST_WORKLOAD) (Some BASE_RESOURCES))
    with (calculateResourceRequirements (num := Float64.sample)
            (Some TEST_WORKLOAD)
            (Some (with_statsdInstances
                     (with_carbonInstances BASE_RESOURCES
                        (Some (Float64.of_Q 1)))
                     (Some (Float64.of_Q 1))))).
  rewrite network_ignores_instance_counts, Hv. reflexivity.
Qed.

(** ** The estimate as a whole *)

Section LightLoads.

Import Float64 Float64Facts.

(** When neither tier is loaded beyond its unit (both arguments of
    [log10] are 1) the estimate is the same on every engine that returns
    [+0] at 1, as the standard requires. *)
Lemma estimate_on_light_loads (log10 : float64 -> float64)
    (workload : option (Raw.WorkloadParams float64))
    (userResources : option (Raw.UserResources float64)) :
  log10 (of_Z 1) = pzero ->
  fmax (of_Q 1)
    (totalStatsDLoad (num := Float64.sample) (safeWorkload workload)) = of_Z 1 ->
  fmax (of_Q 1)
    (totalWriteLoad (num := Float64.sample) (safeWorkload workload)) = of_Z 1 ->
  calculateResourceRequirements (num := Float64.instance log10)
    workload userResources
  = calculateResourceRequirements (num := Float64.sample)
      workload userResources.
Proof.
  intros Hlog H1 H2.
  unfold_estimator_everywhere.
  rewrite !H1, !H2, !Hlog.
  change (log10_sample (of_Z 1)) with pzero.
  reflexivity.
Qed.

End LightLoads.

Section EmptyInputs.

Import Float64 Float64Facts.

(** With no workload and no resources ([null] or [{}]) nothing flows: the
    CPU and memory floors are reported, and the disk, network and storage
    values are zero. *)
Lemma estimate_of_nothing (log10 : float64 -> float64)
    (workload : option (Raw.WorkloadParams float64))
    (userResources : option (Raw.UserResources float64)) :
  log10 (of_Z 1) = pzero ->
  In workload [None; Some Raw.empty_workload] ->
  In userResources [None; Some Raw.empty_resources] ->
  let e := calculateResourceRequirements (num := Float64.instance log10)
             workload userResources in
  FM.totalMetricsPerSecond (flowMetrics e) = pzero /\
  value (RR.cpu (requirements e)) = of_Q 0.1 /\
  value (RR.memory (requirements e)) = of_Q 1.1 /\
  value (RR.diskIO (requirements e)) = pzero /\
  value (RR.networkIO (requirements e)) = pzero /\
  value (RR.storage (requirements e)) = pzero /\
  Forall (fun res => fleb pzero (utilization res) = true)
    (resources_of (requirements e)).
Proof.
  intros Hlog Hw Hr e. unfold e.
  assert (E : calculateResourceRequirements (num := Float64.instance log10)
                workload userResources
              = calculateResourceRequirements (num := Float64.sample)
                  None None).
  { cbn [In] in Hw, Hr.
    destruct Hw as [<-|[<-|[]]]; destruct Hr as [<-|[<-|[]]];
      (rewrite estimate_on_light_loads;
       [reflexivity|exact Hlog|vm_compute; reflexivity
       |vm_compute; reflexivity]). }
  rewrite E. repeat split; try (vm_compute; reflexivity).
  unfold resources_of.
  repeat (apply Forall_cons; [vm_compute; reflexivity|]). apply Forall_nil.
Qed.

End EmptyInputs.

(** The empty input on the sample engine: three of the five values are
    zero, hence not above zero. *)
Lemma empty_input_has_zero_values :
  let e := calculateResourceRequirements (num := Float64.sample)
             (Some Raw.empty_workload) (Some Raw.empty_resources) in
  FM.totalMetricsPerSecond (flowMetrics e) = Float64.pzero /\
  value (RR.diskIO (requirements e)) = Float64.pzero /\
  value (RR.networkIO (requirements e)) = Float64.pzero /\
  value (RR.storage (requirements e)) = Float64.pzero /\
  Float64.fltb Float64.pzero (value (RR.diskIO (requirements e))) = false /\
  Float64.fltb Float64.pzero (value (RR.networkIO (requirements e))) = false /\
  Float64.fltb Float64.pzero (value (RR.storage (requirements e))) = false.
Proof.
  repeat split; vm_compute; reflexivity.
Qed.

Section SignsOfTheEstimate.

Import Ideal IdealFacts.
Local Open Scope R_scope.

Lemma signs_of_the_estimate (workload : option (Raw.WorkloadParams R))
    (userResources : option (Raw.UserResources R)) :
  let rq := requirements
              (calculateResourceRequirements workload userResources) in
  (1 / 10 <= value (RR.cpu rq) /\ 1 / 2 <= value (RR.memory rq) /\
   0 <= value (RR.diskIO rq) /\ 0 <= value (RR.networkIO rq) /\
   0 <= value (RR.storage rq)) /\
  Forall (fun res => 0 <= utilization res) (resources_of rq).
Proof.
  apply (IdealEstimator.signs_of_requirements
           (safeWorkload workload) (safeResources userResources)
           (safeWorkload_valid workload) (safeResources_valid userResources)).
Qed.

End SignsOfTheEstimate.

Section ValuesFollowTheFlow.

Import Ideal IdealFacts.
Local Open Scope R_scope.

Variable safeW : WorkloadParams R.
Variable safeR : UserResources R.
Hypothesis Hw : WorkloadParams_valid safeW.
Hypothesis Hr : UserResources_valid safeR.

Lemma round_up_pos (x : R) : 0 < x -> 1 / 10 <= round_up_1dp x.
Proof.
  intros Hx. unfold round_up_1dp. ideal_ops. literals.
  assert (1 <= ceil (x * 10)) by (apply ceil_pos; lra). lra.
Qed.

Lemma round_up_zero : round_up_1dp (N := R) 0 = 0.
Proof.
  unfold round_up_1dp. ideal_ops. literals.
  rewrite Rmult_0_l, (ceil_IZR 0). lra.
Qed.

Lemma disk_throughput_product :
  disk_throughput safeW safeR
  = uniqueMetricsPerSecond safeW *
    (25 / 10 * randomIoFactor safeW * diskScalingFactor safeR *
     (4096 * (115 / 100)) / (1024 * 1024)).
Proof.
  unfold disk_throughput. rewrite IdealEstimator.bytesPerOperation_value.
  unfold diskIopsRequired, effectiveIopsPerWrite, baseIopsPerWrite,
    writesPerSecond.
  ideal_ops. literals. field.
Qed.

Lemma disk_value_follows_writes :
  (0 < uniqueMetricsPerSecond safeW -> 1 / 10 <= diskIORequired safeW safeR) /\
  (uniqueMetricsPerSecond safeW = 0 -> diskIORequired safeW safeR = 0).
Proof.
  rewrite IdealEstimator.diskIORequired_rounds, disk_throughput_product.
  pose proof (IdealEstimator.randomIoFactor_ge_1 safeW Hw) as Hf.
  pose proof (IdealEstimator.diskScalingFactor_pos safeR Hr) as Hs.
  split.
  - intros Hu. apply round_up_pos. apply Rmult_lt_0_compat; [exact Hu|].
    assert (0 < randomIoFactor safeW * diskScalingFactor safeR)
      by (apply Rmult_lt_0_compat; lra).
    lra.
  - intros ->. rewrite Rmult_0_l. apply round_up_zero.
Qed.

Lemma network_value_follows_traffic :
  (0 < totalMetricsPerSecond safeW -> 1 / 10 <= totalNetworkRequired safeW) /\
  (totalMetricsPerSecond safeW = 0 -> totalNetworkRequired safeW = 0).
Proof.
  change (totalNetworkRequired safeW) with (network_value safeW).
  unfold network_value.
  destruct Hw as (_ & _ & _ & Hc & _).
  split.
  - intros Ht. apply round_up_pos.
    unfold client_traffic. ideal_ops. literals.
    set (c := totalMetricsPerSecond safeW * 50 * 8 / (1024 * 1024)).
    assert (0 < c) by (unfold c; lra).
    pose proof (Rmax_l c (c * (3 / 10))).
    assert (0 <= c * (5 / 100) * calculationComplexity safeW) by nra.
    lra.
  - intros Ht. unfold client_traffic. rewrite Ht. ideal_ops. literals.
    replace (0 * 50 * 8 / (1024 * 1024)) with 0 by lra.
    rewrite !Rmult_0_l, Rmax_left by lra. rewrite Rplus_0_l.
    apply round_up_zero.
Qed.

Lemma storage_value_follows_writes :
  (0 < uniqueMetricsPerSecond safeW ->
   1 / 10 <= round_up_1dp (dailyStorageGB safeW)) /\
  (uniqueMetricsPerSecond safeW = 0 -> round_up_1dp (dailyStorageGB safeW) = 0).
Proof.
  unfold dailyStorageGB, pointsPerMetricPerDay, bytesPerStoredPoint.
  split.
  - intros Hu. apply round_up_pos. ideal_ops. literals. lra.
  - intros ->. ideal_ops. literals.
    replace (0 * (86400 / 10) * 12 / (1024 * 1024 * 1024)) with 0 by lra.
    apply round_up_zero.
Qed.

(** What flows: the metrics per second are positive exactly when requests
    and metrics per request are, and something is written exactly when,
    moreover, the ratio of unique metrics is positive. *)
Lemma flow_positive :
  (0 < totalMetricsPerSecond safeW <->
   0 < requestsPerSecond safeW /\ 0 < metricsPerRequest safeW) /\
  (0 < uniqueMetricsPerSecond safeW <->
   0 < requestsPerSecond safeW /\ 0 < metricsPerRequest safeW /\
   0 < uniqueMetricsRatio safeW).
Proof.
  destruct Hw as (H1 & H2 & [H3 _] & _).
  assert (Ht : 0 < totalMetricsPerSecond safeW <->
               0 < requestsPerSecond safeW /\ 0 < metricsPerRequest safeW).
  { unfold totalMetricsPerSecond. ideal_ops. split.
    - intros H. split.
      + destruct H1 as [H1|H1]; [exact H1|]. rewrite <- H1 in H. lra.
      + destruct H2 as [H2|H2]; [exact H2|]. rewrite <- H2 in H. lra.
    - intros [Ha Hb]. apply Rmult_lt_0_compat; assumption. }
  split; [exact Ht|].
  unfold uniqueMetricsPerSecond. ideal_ops.
  pose proof (IdealEstimator.total_nonneg safeW Hw) as Hn.
  split.
  - intros H.
    assert (Hp : 0 < totalMetricsPerSecond safeW * uniqueMetricsRatio safeW).
    { destruct (Rle_or_lt (totalMetricsPerSecond safeW * uniqueMetricsRatio safeW) 0) as [Hle|Hlt];
        [|exact Hlt].
      assert (E : totalMetricsPerSecond safeW * uniqueMetricsRatio safeW = 0).
      { apply Rle_antisym; [exact Hle|]. apply Rmult_le_pos; assumption. }
      rewrite E, (ceil_IZR 0) in H. lra. }
    assert (0 < totalMetricsPerSecond safeW).
    { destruct Hn as [Hn|Hn]; [exact Hn|]. rewrite <- Hn in Hp. lra. }
    assert (0 < uniqueMetricsRatio safeW).
    { destruct H3 as [H3|H3]; [exact H3|]. rewrite <- H3 in Hp. lra. }
    destruct (proj1 Ht H0). auto.
  - intros (Ha & Hb & Hc).
    assert (0 < totalMetricsPerSecond safeW) by (apply Ht; auto).
    assert (1 <= ceil (totalMetricsPerSecond safeW * uniqueMetricsRatio safeW)).
    { apply ceil_pos. apply Rmult_lt_0_compat; assumption. }
    lra.
Qed.

End ValuesFollowTheFlow.


(** The baseline of the test suite on binary64: all five values are above
    zero. *)
Lemma baseline_values_positive :
  Forall (fun res => Float64.fltb Float64.pzero (value res) = true)
    (resources_of
       (requirements
          (calculateResourceRequirements (num := Float64.sample)
             (Some baseline_workload) (Some baseline_resources)))).
Proof.
  unfold resources_of.
  repeat (apply Forall_cons; [vm_compute; reflexivity|]). apply Forall_nil.
Qed.

(** C1.  The estimator is a total function of its inputs, absent and
    partial records included.  In exact arithmetic, for every input, the
    CPU value is at least 0.1 and the memory value at least 0.5 (both above
    zero), the disk, network and storage values are at least 0, and every
    utilization is at least 0.  On binary64, on every engine whose log10
    returns +0 at 1, a null or empty workload with null or empty resources
    gives totalMetricsPerSecond = 0, CPU value 0.1, memory value 1.1, and
    the disk, network and storage values equal to 0.  In exact arithmetic,
    for every input, the values that can be zero are zero only when nothing
    flows: the network value is at least 0.1 when totalMetricsPerSecond is
    above zero and 0 when it is zero, the disk and storage values are at
    least 0.1 when uniqueMetricsPerSecond is above zero and 0 when it is
    zero; totalMetricsPerSecond is above zero exactly when the normalized
    requestsPerSecond and metricsPerRequest are, and uniqueMetricsPerSecond
    exactly when moreover the normalized uniqueMetricsRatio is.  On binary64
    the baseline of the test suite has all five values above zero. *)
Theorem estimate_signs :
  (forall (workload : option (Raw.WorkloadParams R))
          (userResources : option (Raw.UserResources R)),
     let rq := requirements
                 (calculateResourceRequirements (num := Ideal.instance)
                    workload userResources) in
     ((1 / 10 <= value (RR.cpu rq))%R /\ (1 / 2 <= value (RR.memory rq))%R /\
      (0 <= value (RR.diskIO rq))%R /\ (0 <= value (RR.networkIO rq))%R /\
      (0 <= value (RR.storage rq))%R) /\
     Forall (fun res => (0 <= utilization res)%R) (resources_of rq)) /\
  (forall (log10 : Float64.float64 -> Float64.float64)
          (workload : option (Raw.WorkloadParams Float64.float64))
          (userResources : option (Raw.UserResources Float64.float64)),
     log10 (Float64.of_Z 1) = Float64.pzero ->
     In workload [None; Some Raw.empty_workload] ->
     In userResources [None; Some Raw.empty_resources] ->
     let e := calculateResourceRequirements (num := Float64.instance log10)
                workload userResources in
     FM.totalMetricsPerSecond (flowMetrics e) = Float64.pzero /\
     value (RR.cpu (requirements e)) = Float64.of_Q 0.1 /\
     value (RR.memory (requirements e)) = Float64.of_Q 1.1 /\
     value (RR.diskIO (requirements e)) = Float64.pzero /\
     value (RR.networkIO (requirements e)) = Float64.pzero /\
     value (RR.storage (requirements e)) = Float64.pzero /\
     Forall (fun res => Float64.fleb Float64.pzero (utilization res) = true)
       (resources_of (requirements e))) /\
  (forall (workload : option (Raw.WorkloadParams R))
          (userResources : option (Raw.UserResources R)),
     let e := calculateResourceRequirements (num := Ideal.instance)
                workload userResources in
     let total := FM.totalMetricsPerSecond (flowMetrics e) in
     let unique := FM.uniqueMetricsPerSecond (flowMetrics e) in
     let safeW := safeWorkload (num := Ideal.instance) workload in
     (0 <= total)%R /\ (0 <= unique)%R /\
     ((0 < total)%R <->
      (0 < requestsPerSecond safeW)%R /\ (0 < metricsPerRequest safeW)%R) /\
     ((0 < unique)%R <->
      (0 < requestsPerSecond safeW)%R /\ (0 < metricsPerRequest safeW)%R /\
      (0 < uniqueMetricsRatio safeW)%R) /\
     ((0 < total)%R -> (1 / 10 <= value (RR.networkIO (requirements e)))%R) /\
     (total = 0%R -> value (RR.networkIO (requirements e)) = 0%R) /\
     ((0 < unique)%R ->
      (1 / 10 <= value (RR.diskIO (requirements e)))%R /\
      (1 / 10 <= value (RR.storage (requirements e)))%R) /\
     (unique = 0%R ->
      value (RR.diskIO (requirements e)) = 0%R /\
      value (RR.storage (requirements e)) = 0%R)) /\
  Forall (fun res => Float64.fltb Float64.pzero (value res) = true)
    (resources_of
       (requirements
          (calculateResourceRequirements (num := Float64.sample)
             (Some baseline_workload) (Some baseline_resources)))).
Proof.
  split; [intros; apply signs_of_the_estimate|].
  split; [intros; apply estimate_of_nothing; assumption|].
  split; [|apply baseline_values_positive].
  intros workload userResources e total unique safeW.
  pose proof (IdealFacts.safeWorkload_valid workload) as Hw.
  pose proof (IdealFacts.safeResources_valid userResources) as Hr.
  fold safeW in Hw.
  set (safeR := safeResources userResources) in Hr.
  destruct (flow_positive safeW Hw) as [Ht Hu].
  destruct (network_value_follows_traffic safeW Hw) as [Hn1 Hn0].
  destruct (disk_value_follows_writes safeW safeR Hw Hr) as [Hd1 Hd0].
  destruct (storage_value_follows_writes safeW) as [Hs1 Hs0].
  split; [exact (IdealEstimator.total_nonneg safeW Hw)|].
  split; [exact (IdealEstimator.unique_nonneg safeW Hw)|].
  split; [exact Ht|]. split; [exact Hu|].
  split; [exact Hn1|]. split; [exact Hn0|].
  split.
  - intros H. split; [exact (Hd1 H)|exact (Hs1 H)].
  - intros H. split; [exact (Hd0 H)|exact (Hs0 H)].
Qed.

Section BaselineFlows.

Import Ideal IdealFacts.
Local Open Scope R_scope.

Lemma baseline_flows :
  0 < requestsPerSecond (safeWorkload (num := Ideal.instance) (Some baseline_workload)) /\
  0 < metricsPerRequest (safeWorkload (num := Ideal.instance) (Some baseline_workload)) /\
  0 < uniqueMetricsRatio (safeWorkload (num := Ideal.instance) (Some baseline_workload)).
Proof.
  cbn [safeWorkload requestsPerSecond metricsPerRequest uniqueMetricsRatio
       baseline_workload workload_of JS.opt_field Raw.requestsPerSecond
       Raw.metricsPerRequest Raw.uniqueMetricsRatio].
  ideal_ops. literals.
  rewrite !or_default_some by lra.
  repeat split.
  - pose proof (Rmax_r 0 1000). lra.
  - pose proof (Rmax_r 0 10). lra.
  - apply Rmin_glb_lt; [lra|]. pose proof (Rmax_r 0 (2 / 10)). lra.
Qed.
End BaselineFlows.

(** The second part at the sample engine and the [null] inputs, and the
    third part at the baseline of the test suite. *)
Lemma estimate_signs_witness :
  (Float64.log10_sample (Float64.of_Z 1) = Float64.pzero /\
   In (@None (Raw.WorkloadParams Float64.float64)) [None; Some Raw.empty_workload] /\
   In (@None (Raw.UserResources Float64.float64)) [None; Some Raw.empty_resources] /\
   value (RR.cpu (requirements
     (calculateResourceRequirements
        (num := Float64.instance Float64.log10_sample) None None)))
   = Float64.of_Q 0.1) /\
  ((0 < FM.uniqueMetricsPerSecond
          (flowMetrics
             (calculateResourceRequirements (num := Ideal.instance)
                (Some baseline_workload) (Some baseline_resources))))%R /\
   (1 / 10 <= value (RR.diskIO (requirements
      (calculateResourceRequirements (num := Ideal.instance)
         (Some baseline_workload) (Some baseline_resources)))))%R /\
   (1 / 10 <= value (RR.storage (requirements
      (calculateResourceRequirements (num := Ideal.instance)
         (Some baseline_workload) (Some baseline_resources)))))%R).
Proof.
  split.
  - split; [reflexivity|]. split; [left; reflexivity|]. split; [left; reflexivity|].
    apply (proj1 (proj2 estimate_signs) Float64.log10_sample None None eq_refl
             (or_introl eq_refl) (or_introl eq_refl)).
  - pose proof (proj1 (proj2 (proj2 estimate_signs))
                  (Some baseline_workload) (Some baseline_resources)) as H.
    cbv zeta in H.
    destruct H as (_ & _ & _ & Hu & _ & _ & Hd & _).
    pose proof (proj2 Hu baseline_flows) as Hpos.
    split; [exact Hpos|exact (Hd Hpos)].
Defined.

(** ** Disk I/O and the writer count *)

Section DiskScaling.

Import Ideal IdealFacts.
Local Open Scope R_scope.

Lemma diskScalingFactor_closed_form (safeR : UserResources R) :
  1 <= UR.carbonInstances safeR ->
  diskScalingFactor safeR = 995 / 1000 / UR.carbonInstances safeR + 5 / 1000.
Proof.
  intros Hc. unfold diskScalingFactor, ioCoordinationOverhead.
  ideal_ops. literals. field. lra.
Qed.

Lemma diskScalingFactor_antitone (safeR safeR' : UserResources R) :
  1 <= UR.carbonInstances safeR <= UR.carbonInstances safeR' ->
  diskScalingFactor safeR' <= diskScalingFactor safeR.
Proof.
  intros [H1 H2].
  rewrite !diskScalingFactor_closed_form by lra.
  assert (/ UR.carbonInstances safeR' <= / UR.carbonInstances safeR)
    by (apply Rinv_le_contravar; lra).
  unfold Rdiv. lra.
Qed.

Lemma diskScalingFactor_decreasing (safeR safeR' : UserResources R) :
  1 <= UR.carbonInstances safeR < UR.carbonInstances safeR' ->
  diskScalingFactor safeR' < diskScalingFactor safeR.
Proof.
  intros [H1 H2].
  rewrite !diskScalingFactor_closed_form by lra.
  assert (/ UR.carbonInstances safeR' < / UR.carbonInstances safeR)
    by (apply Rinv_lt_contravar; [nra|lra]).
  unfold Rdiv. lra.
Qed.

(** The throughput is a non-negative multiple of the scaling factor. *)
Lemma disk_throughput_factor (safeW : WorkloadParams R) (safeR : UserResources R) :
  disk_throughput safeW safeR
  = uniqueMetricsPerSecond safeW * (25 / 10) * randomIoFactor safeW
    * (4096 * (115 / 100)) / (1024 * 1024) * diskScalingFactor safeR.
Proof.
  unfold disk_throughput. rewrite IdealEstimator.bytesPerOperation_value.
  unfold diskIopsRequired, effectiveIopsPerWrite, baseIopsPerWrite,
    writesPerSecond.
  ideal_ops. literals. field.
Qed.

Lemma disk_throughput_antitone (safeW : WorkloadParams R)
    (safeR safeR' : UserResources R) :
  WorkloadParams_valid safeW ->
  1 <= UR.carbonInstances safeR <= UR.carbonInstances safeR' ->
  disk_throughput safeW safeR' <= disk_throughput safeW safeR.
Proof.
  intros Hw Hc. rewrite !disk_throughput_factor.
  pose proof (IdealEstimator.unique_nonneg safeW Hw) as Hu.
  pose proof (IdealEstimator.randomIoFactor_ge_1 safeW Hw) as Hf.
  pose proof (diskScalingFactor_antitone safeR safeR' Hc) as Hs.
  apply Rmult_le_compat_l; [|exact Hs].
  assert (0 <= uniqueMetricsPerSecond safeW * (25 / 10) * randomIoFactor safeW)
    by (apply Rmult_le_pos; lra).
  lra.
Qed.

Lemma disk_throughput_decreasing (safeW : WorkloadParams R)
    (safeR safeR' : UserResources R) :
  WorkloadParams_valid safeW ->
  0 < uniqueMetricsPerSecond safeW ->
  1 <= UR.carbonInstances safeR < UR.carbonInstances safeR' ->
  disk_throughput safeW safeR' < disk_throughput safeW safeR.
Proof.
  intros Hw Hu Hc. rewrite !disk_throughput_factor.
  pose proof (IdealEstimator.randomIoFactor_ge_1 safeW Hw) as Hf.
  pose proof (diskScalingFactor_decreasing safeR safeR' Hc) as Hs.
  apply Rmult_lt_compat_l; [|exact Hs].
  assert (0 < uniqueMetricsPerSecond safeW * (25 / 10) * randomIoFactor safeW)
    by (apply Rmult_lt_0_compat; lra).
  lra.
Qed.

Lemma carbon_of_raw (r : Raw.UserResources R) (n : R) :
  UR.carbonInstances (safeResources (Some (with_carbonInstances r (Some n))))
  = Rmax 1 (JS.or_default (Some n) 1).
Proof.
  cbn [safeResources UR.carbonInstances with_carbonInstances JS.opt_field
       Raw.carbonInstances].
  ideal_ops. literals. reflexivity.
Qed.

(** More writers never raise the reported disk value. *)
Lemma more_writers_less_disk (workload : option (Raw.WorkloadParams R))
    (r : Raw.UserResources R) (n m : R) :
  n <= m ->
  value (RR.diskIO (requirements
    (calculateResourceRequirements workload
       (Some (with_carbonInstances r (Some m)))))) <=
  value (RR.diskIO (requirements
    (calculateResourceRequirements workload
       (Some (with_carbonInstances r (Some n)))))).
Proof.
  intros Hnm.
  change (round_up_1dp (disk_throughput (safeWorkload workload)
            (safeResources (Some (with_carbonInstances r (Some m)))))
          <= round_up_1dp (disk_throughput (safeWorkload workload)
            (safeResources (Some (with_carbonInstances r (Some n)))))).
  unfold round_up_1dp. ideal_ops. literals. apply tenths_le.
  apply disk_throughput_antitone; [apply safeWorkload_valid|].
  rewrite !carbon_of_raw. split; [apply Rmax_l|apply clamp_mono; lra].
Qed.

(** With writes to do, more writers strictly lower the throughput that is
    then rounded. *)
Lemma more_writers_less_throughput (workload : option (Raw.WorkloadParams R))
    (r : Raw.UserResources R) (n m : R) :
  0 < uniqueMetricsPerSecond (safeWorkload workload) ->
  1 <= n < m ->
  disk_throughput (safeWorkload workload)
    (safeResources (Some (with_carbonInstances r (Some m)))) <
  disk_throughput (safeWorkload workload)
    (safeResources (Some (with_carbonInstances r (Some n)))).
Proof.
  intros Hu [H1 H2].
  apply disk_throughput_decreasing; [apply safeWorkload_valid|exact Hu|].
  rewrite !carbon_of_raw, !clamp_id by lra. lra.
Qed.

End DiskScaling.

(** One write per second: the disk value is 0.1 MB/s with one writer and
    with two. *)
Lemma one_write_per_second :
  let disk (n : Q) :=
    value (RR.diskIO (requirements
      (calculateResourceRequirements (num := Float64.sample)
         (Some (workload_of 1 1 1 1 10 1))
         (Some (with_carbonInstances BASE_RESOURCES
                  (Some (Float64.of_Q n))))))) in
  disk 1%Q = Float64.of_Q 0.1 /\ disk 2%Q = Float64.of_Q 0.1 /\
  Float64.fltb (disk 2%Q) (disk 1%Q) = false.
Proof.
  repeat split; vm_compute; reflexivity.
Qed.

(** The reference configuration of the horizontal-scaling tests. *)
Lemma reference_disk_ratio :
  let disk (n : Q) :=
    value (RR.diskIO (requirements
      (calculateResourceRequirements (num := Float64.sample)
         (Some TEST_WORKLOAD)
         (Some (with_carbonInstances BASE_RESOURCES
                  (Some (Float64.of_Q n))))))) in
  disk 1%Q = Float64.of_Q 2433.3 /\ disk 4%Q = Float64.of_Q 617.5 /\
  Float64.fltb (Float64.fdiv (disk 4%Q) (disk 1%Q)) (Float64.of_Q 0.5) = true.
Proof.
  repeat split; vm_compute; reflexivity.
Qed.

(** The reference configuration with one to eight writers. *)
Lemma reference_disk_sweep :
  let disk (n : Q) :=
    value (RR.diskIO (requirements
      (calculateResourceRequirements (num := Float64.sample)
         (Some TEST_WORKLOAD)
         (Some (with_carbonInstances BASE_RESOURCES
                  (Some (Float64.of_Q n))))))) in
  map disk [1; 2; 3; 4; 5; 6; 7; 8]%Q
  = map Float64.of_Q
      [2433.3; 1222.8; 819.3; 617.5; 496.4; 415.7; 358.1; 314.9]%Q.
Proof.
  cbv zeta.
  cbn [map calculateResourceRequirements requirements resourceRequirements
       RR.diskIO diskIOResource value].
  vm_compute. reflexivity.
Qed.

(** On binary64 the rounding of the scaling factor can raise the value:
    ten million million writes per second, 3e19 and 4e19 writers. *)
Lemma disk_value_can_rise :
  let disk (n : Q) :=
    value (RR.diskIO (requirements
      (calculateResourceRequirements (num := Float64.sample)
         (Some (workload_of 1e13 1 1 1 10 30))
         (Some (with_carbonInstances BASE_RESOURCES
                  (Some (Float64.of_Q n))))))) in
  Float64.toString (disk 3e19%Q) = "374348958894856770"%string /\
  Float64.toString (disk 4e19%Q) = "374348958894856800"%string /\
  Float64.fltb (disk 3e19%Q) (disk 4e19%Q) = true.
Proof.
  cbv zeta.
  cbn [calculateResourceRequirements requirements resourceRequirements
       RR.diskIO diskIOResource value].
  repeat split; vm_compute; reflexivity.
Qed.

Section ReferenceWrites.

Import Ideal IdealFacts.
Local Open Scope R_scope.

Lemma reference_writes :
  0 < uniqueMetricsPerSecond (num := Ideal.instance)
        (safeWorkload (Some (workload_of 500 50 0.2 3 10 30))).
Proof.
  unfold uniqueMetricsPerSecond, totalMetricsPerSecond.
  cbn [safeWorkload requestsPerSecond metricsPerRequest uniqueMetricsRatio
       workload_of JS.opt_field Raw.requestsPerSecond
       Raw.metricsPerRequest Raw.uniqueMetricsRatio].
  ideal_ops. literals.
  rewrite !or_default_some by lra.
  apply Rlt_le_trans with 1; [lra|]. apply ceil_pos.
  apply Rmult_lt_0_compat; [apply Rmult_lt_0_compat|].
  - pose proof (Rmax_r 0 500). lra.
  - pose proof (Rmax_r 0 50). lra.
  - apply Rmin_glb_lt; [lra|]. pose proof (Rmax_r 0 (2 / 10)). lra.
Qed.

End ReferenceWrites.

(** C7.  In exact arithmetic, for every input, raising carbonInstances
    never raises the disk value, and when there are writes it strictly
    lowers the throughput that the value rounds up to a tenth.  On every
    carrier the value is that throughput rounded up to a tenth.  On
    binary64, in the reference configuration, the value is 2433.3 with one
    writer and 617.5 with four, a ratio below 0.5, and the values with one to
    eight writers are 2433.3, 1222.8, 819.3, 617.5, 496.4, 415.7, 358.1 and
    314.9.  On binary64 the first statement does not hold for every input:
    at 1e13 writes per second the value is 374348958894856770 with 3e19
    writers and 374348958894856800 with 4e19. *)
Theorem disk_scaling :
  (forall (workload : option (Raw.WorkloadParams R))
          (r : Raw.UserResources R) (n m : R),
     (n <= m)%R ->
     (value (RR.diskIO (requirements
        (calculateResourceRequirements (num := Ideal.instance) workload
           (Some (with_carbonInstances r (Some m)))))) <=
      value (RR.diskIO (requirements
        (calculateResourceRequirements (num := Ideal.instance) workload
           (Some (with_carbonInstances r (Some n)))))))%R) /\
  (forall (workload : option (Raw.WorkloadParams R))
          (r : Raw.UserResources R) (n m : R),
     (0 < uniqueMetricsPerSecond (num := Ideal.instance)
            (safeWorkload workload))%R ->
     (1 <= n < m)%R ->
     (disk_throughput (num := Ideal.instance) (safeWorkload workload)
        (safeResources (Some (with_carbonInstances r (Some m)))) <
      disk_throughput (num := Ideal.instance) (safeWorkload workload)
        (safeResources (Some (with_carbonInstances r (Some n)))))%R) /\
  (forall (N : Type) (num : JS.Number N)
          (workload : option (Raw.WorkloadParams N))
          (userResources : option (Raw.UserResources N)),
     value (RR.diskIO (requirements
        (calculateResourceRequirements workload userResources)))
     = round_up_1dp (disk_throughput (safeWorkload workload)
                       (safeResources userResources))) /\
  (let disk (n : Q) :=
     value (RR.diskIO (requirements
       (calculateResourceRequirements (num := Float64.sample)
          (Some TEST_WORKLOAD)
          (Some (with_carbonInstances BASE_RESOURCES
                   (Some (Float64.of_Q n))))))) in
   disk 1%Q = Float64.of_Q 2433.3 /\ disk 4%Q = Float64.of_Q 617.5 /\
   Float64.fltb (Float64.fdiv (disk 4%Q) (disk 1%Q)) (Float64.of_Q 0.5)
   = true) /\
  (let disk (n : Q) :=
     value (RR.diskIO (requirements
       (calculateResourceRequirements (num := Float64.sample)
          (Some TEST_WORKLOAD)
          (Some (with_carbonInstances BASE_RESOURCES
                   (Some (Float64.of_Q n))))))) in
   map disk [1; 2; 3; 4; 5; 6; 7; 8]%Q
   = map Float64.of_Q
       [2433.3; 1222.8; 819.3; 617.5; 496.4; 415.7; 358.1; 314.9]%Q) /\
  (let disk (n : Q) :=
     value (RR.diskIO (requirements
       (calculateResourceRequirements (num := Float64.sample)
          (Some (workload_of 1e13 1 1 1 10 30))
          (Some (with_carbonInstances BASE_RESOURCES
                   (Some (Float64.of_Q n))))))) in
   Float64.toString (disk 3e19%Q) = "374348958894856770"%string /\
   Float64.toString (disk 4e19%Q) = "374348958894856800"%string /\
   Float64.fltb (disk 3e19%Q) (disk 4e19%Q) = true).
Proof.
  split; [intros; apply more_writers_less_disk; assumption|].
  split; [intros; apply more_writers_less_throughput; assumption|].
  split; [intros; reflexivity|].
  split; [apply reference_disk_ratio|].
  split; [apply reference_disk_sweep|apply disk_value_can_rise].
Qed.

(** The first two parts between one writer and four, 500 requests of 50
    metrics per second. *)
Lemma disk_scaling_witness :
  ((1 <= 4)%R /\
   (value (RR.diskIO (requirements
      (calculateResourceRequirements (num := Ideal.instance)
         (Some (workload_of 500 50 0.2 3 10 30))
         (Some (with_carbonInstances BASE_RESOURCES (Some 4%R)))))) <=
    value (RR.diskIO (requirements
      (calculateResourceRequirements (num := Ideal.instance)
         (Some (workload_of 500 50 0.2 3 10 30))
         (Some (with_carbonInstances BASE_RESOURCES (Some 1%R)))))))%R) /\
  ((0 < uniqueMetricsPerSecond (num := Ideal.instance)
          (safeWorkload (Some (workload_of 500 50 0.2 3 10 30))))%R /\
   (1 <= 1 < 4)%R /\
   (disk_throughput (num := Ideal.instance)
      (safeWorkload (Some (workload_of 500 50 0.2 3 10 30)))
      (safeResources (Some (with_carbonInstances BASE_RESOURCES (Some 4%R)))) <
    disk_throughput (num := Ideal.instance)
      (safeWorkload (Some (workload_of 500 50 0.2 3 10 30)))
      (safeResources (Some (with_carbonInstances BASE_RESOURCES (Some 1%R)))))%R).
Proof.
  assert (H : (1 <= 4)%R) by lra.
  assert (H' : (1 <= 1 < 4)%R) by lra.
  split.
  - split; [exact H|].
    apply (proj1 disk_scaling (Some (workload_of 500 50 0.2 3 10 30))
             BASE_RESOURCES 1%R 4%R H).
  - split; [exact reference_writes|]. split; [exact H'|].
    apply (proj1 (proj2 disk_scaling) (Some (workload_of 500 50 0.2 3 10 30))
             BASE_RESOURCES 1%R 4%R reference_writes H').
Defined.

(** ** Storage and the retention period *)

Section Retention.

(** The storage resource reports the daily growth, which does not read the
    retention period; the total is the daily growth times the retention. *)
Lemma storage_value_ignores_retention {N} {num : JS.Number N}
    (w : Raw.WorkloadParams N) (x : option N)
    (userResources : option (Raw.UserResources N)) :
  let before := calculateResourceRequirements (Some w) userResources in
  let after :=
    calculateResourceRequirements (Some (with_retentionPeriodDays w x))
      userResources in
  value (RR.storage (requirements after))
    = value (RR.storage (requirements before)) /\
  FM.storagePerDay (flowMetrics after) = FM.storagePerDay (flowMetrics before) /\
  FM.totalStorageRequired (flowMetrics after)
    = JS.mul (FM.storagePerDay (flowMetrics after))
        (retentionPeriodDays
           (safeWorkload (Some (with_retentionPeriodDays w x)))).
Proof.
  repeat split.
Qed.

Import Ideal IdealFacts.
Local Open Scope R_scope.

Lemma retention_of_raw (w : Raw.WorkloadParams R) (d : R) :
  1 <= d ->
  retentionPeriodDays (safeWorkload (Some (with_retentionPeriodDays w (Some d))))
  = d.
Proof.
  intros Hd.
  cbn [safeWorkload retentionPeriodDays with_retentionPeriodDays JS.opt_field
       Raw.retentionPeriodDays].
  ideal_ops. literals. apply clamp_id; lra.
Qed.

(** Twice the retention, twice the total. *)
Lemma double_retention_double_storage (w : Raw.WorkloadParams R) (d : R)
    (userResources : option (Raw.UserResources R)) :
  1 <= d ->
  let total (days : R) :=
    FM.totalStorageRequired
      (flowMetrics
         (calculateResourceRequirements
            (Some (with_retentionPeriodDays w (Some days))) userResources)) in
  total (2 * d) = 2 * total d /\
  Rabs (total (2 * d) - 2 * total d) <= 1 / 10 * (2 * total d).
Proof.
  intros Hd total.
  assert (E : forall days, 1 <= days ->
            total days
            = dailyStorageGB (safeWorkload (Some w)) * days).
  { intros days Hdays. unfold total.
    cbn [calculateResourceRequirements flowMetrics flowMetrics_
         FM.totalStorageRequired].
    rewrite retention_of_raw by exact Hdays. reflexivity. }
  assert (Hs : 0 <= dailyStorageGB (safeWorkload (Some w)))
    by (apply IdealEstimator.daily_nonneg, safeWorkload_valid).
  rewrite (E (2 * d)) by lra. rewrite (E d) by lra.
  split; [ring|].
  replace (dailyStorageGB (safeWorkload (Some w)) * (2 * d)
           - 2 * (dailyStorageGB (safeWorkload (Some w)) * d)) with 0 by ring.
  rewrite Rabs_R0. nra.
Qed.

End Retention.

Section RetentionOnDoubles.

Import Float64.
Variable log10 : float64 -> float64.
Let num : JS.Number float64 := Float64.instance log10.
Existing Instance num.

Lemma retention_of_double (w : Raw.WorkloadParams float64) (d : float64) :
  fleb (of_Z 1) d = true -> is_finite d = true ->
  retentionPeriodDays (safeWorkload (Some (with_retentionPeriodDays w (Some d))))
  = d.
Proof.
  intros H1 Hf.
  assert (Ht : ftruthy d = true).
  { destruct d; try reflexivity; try discriminate; vm_compute in H1; discriminate. }
  cbn [safeWorkload retentionPeriodDays with_retentionPeriodDays JS.opt_field
       Raw.retentionPeriodDays JS.or_default].
  cbn [JS.truthy JS.Math_max JS.lit num Float64.instance]. rewrite Ht.
  apply Doubling.fmax_right; [exact H1|reflexivity|exact Ht].
Qed.

Lemma double_retention_on_doubles (w : Raw.WorkloadParams float64)
    (d : float64) (userResources : option (Raw.UserResources float64)) :
  normal d = true -> fleb (of_Z 1) d = true -> is_finite (twice d) = true ->
  normal (FM.storagePerDay
            (flowMetrics
               (calculateResourceRequirements
                  (Some (with_retentionPeriodDays w (Some d))) userResources)))
  = true ->
  FM.totalStorageRequired
    (flowMetrics
       (calculateResourceRequirements
          (Some (with_retentionPeriodDays w (Some (twice d)))) userResources))
  = twice
      (FM.totalStorageRequired
         (flowMetrics
            (calculateResourceRequirements
               (Some (with_retentionPeriodDays w (Some d))) userResources))).
Proof.
  intros Hn H1 Hf Hdaily.
  assert (Hd : is_finite d = true).
  { destruct d; try reflexivity; discriminate. }
  cbn [calculateResourceRequirements flowMetrics flowMetrics_
       FM.totalStorageRequired FM.storagePerDay] in *.
  rewrite (retention_of_double w d H1 Hd).
  rewrite (retention_of_double w (twice d) (Doubling.twice_above_one d H1) Hf).
  change (dailyStorageGB (safeWorkload (Some (with_retentionPeriodDays w (Some (twice d))))))
    with (dailyStorageGB (safeWorkload (Some (with_retentionPeriodDays w (Some d))))).
  apply Doubling.fmul_twice; assumption.
Qed.

Lemma double_retention_ratio (w : Raw.WorkloadParams float64)
    (d : float64) (userResources : option (Raw.UserResources float64)) :
  normal d = true -> fleb (of_Z 1) d = true -> is_finite (twice d) = true ->
  normal (FM.storagePerDay
            (flowMetrics
               (calculateResourceRequirements
                  (Some (with_retentionPeriodDays w (Some d))) userResources)))
  = true ->
  let total (days : float64) :=
    FM.totalStorageRequired
      (flowMetrics
         (calculateResourceRequirements
            (Some (with_retentionPeriodDays w (Some days))) userResources)) in
  total (twice d) = twice (total d) /\
  (is_finite (total (twice d)) = true -> ftruthy (total d) = true ->
   fdiv (total (twice d)) (total d) = of_Z 2).
Proof.
  intros Hn H1 Hf Hdaily total.
  assert (E : total (twice d) = twice (total d))
    by (apply double_retention_on_doubles; assumption).
  split; [exact E|]. rewrite E. apply Doubling.fdiv_twice.
Qed.

End RetentionOnDoubles.

(** The reference configuration at 30 and 60 days. *)
Lemma reference_retention_doubling :
  let e (days : Q) :=
    calculateResourceRequirements (num := Float64.sample)
      (Some (with_retentionPeriodDays TEST_WORKLOAD
               (Some (Float64.of_Q days))))
      (Some BASE_RESOURCES) in
  Float64.fdiv (FM.totalStorageRequired (flowMetrics (e 60%Q)))
    (FM.totalStorageRequired (flowMetrics (e 30%Q))) = Float64.of_Z 2 /\
  value (RR.storage (requirements (e 30%Q))) = Float64.of_Q 4.9 /\
  value (RR.storage (requirements (e 60%Q))) = Float64.of_Q 4.9.
Proof.
  repeat split; vm_compute; reflexivity.
Qed.

(** At 3e307 days the reference configuration needs 1.448e308 GB; at twice
    that retention the total overflows. *)
Lemma retention_overflow :
  let total (days : Q) :=
    FM.totalStorageRequired
      (flowMetrics
         (calculateResourceRequirements (num := Float64.sample)
            (Some (with_retentionPeriodDays TEST_WORKLOAD
                     (Some (Float64.of_Q days))))
            (Some BASE_RESOURCES))) in
  Float64.of_Q 6e307 = Float64.fmul (Float64.of_Z 2) (Float64.of_Q 3e307) /\
  Float64.toString (total 3e307%Q) = "1.4483928680419922e+308"%string /\
  total 6e307%Q = Float64.pinf /\
  Float64.fdiv (total 6e307%Q) (total 3e307%Q) = Float64.pinf /\
  Float64.fleb (Float64.fdiv (total 6e307%Q) (total 3e307%Q))
    (Float64.of_Q 2.2) = false.
Proof.
  cbv zeta.
  cbn [calculateResourceRequirements flowMetrics flowMetrics_
       FM.totalStorageRequired].
  repeat split; vm_compute; reflexivity.
Qed.

(** C8.  On every carrier, changing retentionPeriodDays leaves the storage
    value and the daily growth unchanged, and the total is the daily growth
    times the normalized retention.  In exact arithmetic, for every input
    with a retention of at least one day, doubling the retention doubles
    totalStorageRequired (exactly, hence within 10 percent).  On binary64,
    for every engine and every input whose retention d is a normal double of
    at least one day with a finite double 2d, and whose daily growth is not
    subnormal, the total at 2d is the total at d one binade up, or Infinity
    when that leaves the range; the ratio of the two totals is then exactly
    2 when the total at 2d is finite and the total at d is not zero.  One
    binade up is the product by 2 of a normal double.  On binary64 the
    reference configuration at 60 days needs exactly twice the storage of 30
    days, and reports 4.9 GB/day in both. *)
Theorem retention_doubling :
  (forall (N : Type) (num : JS.Number N)
          (w : Raw.WorkloadParams N) (x : option N)
          (userResources : option (Raw.UserResources N)),
     let before := calculateResourceRequirements (Some w) userResources in
     let after :=
       calculateResourceRequirements (Some (with_retentionPeriodDays w x))
         userResources in
     value (RR.storage (requirements after))
       = value (RR.storage (requirements before)) /\
     FM.storagePerDay (flowMetrics after)
       = FM.storagePerDay (flowMetrics before) /\
     FM.totalStorageRequired (flowMetrics after)
       = JS.mul (FM.storagePerDay (flowMetrics after))
           (retentionPeriodDays
              (safeWorkload (Some (with_retentionPeriodDays w x))))) /\
  (forall (w : Raw.WorkloadParams R) (d : R)
          (userResources : option (Raw.UserResources R)),
     (1 <= d)%R ->
     let total (days : R) :=
       FM.totalStorageRequired
         (flowMetrics
            (calculateResourceRequirements
               (Some (with_retentionPeriodDays w (Some days)))
               userResources)) in
     (total (2 * d) = 2 * total d)%R /\
     (Rabs (total (2 * d) - 2 * total d) <= 1 / 10 * (2 * total d))%R) /\
  (forall (log10 : Float64.float64 -> Float64.float64)
          (w : Raw.WorkloadParams Float64.float64) (d : Float64.float64)
          (userResources : option (Raw.UserResources Float64.float64)),
     normal d = true ->
     Float64.fleb (Float64.of_Z 1) d = true ->
     Float64.is_finite (twice d) = true ->
     normal
       (FM.storagePerDay
          (flowMetrics
             (calculateResourceRequirements (num := Float64.instance log10)
                (Some (with_retentionPeriodDays w (Some d))) userResources)))
     = true ->
     let total (days : Float64.float64) :=
       FM.totalStorageRequired
         (flowMetrics
            (calculateResourceRequirements (num := Float64.instance log10)
               (Some (with_retentionPeriodDays w (Some days)))
               userResources)) in
     total (twice d) = twice (total d) /\
     (Float64.is_finite (total (twice d)) = true ->
      Float64.ftruthy (total d) = true ->
      Float64.fdiv (total (twice d)) (total d) = Float64.of_Z 2)) /\
  (forall x : Float64.float64,
     normal x = true ->
     valid_binary Float64.prec Float64.emax x = true ->
     Float64.fmul (Float64.of_Z 2) x = twice x) /\
  (let e (days : Q) :=
     calculateResourceRequirements (num := Float64.sample)
       (Some (with_retentionPeriodDays TEST_WORKLOAD
                (Some (Float64.of_Q days))))
       (Some BASE_RESOURCES) in
   Float64.fdiv (FM.totalStorageRequired (flowMetrics (e 60%Q)))
     (FM.totalStorageRequired (flowMetrics (e 30%Q))) = Float64.of_Z 2 /\
   value (RR.storage (requirements (e 30%Q))) = Float64.of_Q 4.9 /\
   value (RR.storage (requirements (e 60%Q))) = Float64.of_Q 4.9).
Proof.
  split; [intros; apply storage_value_ignores_retention|].
  split; [intros; apply double_retention_double_storage; assumption|].
  split; [intros; apply double_retention_ratio; assumption|].
  split; [intros; apply Doubling.twice_is_double; assumption|].
  apply reference_retention_doubling.
Qed.

(** The second part at thirty days, and the third part at thirty days in
    the reference configuration. *)
Lemma retention_doubling_witness :
  ((1 <= 30)%R /\
   (FM.totalStorageRequired
      (flowMetrics
         (calculateResourceRequirements (num := Ideal.instance)
            (Some (with_retentionPeriodDays TEST_WORKLOAD (Some (2 * 30)%R)))
            (Some BASE_RESOURCES)))
    = 2 * FM.totalStorageRequired
        (flowMetrics
           (calculateResourceRequirements (num := Ideal.instance)
              (Some (with_retentionPeriodDays TEST_WORKLOAD (Some 30%R)))
              (Some BASE_RESOURCES))))%R) /\
  (normal (Float64.of_Q 30) = true /\
   Float64.fleb (Float64.of_Z 1) (Float64.of_Q 30) = true /\
   Float64.is_finite (twice (Float64.of_Q 30)) = true /\
   twice (Float64.of_Q 30) = Float64.of_Q 60 /\
   normal
     (FM.storagePerDay
        (flowMetrics
           (calculateResourceRequirements
              (num := Float64.instance Float64.log10_sample)
              (Some (with_retentionPeriodDays TEST_WORKLOAD
                       (Some (Float64.of_Q 30))))
              (Some BASE_RESOURCES)))) = true /\
   FM.totalStorageRequired
     (flowMetrics
        (calculateResourceRequirements
           (num := Float64.instance Float64.log10_sample)
           (Some (with_retentionPeriodDays TEST_WORKLOAD
                    (Some (twice (Float64.of_Q 30)))))
           (Some BASE_RESOURCES)))
   = twice
       (FM.totalStorageRequired
          (flowMetrics
             (calculateResourceRequirements
                (num := Float64.instance Float64.log10_sample)
                (Some (with_retentionPeriodDays TEST_WORKLOAD
                         (Some (Float64.of_Q 30))))
                (Some BASE_RESOURCES))))).
Proof.
  assert (H : (1 <= 30)%R) by lra.
  split.
  - split; [exact H|].
    apply (proj1 (proj2 retention_doubling) TEST_WORKLOAD 30%R
             (Some BASE_RESOURCES) H).
  - assert (H1 : normal (Float64.of_Q 30) = true) by reflexivity.
    assert (H2 : Float64.fleb (Float64.of_Z 1) (Float64.of_Q 30) = true)
      by reflexivity.
    assert (H3 : Float64.is_finite (twice (Float64.of_Q 30)) = true)
      by reflexivity.
    assert (H4 : normal
              (FM.storagePerDay
                 (flowMetrics
                    (calculateResourceRequirements
                       (num := Float64.instance Float64.log10_sample)
                       (Some (with_retentionPeriodDays TEST_WORKLOAD
                                (Some (Float64.of_Q 30))))
                       (Some BASE_RESOURCES)))) = true)
      by (cbn [calculateResourceRequirements flowMetrics flowMetrics_
               FM.storagePerDay]; vm_compute; reflexivity).
    split; [exact H1|]. split; [exact H2|]. split; [exact H3|].
    split; [reflexivity|]. split; [exact H4|].
    apply (proj1 (proj1 (proj2 (proj2 retention_doubling))
                    Float64.log10_sample TEST_WORKLOAD (Float64.of_Q 30)
                    (Some BASE_RESOURCES) H1 H2 H3 H4)).
Defined.

(** ** The instance-scaling explorer *)

Section Explorer.

(** What the analysis reports, on every carrier: the counts and the best
    efficiencies come from the scan of the CPU ratios of the collector sweep
    and of the disk ratios of the processor sweep; the gains are rounded to
    one decimal. *)
Lemma analysis_reads_the_scans {N} {num : JS.Number N}
    (workload : option (Raw.WorkloadParams N))
    (currentResources : option (Raw.UserResources N)) :
  let v := validateInstanceScaling workload currentResources in
  let collector :=
    scan_best sweep (map (collector_cpuEfficiency workload currentResources) sweep) in
  let processor :=
    scan_best sweep (map (processor_diskIoRatio workload currentResources) sweep) in
  CS.instances (collectorScaling v) = sweep /\
  PS.instances (processorScaling v) = sweep /\
  CS.cpuEfficiency (collectorScaling v)
    = map (collector_cpuEfficiency workload currentResources) sweep /\
  PS.diskIoEfficiency (processorScaling v)
    = map (processor_diskIoRatio workload currentResources) sweep /\
  collectorIdealCount (analysis v) = snd collector /\
  processorIdealCount (analysis v) = snd processor /\
  collectorEfficiencyGain (analysis v)
    = JS.div (JS.Math_round
                (JS.mul (JS.mul (JS.sub (JS.lit 1) (fst collector)) (JS.lit 100))
                   (JS.lit 10)))
        (JS.lit 10) /\
  processorEfficiencyGain (analysis v)
    = JS.div (JS.Math_round
                (JS.mul (JS.mul (JS.sub (JS.lit 1) (fst processor)) (JS.lit 100))
                   (JS.lit 10)))
        (JS.lit 10).
Proof.
  intros v collector processor. unfold v, validateInstanceScaling.
  cbn [CS.instances CS.cpuEfficiency PS.instances PS.diskIoEfficiency
       collectorSweep processorSweep].
  fold collector. fold processor.
  destruct collector as [b1 i1]. destruct processor as [b2 i2].
  repeat split.
Qed.

Import Float64 Float64Facts.

Variable log10 : float64 -> float64.
Let num : JS.Number float64 := Float64.instance log10.
Existing Instance num.

Lemma scan_fold_outcome (entries : list (float64 * float64)) :
  forall b0 i0 : float64,
    scan_outcome entries b0 i0 (fold_left scan_step entries (b0, i0)).
Proof.
  induction entries as [|[c e] rest IH]; intros b0 i0.
  - cbn. split; [intros ? ? []|]. left. split; reflexivity.
  - cbn [fold_left]. unfold scan_step at 2.
    change (JS.ltb e b0) with (fltb e b0).
    destruct (fltb e b0) eqn:Heb.
    + destruct (IH e c) as [Hmin Hcase].
      set (res := fold_left scan_step rest (e, c)) in *.
      destruct Hcase as [[Hb Hi] | (Hlt & l1 & l2 & Hsplit & Hfirst)].
      * split.
        -- intros c' e' [E|Hin]; [|exact (Hmin c' e' Hin)].
           injection E as <- <-. rewrite Hb. apply fltb_irrefl.
        -- right. rewrite Hb, Hi. split; [exact Heb|].
           exists nil, rest. split; [reflexivity|]. intros ? ? [].
      * split.
        -- intros c' e' [E|Hin]; [|exact (Hmin c' e' Hin)].
           injection E as <- <-. apply fltb_asym. exact Hlt.
        -- right. split; [exact (fltb_trans _ _ _ Hlt Heb)|].
           exists ((c, e) :: l1), l2. split; [rewrite Hsplit; reflexivity|].
           intros c' e' [E|Hin]; [|exact (Hfirst c' e' Hin)].
           injection E as <- <-. apply fltb_not_fleb. exact Hlt.
    + destruct (IH b0 i0) as [Hmin Hcase].
      set (res := fold_left scan_step rest (b0, i0)) in *.
      destruct Hcase as [[Hb Hi] | (Hlt & l1 & l2 & Hsplit & Hfirst)].
      * split.
        -- intros c' e' [E|Hin]; [|exact (Hmin c' e' Hin)].
           injection E as <- <-. rewrite Hb. exact Heb.
        -- left. split; assumption.
      * split.
        -- intros c' e' [E|Hin]; [|exact (Hmin c' e' Hin)].
           injection E as <- <-.
           destruct (fltb e (fst res)) eqn:H; [|reflexivity].
           rewrite (fltb_trans _ _ _ H Hlt) in Heb. discriminate.
        -- right. split; [exact Hlt|].
           exists ((c, e) :: l1), l2. split; [rewrite Hsplit; reflexivity|].
           intros c' e' [E|Hin]; [|exact (Hfirst c' e' Hin)].
           injection E as <- <-.
           destruct (fleb e (fst res)) eqn:H; [|reflexivity].
           rewrite (fleb_fltb_trans _ _ _ H Hlt) in Heb. discriminate.
Qed.

(** On binary64 the scan returns the first count whose efficiency is the
    lowest, when some efficiency is below 1, and the count 1 with the
    efficiency 1 otherwise. *)
Lemma scan_best_outcome (instances efficiency : list float64) :
  scan_outcome (combine instances efficiency) (of_Q 1) (of_Q 1)
    (scan_best instances efficiency).
Proof.
  apply scan_fold_outcome.
Qed.

End Explorer.

(** The baseline inputs of the test suite through the explorer. *)
Lemma explorer_baseline_values :
  let v := validateInstanceScaling (num := Float64.sample)
             (Some baseline_workload) (Some baseline_resources) in
  (collectorIdealCount (analysis v) = Float64.of_Z 3 /\
   collectorEfficiencyGain (analysis v) = Float64.of_Q 33.3 /\
   processorIdealCount (analysis v) = Float64.of_Z 8 /\
   processorEfficiencyGain (analysis v) = Float64.of_Q 87.1) /\
  (CS.networkOverhead (collectorScaling v)
     = map (fun _ => Float64.of_Z 1) (sweep (num := Float64.sample)) /\
   map Float64.toString (CS.cpuEfficiency (collectorScaling v))
     = ["1"; "0.75"; "0.6666666666666667"; "0.6666666666666667";
        "0.6666666666666667"; "0.6666666666666667"; "0.6666666666666667";
        "0.6666666666666667"]%string /\
   nth 7 (PS.diskIoEfficiency (processorScaling v)) Float64.nan
     = Float64.of_Q 0.12941176470588234).
Proof.
  vm_compute. repeat split.
Qed.

(** The collector's ideal count follows the CPU ratio, not the network
    ratio, and the reported gains are rounded: on the baseline inputs the
    network ratio is 1 at every count (a gain of 0 by the formula) while the
    explorer reports 3 collectors and a gain of 33.3; for the writers the
    best disk ratio gives (1 - ratio) x 100 = 87.05882352941177 and the
    explorer reports 87.1. *)
Lemma collector_count_follows_cpu :
  let v := validateInstanceScaling (num := Float64.sample)
             (Some baseline_workload) (Some baseline_resources) in
  CS.networkOverhead (collectorScaling v)
    = map (fun _ => Float64.of_Z 1) (sweep (num := Float64.sample)) /\
  Float64.fmul (Float64.fsub (Float64.of_Z 1) (Float64.of_Z 1))
    (Float64.of_Z 100) = Float64.pzero /\
  collectorIdealCount (analysis v) = Float64.of_Z 3 /\
  collectorEfficiencyGain (analysis v) = Float64.of_Q 33.3 /\
  nth 7 (PS.diskIoEfficiency (processorScaling v)) Float64.nan
    = Float64.of_Q 0.12941176470588234 /\
  Float64.fmul
    (Float64.fsub (Float64.of_Z 1) (Float64.of_Q 0.12941176470588234))
    (Float64.of_Z 100) = Float64.of_Q 87.05882352941177 /\
  processorEfficiencyGain (analysis v) = Float64.of_Q 87.1.
Proof.
  intros v.
  destruct explorer_baseline_values as [(H1 & H2 & H3 & H4) (H5 & H6 & H7)].
  split; [exact H5|]. split; [vm_compute; reflexivity|].
  split; [exact H1|]. split; [exact H2|]. split; [exact H7|].
  split; [vm_compute; reflexivity|exact H4].
Qed.

(** C5.  On every carrier the analysis reports, for the collector tier, the
    count and the best ratio found by scanning the CPU-per-10k-metrics
    ratios of the counts 1..8, and for the writer tier those found by
    scanning the disk-I/O ratios; each reported gain is
    round((1 - bestRatio) x 100 x 10) / 10.  On binary64 the scan returns the
    first count whose ratio is the lowest when some ratio is below 1, and
    the count 1 with the ratio 1 otherwise.  On the baseline inputs the
    counts are 3 and 8 and the gains 33.3 and 87.1. *)
Theorem ideal_counts :
  (forall (N : Type) (num : JS.Number N)
          (workload : option (Raw.WorkloadParams N))
          (currentResources : option (Raw.UserResources N)),
     let v := validateInstanceScaling workload currentResources in
     let collector :=
       scan_best sweep
         (map (collector_cpuEfficiency workload currentResources) sweep) in
     let processor :=
       scan_best sweep
         (map (processor_diskIoRatio workload currentResources) sweep) in
     CS.instances (collectorScaling v) = sweep /\
     PS.instances (processorScaling v) = sweep /\
     CS.cpuEfficiency (collectorScaling v)
       = map (collector_cpuEfficiency workload currentResources) sweep /\
     PS.diskIoEfficiency (processorScaling v)
       = map (processor_diskIoRatio workload currentResources) sweep /\
     collectorIdealCount (analysis v) = snd collector /\
     processorIdealCount (analysis v) = snd processor /\
     collectorEfficiencyGain (analysis v)
       = JS.div (JS.Math_round
                   (JS.mul (JS.mul (JS.sub (JS.lit 1) (fst collector))
                              (JS.lit 100)) (JS.lit 10)))
           (JS.lit 10) /\
     processorEfficiencyGain (analysis v)
       = JS.div (JS.Math_round
                   (JS.mul (JS.mul (JS.sub (JS.lit 1) (fst processor))
                              (JS.lit 100)) (JS.lit 10)))
           (JS.lit 10)) /\
  (forall (log10 : Float64.float64 -> Float64.float64)
          (instances efficiency : list Float64.float64),
     scan_outcome (combine instances efficiency)
       (Float64.of_Q 1) (Float64.of_Q 1)
       (scan_best (num := Float64.instance log10) instances efficiency)) /\
  (let v := validateInstanceScaling (num := Float64.sample)
              (Some baseline_workload) (Some baseline_resources) in
   collectorIdealCount (analysis v) = Float64.of_Z 3 /\
   collectorEfficiencyGain (analysis v) = Float64.of_Q 33.3 /\
   processorIdealCount (analysis v) = Float64.of_Z 8 /\
   processorEfficiencyGain (analysis v) = Float64.of_Q 87.1).
Proof.
  split; [intros; apply analysis_reads_the_scans|].
  split; [intros; apply scan_best_outcome|].
  apply explorer_baseline_values.
Qed.

(** ** [formatNumber] *)

Section FormatNumber.

Import Float64 Format.
Local Open Scope string_scope.

(** C9.  [formatNumber] on the examples of the specification and of the
    test suite, and on numbers with four or more fractional digits: the
    pattern also matches inside the fraction, where a comma is put. *)
Theorem formatNumber_examples :
  formatNumber (of_Q 1234.56) = "1,234.56" /\
  formatNumber (of_Q 1000000) = "1,000,000" /\
  formatNumber (of_Q 0) = "0" /\
  formatNumber (of_Q 1000) = "1,000" /\
  formatNumber (of_Q 999) = "999" /\
  toString (of_Q 1234.5678) = "1234.5678" /\
  formatNumber (of_Q 1234.5678) = "1,234.5,678" /\
  formatNumber (of_Q 0.1234) = "0.1,234".
Proof.
  repeat split; vm_compute; reflexivity.
Qed.

End FormatNumber.

(** ** The separators of [formatNumber] *)

Module FormatFacts.

Import Format FormatSpec.
Local Open Scope string_scope.

Lemma append_assoc (a b c : string) : (a ++ b) ++ c = a ++ (b ++ c).
Proof. induction a as [|x a IH]; cbn; [reflexivity | rewrite IH; reflexivity]. Qed.

Lemma append_empty (a : string) : a ++ "" = a.
Proof. induction a as [|x a IH]; cbn; [reflexivity | rewrite IH; reflexivity]. Qed.

Lemma strip_commas_append (a b : string) :
  strip_commas (a ++ b) = strip_commas a ++ strip_commas b.
Proof.
  induction a as [|x a IH]; cbn; [reflexivity|].
  destruct (Ascii.eqb x ","); cbn; rewrite IH; reflexivity.
Qed.

Lemma strip_commas_replace (prev : option ascii) (s : string) :
  strip_commas (replace_from prev s) = strip_commas s.
Proof.
  revert prev. induction s as [|c s IH]; intros prev.
  - cbn. destruct (non_boundary prev "" && false); reflexivity.
  - cbn [replace_from].
    rewrite strip_commas_append.
    replace (strip_commas (if non_boundary prev (String c s) && groups_of_three (String c s)
                           then "," else "")) with "".
    2:{ destruct (non_boundary prev (String c s) && groups_of_three (String c s)); reflexivity. }
    cbn. rewrite IH. reflexivity.
Qed.

Lemma groups_of_three_start (c : ascii) (s : string) :
  is_digit c = false -> groups_of_three (String c s) = false.
Proof.
  intros H. destruct s as [|a [|b r]]; cbn [groups_of_three]; try reflexivity.
  rewrite H. reflexivity.
Qed.

Lemma is_digit_word (c : ascii) : is_digit c = true -> is_word c = true.
Proof. unfold is_word. intros ->. reflexivity. Qed.

(** On digits followed by something that is not a digit, the lookahead
    counts the digits. *)
Lemma groups_of_three_digits (n : nat) :
  forall s t, String.length s = n -> all_digits s = true ->
    starts_with_digit t = false ->
    groups_of_three (s ++ t) =
    negb (String.length s =? 0)%nat && (String.length s mod 3 =? 0)%nat.
Proof.
  induction n as [n IH] using lt_wf_ind. intros s t Hn Hs Ht.
  destruct s as [|a [|b [|c rest]]].
  - cbn. destruct t as [|x [|y [|z r]]]; try reflexivity.
    cbn in Ht. cbn. rewrite Ht. reflexivity.
  - cbn. destruct t as [|x [|y r]]; try reflexivity.
    cbn in Ht. rewrite Ht, !andb_false_r. reflexivity.
  - cbn. destruct t as [|x r]; try reflexivity.
    cbn in Ht. rewrite Ht, !andb_false_r. reflexivity.
  - cbn in Hs. apply andb_prop in Hs as [Ha Hs]. apply andb_prop in Hs as [Hb Hs].
    apply andb_prop in Hs as [Hc Hs].
    change (groups_of_three (String a (String b (String c rest)) ++ t))
      with (is_digit a && is_digit b && is_digit c &&
            (negb (starts_with_digit (rest ++ t)) || groups_of_three (rest ++ t))).
    rewrite Ha, Hb, Hc. cbn [andb].
    cbn [String.length] in Hn |- *.
    rewrite (IH (String.length rest)) by (try lia; try assumption; reflexivity).
    replace (S (S (S (String.length rest)))) with (String.length rest + 1 * 3)%nat by lia.
    rewrite Nat.Div0.mod_add.
    destruct rest as [|d rest'].
    + cbn [append]. rewrite Ht. reflexivity.
    + cbn in Hs. apply andb_prop in Hs as [Hd _].
      cbn [append starts_with_digit]. rewrite Hd. cbn [negb orb String.length Nat.eqb].
      replace (S (String.length rest') + 1 * 3 =? 0)%nat with false by (symmetry; apply Nat.eqb_neq; lia).
      reflexivity.
Qed.

Lemma replace_digits (t r : string) :
  starts_with_digit t = false ->
  (forall d, is_digit d = true -> replace_from (Some d) t = r) ->
  forall s d, all_digits s = true -> is_digit d = true ->
    replace_from (Some d) (s ++ t) = thousands false s ++ r.
Proof.
  intros Ht Hr. induction s as [|c s IH]; intros d Hs Hd.
  - cbn [append thousands]. apply Hr. exact Hd.
  - pose proof Hs as Hs'. cbn in Hs'. apply andb_prop in Hs' as [Hc Hs'].
    change (String c s ++ t) with (String c (s ++ t)).
    cbn [replace_from thousands].
    change (String c (s ++ t)) with (String c s ++ t).
    rewrite (groups_of_three_digits _ (String c s) t eq_refl Hs Ht).
    unfold non_boundary. cbn [append].
    rewrite (is_digit_word d Hd), (is_digit_word c Hc).
    cbn [Bool.eqb andb negb String.length Nat.eqb].
    rewrite (IH c Hs' Hc), append_assoc. reflexivity.
Qed.

Lemma replace_after_digit_end (d : ascii) :
  is_digit d = true -> replace_from (Some d) "" = "".
Proof.
  intros Hd. cbn. unfold non_boundary. rewrite (is_digit_word d Hd). reflexivity.
Qed.

(** A run of digits that starts the text or follows a character that is
    not a word character. *)
Lemma replace_leading_digits (prev : option ascii) (t r s : string) :
  match prev with Some c => is_word c = false | None => True end ->
  starts_with_digit t = false ->
  (forall d, is_digit d = true -> replace_from (Some d) t = r) ->
  all_digits s = true -> s <> "" ->
  replace_from prev (s ++ t) = thousands true s ++ r.
Proof.
  intros Hp Ht Hr Hs Hne. destruct s as [|c s]; [congruence|].
  pose proof Hs as Hs'. cbn in Hs'. apply andb_prop in Hs' as [Hc Hs'].
  change (String c s ++ t) with (String c (s ++ t)).
  cbn [replace_from thousands negb andb].
  replace (non_boundary prev (String c (s ++ t))) with false.
  2:{ unfold non_boundary. rewrite (is_digit_word c Hc).
      destruct prev as [p|]; [rewrite Hp|]; reflexivity. }
  cbn [andb append].
  rewrite (replace_digits t r Ht Hr s c Hs' Hc). reflexivity.
Qed.

Lemma thousands_short (s : string) :
  (String.length s <= 3)%nat -> thousands true s = s.
Proof.
  destruct s as [|a [|b [|c [|d s]]]]; cbn; intros H; try reflexivity; lia.
Qed.

Lemma formatNumber_layout (int frac : string) :
  all_digits int = true -> all_digits frac = true ->
  replace_from None int = thousands true int /\
  replace_from None ("-" ++ int) = "-" ++ thousands true int /\
  replace_from None (int ++ "." ++ frac) =
    thousands true int ++ "." ++ thousands true frac /\
  replace_from None ("-" ++ int ++ "." ++ frac) =
    "-" ++ thousands true int ++ "." ++ thousands true frac /\
  ((String.length frac <= 3)%nat -> thousands true frac = frac).
Proof.
  intros Hi Hf.
  assert (Hend : forall d, is_digit d = true -> replace_from (Some d) "" = "")
    by exact replace_after_digit_end.
  assert (Hfrac : forall p, is_word p = false ->
                    replace_from (Some p) frac = thousands true frac).
  { intros p Hp. destruct frac as [|c f].
    - cbn. unfold non_boundary. rewrite Hp. reflexivity.
    - rewrite <- (append_empty (String c f)) at 1.
      rewrite (replace_leading_digits (Some p) "" "" (String c f) Hp eq_refl Hend Hf)
        by discriminate.
      apply append_empty. }
  assert (Hdot : forall d, is_digit d = true ->
                   replace_from (Some d) ("." ++ frac) = "." ++ thousands true frac).
  { intros d Hd. cbn [append replace_from].
    unfold non_boundary at 1. rewrite (is_digit_word d Hd).
    cbn [is_word is_digit nat_of_ascii]. 
    change (is_word ".") with false. cbn [Bool.eqb andb append].
    rewrite (Hfrac "."%char eq_refl). reflexivity. }
  repeat split.
  - destruct int as [|c i]; [reflexivity|].
    rewrite <- (append_empty (String c i)) at 1.
    rewrite (replace_leading_digits None "" "" (String c i) I eq_refl Hend Hi)
      by discriminate.
    apply append_empty.
  - cbn [append replace_from]. 
    replace (non_boundary None (String "-" int) && groups_of_three (String "-" int)) with false.
    2:{ destruct int as [|a [|b r]]; reflexivity. }
    cbn [append]. f_equal.
    destruct int as [|c i].
    + reflexivity.
    + rewrite <- (append_empty (String c i)) at 1.
      rewrite (replace_leading_digits (Some "-"%char) "" "" (String c i) eq_refl eq_refl Hend Hi)
        by discriminate.
      apply append_empty.
  - destruct int as [|c i].
    + cbn [append replace_from thousands].
      replace (non_boundary None (String "." frac) && groups_of_three (String "." frac)) with false.
      2:{ destruct frac as [|a [|b r]]; reflexivity. }
      cbn [append]. rewrite (Hfrac "."%char eq_refl). reflexivity.
    + rewrite (replace_leading_digits None ("." ++ frac) ("." ++ thousands true frac)
                 (String c i) I eq_refl Hdot Hi) by discriminate.
      reflexivity.
  - cbn [append replace_from].
    rewrite (groups_of_three_start "-" _ eq_refl), andb_false_r.
    cbn [append]. f_equal.
    destruct int as [|c i].
    + cbn [append replace_from thousands].
      rewrite (groups_of_three_start "." _ eq_refl), andb_false_r.
      cbn [append]. rewrite (Hfrac "."%char eq_refl). reflexivity.
    + change (String c i ++ String "." frac) with (String c i ++ ("." ++ frac)).
      rewrite (replace_leading_digits (Some "-"%char) ("." ++ frac)
                 ("." ++ thousands true frac) (String c i) eq_refl eq_refl Hdot Hi)
        by discriminate.
      reflexivity.
  - apply thousands_short.
Qed.

End FormatFacts.

Section FormatNumberLaws.

Import Float64 Format FormatSpec.
Local Open Scope string_scope.

(** X1.  [formatNumber] only inserts commas: with the commas removed, its
    result is the text of the number, [String(num)], with its commas
    removed; the same holds for the replacement started anywhere in a
    text. *)
Theorem formatNumber_only_inserts_commas :
  (forall (prev : option ascii) (s : string),
     strip_commas (replace_from prev s) = strip_commas s) /\
  (forall x : float64,
     strip_commas (formatNumber x) = strip_commas (toString x)).
Proof.
  split.
  - apply FormatFacts.strip_commas_replace.
  - intros x. apply FormatFacts.strip_commas_replace.
Qed.

(** X2.  Where the text of the number is a run of digits, with or without
    a minus sign and a fraction, [formatNumber] separates the integer part
    every three digits counted from its end, and separates the fraction
    the same way, counted from the end of the fraction: a fraction of up
    to three digits is left as it is, a longer one receives commas. *)
Theorem formatNumber_groups_digits (x : float64) (int frac : string) :
  all_digits int = true -> all_digits frac = true ->
  (toString x = int -> formatNumber x = thousands true int) /\
  (toString x = "-" ++ int -> formatNumber x = "-" ++ thousands true int) /\
  (toString x = int ++ "." ++ frac ->
   formatNumber x = thousands true int ++ "." ++ thousands true frac) /\
  (toString x = "-" ++ int ++ "." ++ frac ->
   formatNumber x = "-" ++ thousands true int ++ "." ++ thousands true frac) /\
  ((String.length frac <= 3)%nat -> thousands true frac = frac).
Proof.
  intros Hi Hf.
  destruct (FormatFacts.formatNumber_layout int frac Hi Hf)
    as (H1 & H2 & H3 & H4 & H5).
  unfold formatNumber.
  split; [intros ->; exact H1|]. split; [intros ->; exact H2|].
  split; [intros ->; exact H3|]. split; [intros ->; exact H4|exact H5].
Qed.

(** The third part at 1234567.5, and at 1234.5678 where the fraction is
    separated. *)
Lemma formatNumber_groups_digits_witness :
  (all_digits "1234567" = true /\ all_digits "5" = true /\
   toString (of_Q 1234567.5) = "1234567" ++ "." ++ "5" /\
   formatNumber (of_Q 1234567.5) = "1,234,567.5") /\
  (all_digits "1234" = true /\ all_digits "5678" = true /\
   toString (of_Q 1234.5678) = "1234" ++ "." ++ "5678" /\
   formatNumber (of_Q 1234.5678) = "1,234.5,678").
Proof.
  assert (T1 : toString (of_Q 1234567.5) = "1234567" ++ "." ++ "5")
    by (vm_compute; reflexivity).
  assert (T2 : toString (of_Q 1234.5678) = "1234" ++ "." ++ "5678")
    by (vm_compute; reflexivity).
  split.
  - split; [reflexivity|]. split; [reflexivity|]. split; [exact T1|].
    apply (proj1 (proj2 (proj2
             (formatNumber_groups_digits (of_Q 1234567.5) "1234567" "5"
                eq_refl eq_refl))) T1).
  - split; [reflexivity|]. split; [reflexivity|]. split; [exact T2|].
    apply (proj1 (proj2 (proj2
             (formatNumber_groups_digits (of_Q 1234.5678) "1234" "5678"
                eq_refl eq_refl))) T2).
Defined.

End FormatNumberLaws.

(** ** The status summary of the hook *)

Section HookFacts.

Context {N : Type}.

Lemma status_counts (l : list (Resource N)) :
  (List.length (filter (is_status critical) l) +
   List.length (filter (is_status warning) l) +
   List.length (filter (is_status healthy) l) = List.length l)%nat.
Proof.
  induction l as [|r l IH]; [reflexivity|].
  cbn [filter]. unfold is_status in *.
  destruct (status r); cbn [List.length]; lia.
Qed.

Lemma existsb_filter (p : Resource N -> bool) (l : list (Resource N)) :
  existsb p l = true <-> (0 < List.length (filter p l))%nat.
Proof.
  induction l as [|r l IH]; cbn; [split; [discriminate|lia]|].
  destruct (p r); cbn; [split; [lia|reflexivity]|exact IH].
Qed.

(** X3.  The hook's overall status and its three counters agree: the
    counters count the five resources (they add up to 5); the overall status
    is critical exactly when some resource is critical, warning exactly when
    none is critical and some is warning, healthy exactly when all five are
    healthy; no resource has a status worse than the overall status, and
    some resource has exactly that status. *)
Theorem systemStatus_is_worst (requirements : ResourceRequirements N) :
  (sm_critical (statusMetrics (Some requirements)) +
   sm_warning (statusMetrics (Some requirements)) +
   sm_healthy (statusMetrics (Some requirements)) = 5)%nat /\
  (systemStatus (Some requirements) = critical <->
   (0 < sm_critical (statusMetrics (Some requirements)))%nat) /\
  (systemStatus (Some requirements) = warning <->
   sm_critical (statusMetrics (Some requirements)) = 0%nat /\
   (0 < sm_warning (statusMetrics (Some requirements)))%nat) /\
  (systemStatus (Some requirements) = healthy <->
   sm_healthy (statusMetrics (Some requirements)) = 5%nat) /\
  Forall (fun r => (rank (status r) <= rank (systemStatus (Some requirements)))%nat)
    (Object_values requirements) /\
  Exists (fun r => status r = systemStatus (Some requirements))
    (Object_values requirements).
Proof.
  set (m := statusMetrics (Some requirements)).
  set (s := systemStatus (Some requirements)).
  pose proof (status_counts (Object_values requirements)) as Hsum.
  change (List.length (Object_values requirements)) with 5%nat in Hsum.
  pose proof (existsb_filter (is_status critical) (Object_values requirements)) as Hc.
  pose proof (existsb_filter (is_status warning) (Object_values requirements)) as Hw.
  assert (Hrank : Forall (fun r => (rank (status r) <= rank s)%nat) (Object_values requirements) /\
                  Exists (fun r => status r = s) (Object_values requirements)).
  { subst s. unfold systemStatus, Object_values. cbn [existsb]. unfold is_status.
    destruct (status (RR.cpu requirements)) eqn:E1,
             (status (RR.memory requirements)) eqn:E2,
             (status (RR.diskIO requirements)) eqn:E3,
             (status (RR.networkIO requirements)) eqn:E4,
             (status (RR.storage requirements)) eqn:E5;
      cbn [orb]; (split; [repeat (apply Forall_cons; [rewrite ?E1, ?E2, ?E3, ?E4, ?E5; cbn; lia|]); apply Forall_nil|]).
    all: first [ apply Exists_cons_hd; assumption
               | apply Exists_cons_tl, Exists_cons_hd; assumption
               | do 2 apply Exists_cons_tl; apply Exists_cons_hd; assumption
               | do 3 apply Exists_cons_tl; apply Exists_cons_hd; assumption
               | do 4 apply Exists_cons_tl; apply Exists_cons_hd; assumption ]. }
  subst m s. unfold systemStatus, statusMetrics in *. cbn [sm_critical sm_warning sm_healthy] in *.
  destruct (existsb (is_status critical) (Object_values requirements)).
  - split; [exact Hsum|]. split; [split; [intros _; apply Hc; reflexivity|reflexivity]|].
    assert (0 < List.length (filter (is_status critical) (Object_values requirements)))%nat
      by (apply Hc; reflexivity).
    split; [split; [discriminate|lia]|]. split; [split; [discriminate|lia]|]. exact Hrank.
  - assert (~ (0 < List.length (filter (is_status critical) (Object_values requirements)))%nat)
      by (intros H; apply Hc in H; discriminate).
    destruct (existsb (is_status warning) (Object_values requirements)).
    + assert (0 < List.length (filter (is_status warning) (Object_values requirements)))%nat
        by (apply Hw; reflexivity).
      split; [exact Hsum|]. split; [split; [discriminate|lia]|].
      split; [split; [intros _; lia|reflexivity]|].
      split; [split; [discriminate|lia]|]. exact Hrank.
    + assert (~ (0 < List.length (filter (is_status warning) (Object_values requirements)))%nat)
        by (intros H'; apply Hw in H'; discriminate).
      split; [exact Hsum|]. split; [split; [discriminate|lia]|].
      split; [split; [discriminate|lia]|].
      split; [split; [intros _; lia|reflexivity]|]. exact Hrank.
Qed.

End HookFacts.

(** ** The analyzer *)

Section AnalyzerOnDoubles.

Import Float64 Float64Facts.
Variable log10 : float64 -> float64.
Let num : JS.Number float64 := Float64.instance log10.
Existing Instance num.
Local Open Scope string_scope.

Lemma fmax_below_bool (a b t : float64) :
  fleb (fmax a b) t = fleb a t && fleb b t.
Proof.
  apply eq_true_iff_eq. rewrite andb_true_iff. apply fmax_below.
Qed.

Lemma Math_max4_within (t : float64) (rq : ResourceRequirements float64) :
  JS.leb (Math_max4 (utilization (RR.cpu rq)) (utilization (RR.memory rq))
            (utilization (RR.diskIO rq)) (utilization (RR.networkIO rq))) t
  = within t rq.
Proof.
  unfold Math_max4, within, analyzed. cbn [forallb JS.leb JS.Math_max num Float64.instance].
  rewrite !fmax_below_bool, andb_true_r, !andb_assoc. reflexivity.
Qed.

Lemma within_mono (t t' : float64) (rq : ResourceRequirements float64) :
  fleb t t' = true -> within t rq = true -> within t' rq = true.
Proof.
  intros Ht. unfold within, analyzed. cbn [forallb JS.leb num Float64.instance].
  rewrite !andb_true_iff. intros (H1 & H2 & H3 & H4 & _).
  repeat split; eapply fleb_trans; eassumption.
Qed.

Lemma getScalingRecommendation_cases (rq : ResourceRequirements float64) :
  getScalingRecommendation rq =
  if within (of_Q 0.5) rq
  then "Current resources are adequate with room for growth."
  else if within (of_Q 0.7) rq
  then "Current resources are adequate but approaching capacity."
  else if within (of_Q 0.9) rq
  then "Consider scaling the highlighted resources soon."
  else "Immediate scaling recommended for highlighted resources.".
Proof.
  unfold getScalingRecommendation. rewrite !Math_max4_within. reflexivity.
Qed.

(** X4.  [getScalingRecommendation] on binary64, for every record of
    requirements: the answer is the first of the four texts whose bound
    (0.5, 0.7, 0.9, none) all four of the CPU, memory, disk and network
    utilizations respect; a NaN utilization respects no bound, so it gives
    the last text; the storage resource is not read. *)
Theorem recommendation_thresholds (rq : ResourceRequirements float64) :
  (getScalingRecommendation rq =
     "Current resources are adequate with room for growth."
   <-> within (of_Q 0.5) rq = true) /\
  (getScalingRecommendation rq =
     "Current resources are adequate but approaching capacity."
   <-> within (of_Q 0.7) rq = true /\ within (of_Q 0.5) rq = false) /\
  (getScalingRecommendation rq =
     "Consider scaling the highlighted resources soon."
   <-> within (of_Q 0.9) rq = true /\ within (of_Q 0.7) rq = false) /\
  (getScalingRecommendation rq =
     "Immediate scaling recommended for highlighted resources."
   <-> within (of_Q 0.9) rq = false).
Proof.
  rewrite getScalingRecommendation_cases.
  pose proof (within_mono (of_Q 0.5) (of_Q 0.7) rq eq_refl) as H57.
  pose proof (within_mono (of_Q 0.7) (of_Q 0.9) rq eq_refl) as H79.
  destruct (within (of_Q 0.5) rq), (within (of_Q 0.7) rq), (within (of_Q 0.9) rq);
    try (specialize (H57 eq_refl)); try (specialize (H79 eq_refl));
    try discriminate;
    repeat split; try discriminate; try reflexivity;
    try (intros [? ?]; discriminate).
Qed.

Lemma forallb_false_Exists {A} (f : A -> bool) (l : list A) :
  forallb f l = false <-> Exists (fun x => f x = false) l.
Proof.
  induction l as [|x l IH]; cbn.
  - split; [discriminate|]. intros H. inversion H.
  - rewrite Exists_cons, andb_false_iff, IH. reflexivity.
Qed.

Lemma forallb_true_Forall {A} (f : A -> bool) (l : list A) :
  forallb f l = true <-> Forall (fun x => f x = true) l.
Proof. rewrite forallb_forall, Forall_forall. reflexivity. Qed.

Lemma Forall_Exists_both {A} (P Q : A -> Prop) (l : list A) :
  Forall P l -> Exists Q l -> Exists (fun x => P x /\ Q x) l.
Proof.
  intros HP HQ. induction HQ as [x l H|x l H IH].
  - apply Exists_cons_hd. split; [|exact H]. inversion HP; assumption.
  - apply Exists_cons_tl. apply IH. inversion HP; assumption.
Qed.

(** The position of a utilization against 0.7 and 0.9 and the status the
    classifier gives it. *)
Lemma at_most_09 (u : float64) :
  fleb u (of_Q 0.9) = true <-> classify u <> critical /\ is_nan u = false.
Proof.
  unfold num. rewrite (classify_critical log10). split.
  - intros H. destruct (fleb_not_nan _ _ H) as [Hu _]. split; [|exact Hu].
    apply (fleb_not_fltb u (of_Q 0.9) Hu eq_refl) in H. congruence.
  - intros [H Hu]. apply (fleb_not_fltb u (of_Q 0.9) Hu eq_refl).
    destruct (fltb (of_Q 0.9) u); congruence.
Qed.

Lemma at_most_07 (u : float64) :
  fleb u (of_Q 0.7) = true <-> classify u = healthy /\ is_nan u = false.
Proof.
  unfold num. rewrite (classify_healthy log10). split.
  - intros H. destruct (fleb_not_nan _ _ H) as [Hu _].
    pose proof H as H7. apply (fleb_not_fltb u (of_Q 0.7) Hu eq_refl) in H7.
    repeat split; try assumption.
    apply (fleb_not_fltb u (of_Q 0.9) Hu eq_refl).
    apply (fleb_trans u (of_Q 0.7) (of_Q 0.9) H eq_refl).
  - intros [[_ H] Hu]. apply (fleb_not_fltb u (of_Q 0.7) Hu eq_refl). exact H.
Qed.

Lemma analyzed_classified
    (workload : option (Raw.WorkloadParams float64))
    (userResources : option (Raw.UserResources float64)) :
  Forall (fun res => status res = classify (utilization res))
    (analyzed (requirements (calculateResourceRequirements workload userResources))).
Proof.
  repeat constructor.
Qed.

(** X5.  The recommendation for the result of the estimator follows the
    statuses the estimator reports, on binary64 and for every input:
    immediate scaling exactly when one of CPU, memory, disk and network is
    critical or has a NaN utilization; scaling soon exactly when none of them
    is critical or NaN and one is warning; one of the two adequate texts
    exactly when all four are healthy and none is NaN.  The storage status
    does not enter. *)
Theorem recommendation_follows_statuses
    (workload : option (Raw.WorkloadParams float64))
    (userResources : option (Raw.UserResources float64)) :
  (getScalingRecommendation
     (requirements (calculateResourceRequirements workload userResources)) =
     "Immediate scaling recommended for highlighted resources."
   <-> Exists (fun res => status res = critical \/ is_nan (utilization res) = true)
         (analyzed (requirements (calculateResourceRequirements workload userResources)))) /\
  (getScalingRecommendation
     (requirements (calculateResourceRequirements workload userResources)) =
     "Consider scaling the highlighted resources soon."
   <-> Forall (fun res => status res <> critical /\ is_nan (utilization res) = false)
         (analyzed (requirements (calculateResourceRequirements workload userResources))) /\
       Exists (fun res => status res = warning)
         (analyzed (requirements (calculateResourceRequirements workload userResources)))) /\
  (getScalingRecommendation
     (requirements (calculateResourceRequirements workload userResources)) =
     "Current resources are adequate with room for growth." \/
   getScalingRecommendation
     (requirements (calculateResourceRequirements workload userResources)) =
     "Current resources are adequate but approaching capacity."
   <-> Forall (fun res => status res = healthy /\ is_nan (utilization res) = false)
         (analyzed (requirements (calculateResourceRequirements workload userResources)))).
Proof.
  pose proof (analyzed_classified workload userResources) as Hc.
  pose proof (recommendation_thresholds
                (requirements (calculateResourceRequirements workload userResources)))
    as (H5 & H7 & H9 & Hi).
  set (rq := requirements (calculateResourceRequirements workload userResources)) in *.
  clearbody rq.
  assert (W9 : within (of_Q 0.9) rq = true <->
               Forall (fun res => status res <> critical /\ is_nan (utilization res) = false)
                 (analyzed rq)).
  { unfold within. rewrite forallb_true_Forall. rewrite !Forall_forall in *.
    split; intros H res Hin; specialize (H res Hin); specialize (Hc res Hin).
    - rewrite Hc. apply at_most_09. exact H.
    - apply at_most_09. rewrite <- Hc. exact H. }
  assert (W7 : within (of_Q 0.7) rq = true <->
               Forall (fun res => status res = healthy /\ is_nan (utilization res) = false)
                 (analyzed rq)).
  { unfold within. rewrite forallb_true_Forall. rewrite !Forall_forall in *.
    split; intros H res Hin; specialize (H res Hin); specialize (Hc res Hin).
    - rewrite Hc. apply at_most_07. exact H.
    - apply at_most_07. rewrite <- Hc. exact H. }
  split; [|split].
  - rewrite Hi. unfold within. rewrite forallb_false_Exists.
    rewrite !Exists_exists. rewrite Forall_forall in Hc.
    split; intros (res & Hin & H); exists res; (split; [exact Hin|]);
      specialize (Hc res Hin).
    + destruct (is_nan (utilization res)) eqn:Hn; [right; reflexivity|left].
      rewrite Hc. destruct (classify (utilization res)) eqn:E; try reflexivity;
        exfalso; cbn [JS.leb num Float64.instance] in H;
        assert (fleb (utilization res) (of_Q 0.9) = true)
          by (apply at_most_09; split; [congruence|exact Hn]); congruence.
    + cbn [JS.leb num Float64.instance].
      destruct (fleb (utilization res) (of_Q 0.9)) eqn:E; [|reflexivity].
      apply at_most_09 in E. destruct E as [E1 E2]. rewrite <- Hc in E1.
      destruct H; congruence.
  - rewrite H9, W9. split; intros [Ha Hb]; (split; [exact Ha|]).
    + unfold within in Hb. rewrite forallb_false_Exists in Hb.
      pose proof (Forall_Exists_both _ _ _ Ha Hb) as Hx.
      pose proof (Forall_Exists_both _ _ _ Hc Hx) as Hy.
      eapply Exists_impl; [|exact Hy]. cbn beta.
      intros res (Hs & (Hnc & Hn) & Hle).
      cbn [JS.leb num Float64.instance] in Hle.
      destruct (status res) eqn:E; try reflexivity; [|congruence].
      exfalso. assert (fleb (utilization res) (of_Q 0.7) = true)
        by (apply at_most_07; split; [congruence|exact Hn]). congruence.
    + destruct (within (of_Q 0.7) rq) eqn:E; [|reflexivity]. exfalso.
      pose proof (proj1 W7 eq_refl) as E'.
      pose proof (Forall_Exists_both _ _ _ E' Hb) as Hx.
      apply Exists_exists in Hx. destruct Hx as (res & _ & (Hh & _) & Hw). congruence.
  - rewrite <- W7, H5, H7.
    pose proof (within_mono (of_Q 0.5) (of_Q 0.7) rq eq_refl) as Hm.
    destruct (within (of_Q 0.5) rq), (within (of_Q 0.7) rq); tauto.
Qed.

End AnalyzerOnDoubles.

Section Bottleneck.

Import Ideal IdealFacts.
Local Open Scope R_scope.
Context {show : Printable R}.

Lemma comparator_positive (x y : string * R) :
  JS.gtb (comparator x y) (JS.lit 0) = Rltb (snd x) (snd y).
Proof.
  unfold JS.gtb, comparator. ideal_ops. literals.
  destruct (Rlt_dec (snd x) (snd y)) as [H|H].
  - rewrite (Rltb_true _ _ H). apply Rltb_true. lra.
  - rewrite (Rltb_false (snd x) (snd y)) by lra. apply Rltb_false. lra.
Qed.

Lemma topResource_cases (rq : ResourceRequirements R) :
  let c := utilization (RR.cpu rq) in
  let m := utilization (RR.memory rq) in
  let d := utilization (RR.diskIO rq) in
  let n := utilization (RR.networkIO rq) in
  (topResource rq = ("CPU"%string, c) /\ m <= c /\ d <= c /\ n <= c) \/
  (topResource rq = ("Memory"%string, m) /\ c < m /\ d <= m /\ n <= m) \/
  (topResource rq = ("Disk I/O"%string, d) /\ c < d /\ m < d /\ n <= d) \/
  (topResource rq = ("Network I/O"%string, n) /\ c < n /\ m < n /\ d < n).
Proof.
  intros c m d n.
  unfold topResource, rankedResources. fold c m d n.
  cbn [sort_resources insert_sorted].
  rewrite !comparator_positive. cbn [snd].
  destruct (Rlt_dec d n) as [Hdn|Hdn];
    [rewrite (Rltb_true _ _ Hdn)|rewrite (Rltb_false d n) by lra];
    cbn [insert_sorted]; rewrite !comparator_positive; cbn [snd].
  - destruct (Rlt_dec m n) as [Hmn|Hmn];
      [rewrite (Rltb_true _ _ Hmn)|rewrite (Rltb_false m n) by lra];
      cbn [insert_sorted]; rewrite ?comparator_positive; cbn [snd].
    + destruct (Rlt_dec m d) as [Hmd|Hmd];
        [rewrite (Rltb_true _ _ Hmd)|rewrite (Rltb_false m d) by lra];
        cbn [insert_sorted]; rewrite ?comparator_positive; cbn [snd];
        (destruct (Rlt_dec c n) as [Hcn|Hcn];
         [rewrite (Rltb_true _ _ Hcn)|rewrite (Rltb_false c n) by lra];
         cbn [hd]; [right; right; right|left]; (split; [reflexivity|lra])).
    + destruct (Rlt_dec c m) as [Hcm|Hcm];
        [rewrite (Rltb_true _ _ Hcm)|rewrite (Rltb_false c m) by lra];
        cbn [hd]; [right; left|left]; (split; [reflexivity|lra]).
  - destruct (Rlt_dec m d) as [Hmd|Hmd];
      [rewrite (Rltb_true _ _ Hmd)|rewrite (Rltb_false m d) by lra];
      cbn [insert_sorted]; rewrite ?comparator_positive; cbn [snd].
    + destruct (Rlt_dec m n) as [Hmn|Hmn];
        [rewrite (Rltb_true _ _ Hmn)|rewrite (Rltb_false m n) by lra];
        cbn [insert_sorted]; rewrite ?comparator_positive; cbn [snd];
        (destruct (Rlt_dec c d) as [Hcd|Hcd];
         [rewrite (Rltb_true _ _ Hcd)|rewrite (Rltb_false c d) by lra];
         cbn [hd]; [right; right; left|left]; (split; [reflexivity|lra])).
    + destruct (Rlt_dec c m) as [Hcm|Hcm];
        [rewrite (Rltb_true _ _ Hcm)|rewrite (Rltb_false c m) by lra];
        cbn [hd]; [right; left|left]; (split; [reflexivity|lra]).
Qed.

Lemma Rleb_true (a b : R) : a <= b -> Rleb a b = true.
Proof. intros H. unfold Rleb. destruct (Rle_dec a b); [reflexivity|lra]. Qed.

Lemma Rleb_false (a b : R) : b < a -> Rleb a b = false.
Proof. intros H. unfold Rleb. destruct (Rle_dec a b); [lra|reflexivity]. Qed.

Lemma topResource_maximum (rq : ResourceRequirements R) :
  snd (topResource rq)
  = Math_max4 (utilization (RR.cpu rq)) (utilization (RR.memory rq))
      (utilization (RR.diskIO rq)) (utilization (RR.networkIO rq)).
Proof.
  unfold Math_max4. ideal_ops.
  destruct (topResource_cases rq) as [(E & H)|[(E & H)|[(E & H)|(E & H)]]];
    rewrite E; cbn [snd]; unfold Rmax; repeat destruct (Rle_dec _ _); lra.
Qed.

(** X6.  [identifyBottleneck] in exact arithmetic: the resource it looks at
    is the first, in the order CPU, memory, disk, network, whose utilization
    is the largest of the four; it reports no bottleneck when that
    utilization is at most 0.7 and names that resource, with the rounded
    percentage, when it is above 0.7; so it names a bottleneck exactly when
    [getScalingRecommendation] does not give one of its two adequate
    texts. *)
Theorem bottleneck_is_first_maximum (rq : ResourceRequirements R) :
  snd (topResource rq)
  = Math_max4 (utilization (RR.cpu rq)) (utilization (RR.memory rq))
      (utilization (RR.diskIO rq)) (utilization (RR.networkIO rq)) /\
  (utilization (RR.memory rq) <= utilization (RR.cpu rq) ->
   utilization (RR.diskIO rq) <= utilization (RR.cpu rq) ->
   utilization (RR.networkIO rq) <= utilization (RR.cpu rq) ->
   fst (topResource rq) = "CPU"%string) /\
  (utilization (RR.cpu rq) < utilization (RR.memory rq) ->
   utilization (RR.diskIO rq) <= utilization (RR.memory rq) ->
   utilization (RR.networkIO rq) <= utilization (RR.memory rq) ->
   fst (topResource rq) = "Memory"%string) /\
  (utilization (RR.cpu rq) < utilization (RR.diskIO rq) ->
   utilization (RR.memory rq) < utilization (RR.diskIO rq) ->
   utilization (RR.networkIO rq) <= utilization (RR.diskIO rq) ->
   fst (topResource rq) = "Disk I/O"%string) /\
  (utilization (RR.cpu rq) < utilization (RR.networkIO rq) ->
   utilization (RR.memory rq) < utilization (RR.networkIO rq) ->
   utilization (RR.diskIO rq) < utilization (RR.networkIO rq) ->
   fst (topResource rq) = "Network I/O"%string) /\
  (snd (topResource rq) <= 7 / 10 ->
   identifyBottleneck rq = "No significant bottlenecks detected"%string) /\
  (7 / 10 < snd (topResource rq) ->
   identifyBottleneck rq
   = ("Primary bottleneck: " ++ fst (topResource rq) ++ " (" ++
      ToString (round (snd (topResource rq) * 100)) ++ "% utilized)")%string) /\
  (identifyBottleneck rq = "No significant bottlenecks detected"%string <->
   getScalingRecommendation rq
   = "Current resources are adequate with room for growth."%string \/
   getScalingRecommendation rq
   = "Current resources are adequate but approaching capacity."%string).
Proof.
  split; [apply topResource_maximum|].
  assert (Hname :
    (utilization (RR.memory rq) <= utilization (RR.cpu rq) ->
     utilization (RR.diskIO rq) <= utilization (RR.cpu rq) ->
     utilization (RR.networkIO rq) <= utilization (RR.cpu rq) ->
     fst (topResource rq) = "CPU"%string) /\
    (utilization (RR.cpu rq) < utilization (RR.memory rq) ->
     utilization (RR.diskIO rq) <= utilization (RR.memory rq) ->
     utilization (RR.networkIO rq) <= utilization (RR.memory rq) ->
     fst (topResource rq) = "Memory"%string) /\
    (utilization (RR.cpu rq) < utilization (RR.diskIO rq) ->
     utilization (RR.memory rq) < utilization (RR.diskIO rq) ->
     utilization (RR.networkIO rq) <= utilization (RR.diskIO rq) ->
     fst (topResource rq) = "Disk I/O"%string) /\
    (utilization (RR.cpu rq) < utilization (RR.networkIO rq) ->
     utilization (RR.memory rq) < utilization (RR.networkIO rq) ->
     utilization (RR.diskIO rq) < utilization (RR.networkIO rq) ->
     fst (topResource rq) = "Network I/O"%string)).
  { destruct (topResource_cases rq) as [(E & H)|[(E & H)|[(E & H)|(E & H)]]];
      rewrite E; cbn [fst]; repeat split; intros; try reflexivity; exfalso; lra. }
  destruct Hname as (N1 & N2 & N3 & N4).
  split; [exact N1|]. split; [exact N2|]. split; [exact N3|]. split; [exact N4|].
  assert (Hlow : snd (topResource rq) <= 7 / 10 ->
                 identifyBottleneck rq = "No significant bottlenecks detected"%string).
  { intros H. unfold identifyBottleneck, JS.gtb. ideal_ops. literals.
    rewrite Rltb_false by lra. reflexivity. }
  assert (Hhigh : 7 / 10 < snd (topResource rq) ->
                  identifyBottleneck rq
                  = ("Primary bottleneck: " ++ fst (topResource rq) ++ " (" ++
                     ToString (round (snd (topResource rq) * 100)) ++
                     "% utilized)")%string).
  { intros H. unfold identifyBottleneck, JS.gtb. ideal_ops. literals.
    rewrite Rltb_true by lra. reflexivity. }
  split; [exact Hlow|]. split; [exact Hhigh|].
  unfold getScalingRecommendation. rewrite <- topResource_maximum.
  ideal_ops. literals.
  destruct (Rle_or_lt (snd (topResource rq)) (7 / 10)) as [H|H].
  - rewrite (Hlow H). split; [intros _|reflexivity].
    destruct (Rle_or_lt (snd (topResource rq)) (5 / 10)) as [H5|H5].
    + left. rewrite Rleb_true by lra. reflexivity.
    + right. rewrite Rleb_false by lra. rewrite Rleb_true by lra. reflexivity.
  - rewrite (Hhigh H). rewrite (Rleb_false _ (5 / 10)) by lra.
    rewrite (Rleb_false _ (7 / 10)) by lra.
    split; [intros E; cbn [append] in E; discriminate|].
    destruct (Rleb _ _); intros [E|E]; discriminate.
Qed.

End Bottleneck.

(** ** The memory estimate *)

Section MemoryBounds.

Import Ideal IdealFacts.
Local Open Scope R_scope.

Variable safeW : WorkloadParams R.
Variable safeR : UserResources R.
Hypothesis Hw : WorkloadParams_valid safeW.
Hypothesis Hr : UserResources_valid safeR.

Lemma singleInstanceStatsDMemory_nonneg : 0 <= singleInstanceStatsDMemory safeW.
Proof.
  pose proof (IdealEstimator.unique_nonneg safeW Hw) as Hu.
  destruct Hw as (_ & _ & _ & _ & Hf & _).
  unfold singleInstanceStatsDMemory, bytesPerMetricInMemory. ideal_ops. literals.
  assert (0 <= uniqueMetricsPerSecond safeW * flushIntervalSeconds safeW)
    by (apply Rmult_le_pos; lra).
  lra.
Qed.

Lemma singleInstanceCarbonMemory_nonneg : 0 <= singleInstanceCarbonMemory safeW.
Proof.
  pose proof (IdealEstimator.unique_nonneg safeW Hw) as Hu.
  unfold singleInstanceCarbonMemory, bytesPerMetricInMemory. ideal_ops. literals.
  lra.
Qed.

Lemma writesPerInstance_nonneg : 0 <= writesPerInstance safeW safeR.
Proof.
  pose proof (IdealEstimator.unique_nonneg safeW Hw) as Hu.
  destruct Hr as (_ & _ & _ & _ & _ & _ & Hc).
  unfold writesPerInstance, writesPerSecond. ideal_ops. apply ceil_nonneg.
  apply IdealEstimator.ratio_nonneg; lra.
Qed.

Lemma writeLoadFactor_bounds : 1 <= writeLoadFactor safeW safeR <= 12 / 10.
Proof.
  pose proof writesPerInstance_nonneg as Hn.
  unfold writeLoadFactor. ideal_ops. literals. split.
  - apply Rmin_glb; lra.
  - apply Rmin_l.
Qed.

Lemma effectiveStatsDMemory_floor : 5 / 100 <= effectiveStatsDMemory safeW safeR.
Proof.
  pose proof singleInstanceStatsDMemory_nonneg as Hs.
  destruct Hr as (_ & _ & _ & _ & _ & Hn & _).
  unfold effectiveStatsDMemory, statsdMemoryGB, statsdInstanceOverhead,
    memoryEfficiency.
  ideal_ops. literals. apply Rmin_glb; [|lra].
  assert (0 <= singleInstanceStatsDMemory safeW * (85 / 100) / UR.statsdInstances safeR)
    by (apply IdealEstimator.ratio_nonneg; lra).
  nra.
Qed.

Lemma effectiveCarbonMemory_floor : 75 / 1000 <= effectiveCarbonMemory safeW safeR.
Proof.
  pose proof singleInstanceCarbonMemory_nonneg as Hs.
  pose proof writeLoadFactor_bounds as [Hf _].
  destruct Hr as (_ & _ & _ & _ & _ & _ & Hc).
  unfold effectiveCarbonMemory, carbonMemoryGB, carbonInstanceOverhead,
    memoryEfficiency.
  ideal_ops. literals. apply Rmin_glb; [|lra].
  assert (0 <= singleInstanceCarbonMemory safeW * (85 / 100) / UR.carbonInstances safeR)
    by (apply IdealEstimator.ratio_nonneg; lra).
  assert (0 <= singleInstanceCarbonMemory safeW * (85 / 100) / UR.carbonInstances safeR
               * writeLoadFactor safeW safeR)
    by (apply Rmult_le_pos; lra).
  nra.
Qed.

Lemma graphiteMemoryGB_floor : 9 / 10 <= graphiteMemoryGB safeW.
Proof.
  pose proof (IdealEstimator.unique_nonneg safeW Hw) as Hu.
  destruct Hw as (_ & _ & _ & Hc & _).
  unfold graphiteMemoryGB, baseGraphiteMemory. ideal_ops. literals.
  assert (1 / 5 <= calculationComplexity safeW / 5 * (1 + uniqueMetricsPerSecond safeW / 100000)).
  { assert (1 / 5 <= calculationComplexity safeW / 5) by lra.
    assert (1 <= 1 + uniqueMetricsPerSecond safeW / 100000) by lra.
    nra. }
  lra.
Qed.

(** The memory estimate has a floor of 1.025 GB (the floor of 0.5 in the
    source never applies) and a ceiling that does not read the instance
    counts. *)
Lemma totalMemoryRequired_bounds :
  1025 / 1000 <= totalMemoryRequired safeW safeR <= memory_plateau safeW.
Proof.
  pose proof effectiveStatsDMemory_floor as H1.
  pose proof effectiveCarbonMemory_floor as H2.
  pose proof graphiteMemoryGB_floor as H3.
  assert (Hs : effectiveStatsDMemory safeW safeR
               <= singleInstanceStatsDMemory safeW * (4 / 10) + 5 / 100).
  { unfold effectiveStatsDMemory, statsdInstanceOverhead. ideal_ops. literals.
    apply Rmin_r. }
  assert (Hc : effectiveCarbonMemory safeW safeR
               <= singleInstanceCarbonMemory safeW * (4 / 10) + 75 / 1000).
  { unfold effectiveCarbonMemory, carbonInstanceOverhead. ideal_ops. literals.
    apply Rmin_r. }
  unfold totalMemoryRequired, memory_plateau, statsdInstanceOverhead,
    carbonInstanceOverhead.
  ideal_ops. literals. rewrite Rmax_right by lra. lra.
Qed.

End MemoryBounds.

Section MemoryLaws.

Import Ideal IdealFacts.
Local Open Scope R_scope.

Lemma memory_status_critical (safeW : WorkloadParams R) (safeR : UserResources R) :
  WorkloadParams_valid safeW -> UserResources_valid safeR ->
  UR.memory safeR <= 113 / 100 ->
  memoryStatus safeW safeR = critical.
Proof.
  intros Hw Hr Hm.
  destruct (totalMemoryRequired_bounds safeW safeR Hw Hr) as [Hlo _].
  destruct Hr as (_ & Hmem & _).
  unfold memoryStatus, getResourceStatus, JS.gtb. ideal_ops. literals.
  rewrite Rltb_true; [reflexivity|].
  assert (Hinv : 100 / 113 <= / UR.memory safeR).
  { replace (100 / 113) with (/ (113 / 100)) by field.
    apply Rinv_le_contravar; lra. }
  unfold Rdiv.
  apply Rlt_le_trans with (1025 / 1000 * (100 / 113)); [lra|].
  apply Rmult_le_compat; lra.
Qed.

(** X7.  The memory estimate in exact arithmetic, for every input: the
    requirement is at least 1.025 GB, so the reported value is at least 1.1
    GB and the floor of 0.5 GB in the source never applies; it never exceeds
    the plateau, which reads the workload only, whatever the instance
    counts; and with at most 1.13 GB of memory available (the default of 1
    GB included) the memory status is critical, and so is the overall
    status. *)
Theorem memory_floor_and_plateau
    (workload : option (Raw.WorkloadParams R))
    (userResources : option (Raw.UserResources R)) :
  (1025 / 1000
   <= totalMemoryRequired (safeWorkload workload) (safeResources userResources)
   <= memory_plateau (safeWorkload workload)) /\
  (11 / 10
   <= value (RR.memory (requirements
        (calculateResourceRequirements workload userResources)))
   <= round_up_1dp (memory_plateau (safeWorkload workload))) /\
  (UR.memory (safeResources userResources) <= 113 / 100 ->
   status (RR.memory (requirements
     (calculateResourceRequirements workload userResources))) = critical /\
   systemStatus (Some (requirements
     (calculateResourceRequirements workload userResources))) = critical) /\
  (userResources = None ->
   UR.memory (safeResources userResources) = 1).
Proof.
  pose proof (totalMemoryRequired_bounds (safeWorkload workload)
                (safeResources userResources) (safeWorkload_valid workload)
                (safeResources_valid userResources)) as [Hlo Hhi].
  split; [split; assumption|].
  split; [|split].
  - cbn [calculateResourceRequirements requirements resourceRequirements
         RR.memory memoryResource value].
    change (JS.Math_ceil
              (totalMemoryRequired (safeWorkload workload)
                 (safeResources userResources) * JS.lit 10) / JS.lit 10)
      with (round_up_1dp (totalMemoryRequired (safeWorkload workload)
                            (safeResources userResources))).
    unfold round_up_1dp. ideal_ops. literals. split.
    + pose proof (tenths_le _ _ Hlo) as H.
      rewrite (ceil_unique (1025 / 1000 * 10) 11) in H by lra. lra.
    + apply tenths_le. exact Hhi.
  - intros Hm.
    assert (Hs : status (RR.memory (requirements
                   (calculateResourceRequirements workload userResources)))
                 = critical).
    { apply memory_status_critical;
        [apply safeWorkload_valid|apply safeResources_valid|exact Hm]. }
    split; [exact Hs|].
    unfold systemStatus, Object_values. cbn [existsb]. unfold is_status at 2.
    rewrite Hs. rewrite orb_true_r. reflexivity.
  - intros ->. cbn [safeResources UR.memory JS.opt_field JS.or_default].
    ideal_ops. literals. apply Rmax_right. lra.
Qed.

End MemoryLaws.
